(** * Business logbook dashboard: reconciliation and metric pipeline

    A shallow embedding of the data pipeline of the dashboard
    ([app.py], [src/data_loader.py], [src/data_processor.py],
    [src/utils.py]) and the properties established about it.

    Conventions of the embedding:
    - a Python [str] is a [string] holding its UTF-8 bytes (so the euro
      sign is the three bytes of its encoding), and [chars] cuts it into
      its characters; whitespace is that of [str.isspace], in ASCII and
      beyond; letter case is that of ASCII, and of ASCII and Latin-1 in
      the search that ignores case; digits are the ASCII ones;
    - a Python/NumPy float is a [num]: an exact rational or one of the
      three non-finite values; binary64 rounding and overflow are not
      part of the model, so a statement about numbers is one about the
      values the operations would have without rounding;
    - a DataFrame is a [frame]: its column names and its rows, every row
      carrying its index label and its cells by column name (column
      names are taken to be distinct). *)

From Stdlib Require Import NArith ZArith QArith Qabs Qround String Ascii List Bool
  Lia Lqa.
Import ListNotations.

Open Scope string_scope.

(* ================================================================= *)
(** ** Python strings *)

Definition char_code (c : ascii) : N := N_of_ascii c.

(** [str.isspace] for a character of the ASCII range: TAB..CR, FS..US
    and the space. *)
Definition is_space (c : ascii) : bool :=
  let n := char_code c in
  (((9 <=? n) && (n <=? 13)) || ((28 <=? n) && (n <=? 32)))%N.

(** The whitespace of the C locale, skipped around a number by [float]
    and by the pandas tokenizer: TAB..CR and the space. *)
Definition is_space_c (c : ascii) : bool :=
  let n := char_code c in
  (((9 <=? n) && (n <=? 13)) || (n =? 32))%N.

Definition digit_of_char (c : ascii) : option N :=
  let n := char_code c in
  if ((48 <=? n) && (n <=? 57))%N then Some (n - 48)%N else None.

Definition char_of_digit (d : N) : ascii := ascii_of_N (48 + d).

Definition is_digit (c : ascii) : bool :=
  match digit_of_char c with Some _ => true | None => false end.

Definition lower_char (c : ascii) : ascii :=
  let n := char_code c in
  if ((65 <=? n) && (n <=? 90))%N then ascii_of_N (n + 32) else c.

Fixpoint lower (s : string) : string :=
  match s with
  | EmptyString => EmptyString
  | String c s' => String (lower_char c) (lower s')
  end.

(** [old in s] for strings. *)
Fixpoint str_in (sub s : string) : bool :=
  prefix sub s ||
  match s with
  | EmptyString => false
  | String _ s' => str_in sub s'
  end.

Fixpoint lstrip_by (sp : ascii -> bool) (s : string) : string :=
  match s with
  | EmptyString => EmptyString
  | String c s' => if sp c then lstrip_by sp s' else s
  end.

Fixpoint rstrip_by (sp : ascii -> bool) (s : string) : string :=
  match s with
  | EmptyString => EmptyString
  | String c s' =>
      match rstrip_by sp s' with
      | EmptyString => if sp c then EmptyString else String c EmptyString
      | r => String c r
      end
  end.

(* ----------------------------------------------------------------- *)
(** *** Characters

    A character is the byte sequence of its code point: a first byte and
    the continuation bytes (10xxxxxx) that the first byte announces. *)

Definition is_continuation (c : ascii) : bool :=
  let n := char_code c in ((0x80 <=? n) && (n <? 0xC0))%N.

(** The number of continuation bytes a first byte announces. *)
Definition trail_count (c : ascii) : nat :=
  let n := char_code c in
  if (n <? 0xC0)%N then 0
  else if (n <? 0xE0)%N then 1
  else if (n <? 0xF0)%N then 2
  else 3.

(** The continuation bytes, [n] at most, at the head of a text already
    cut into characters, and what follows them. *)
Fixpoint absorb (n : nat) (l : list string) : string * list string :=
  match n, l with
  | S n', String c EmptyString :: t =>
      if is_continuation c
      then let (a, r) := absorb n' t in (String c a, r)
      else (EmptyString, l)
  | _, _ => (EmptyString, l)
  end.

(** The characters of a text, in order.  (In a byte string that is not
    the encoding of a text, a continuation byte without a first byte
    counts as a character.) *)
Fixpoint chars (s : string) : list string :=
  match s with
  | EmptyString => []
  | String c s' =>
      let (a, r) := absorb (trail_count c) (chars s') in
      String c a :: r
  end.

(** [''.join(l)] *)
Definition join (l : list string) : string := fold_right append EmptyString l.

(** The character with a given code point. *)
Definition utf8 (cp : N) : string :=
  (if cp <? 0x80 then String (ascii_of_N cp) ""
   else if cp <? 0x800 then
     String (ascii_of_N (0xC0 + cp / 0x40))
       (String (ascii_of_N (0x80 + cp mod 0x40)) "")
   else if cp <? 0x10000 then
     String (ascii_of_N (0xE0 + cp / 0x1000))
       (String (ascii_of_N (0x80 + (cp / 0x40) mod 0x40))
          (String (ascii_of_N (0x80 + cp mod 0x40)) ""))
   else
     String (ascii_of_N (0xF0 + cp / 0x40000))
       (String (ascii_of_N (0x80 + (cp / 0x1000) mod 0x40))
          (String (ascii_of_N (0x80 + (cp / 0x40) mod 0x40))
             (String (ascii_of_N (0x80 + cp mod 0x40)) ""))))%N.

(** The code points [str.isspace] and the class [\s] of [re] hold for
    whitespace: the controls TAB..CR and FS..US, the space, NEL, the
    no-break space, the Ogham space mark, EN QUAD..HAIR SPACE, the line
    and paragraph separators, the narrow no-break space, the medium
    mathematical space and the ideographic space. *)
Definition space_code_points : list N :=
  [0x09; 0x0A; 0x0B; 0x0C; 0x0D; 0x1C; 0x1D; 0x1E; 0x1F; 0x20; 0x85; 0xA0;
   0x1680; 0x2000; 0x2001; 0x2002; 0x2003; 0x2004; 0x2005; 0x2006; 0x2007;
   0x2008; 0x2009; 0x200A; 0x2028; 0x2029; 0x202F; 0x205F; 0x3000]%N.

(** [ch.isspace()] for one character. *)
Definition is_space_char (ch : string) : bool :=
  existsb (fun cp => (utf8 cp =? ch)%string) space_code_points.

Fixpoint drop_while {A : Type} (p : A -> bool) (l : list A) : list A :=
  match l with
  | [] => []
  | x :: t => if p x then drop_while p t else l
  end.

Fixpoint drop_while_end {A : Type} (p : A -> bool) (l : list A) : list A :=
  match l with
  | [] => []
  | x :: t =>
      match drop_while_end p t with
      | [] => if p x then [] else [x]
      | r => x :: r
      end
  end.

(** [s.strip()]: the whitespace characters at the two ends are dropped. *)
Definition strip (s : string) : string :=
  join (drop_while_end is_space_char (drop_while is_space_char (chars s))).

(** The lower case of one character in a search that ignores case
    ([re.IGNORECASE]): A..Z and the capital letters of Latin-1
    (U+00C0..U+00DE but the multiplication sign U+00D7, held in UTF-8 as
    0xC3 and a byte from 0x80 to 0x9E) go to the letter 32 places
    further.  Every other character is left as it is, as Python leaves
    the other characters of ASCII and Latin-1; the case pairs beyond
    Latin-1 are outside the embedding. *)
Definition lower_nocase (ch : string) : string :=
  match ch with
  | String c EmptyString => String (lower_char c) EmptyString
  | String c (String d EmptyString) =>
      let n := char_code d in
      if ((char_code c =? 0xC3) && (0x80 <=? n) && (n <=? 0x9E) && negb (n =? 0x97))%N
      then String c (String (ascii_of_N (n + 0x20)) EmptyString)
      else ch
  | _ => ch
  end.

(** A text with each character in the lower case of [lower_nocase]. *)
Definition fold_case (s : string) : string := join (map lower_nocase (chars s)).

(** [s.replace(old, new)]: left to right, occurrences do not overlap.
    [skip] counts the characters of a matched occurrence still to be
    dropped. *)
Fixpoint replace_from (old new : string) (skip : nat) (s : string) : string :=
  match s with
  | EmptyString => EmptyString
  | String c s' =>
      match skip with
      | S k => replace_from old new k s'
      | O =>
          if prefix old s
          then new ++ replace_from old new (String.length old - 1) s'
          else String c (replace_from old new 0 s')
      end
  end.

Fixpoint insert_after_each (new s : string) : string :=
  match s with
  | EmptyString => EmptyString
  | String c s' => String c (new ++ insert_after_each new s')
  end.

Definition str_replace (old new s : string) : string :=
  match old with
  | EmptyString => new ++ insert_after_each new s
  | _ => replace_from old new 0 s
  end.

(** The euro sign, U+20AC, in UTF-8. *)
Definition euro : string := "€".

(* ================================================================= *)
(** ** Numbers

    The operations below give the exact sum, product and quotient:
    where the program rounds a result to binary64, the embedding keeps
    the rational. *)

Inductive num : Type :=
  | Fin (q : Q)
  | PInf
  | NInf
  | NaN.

Definition zero : num := Fin 0.

Definition Qsgn (q : Q) : comparison := (Qnum q ?= 0)%Z.

Definition nadd (a b : num) : num :=
  match a, b with
  | NaN, _ | _, NaN => NaN
  | PInf, NInf | NInf, PInf => NaN
  | PInf, _ | _, PInf => PInf
  | NInf, _ | _, NInf => NInf
  | Fin x, Fin y => Fin (Qred (x + y))
  end.

Definition nopp (a : num) : num :=
  match a with
  | Fin x => Fin (Qred (- x))
  | PInf => NInf
  | NInf => PInf
  | NaN => NaN
  end.

Definition nsub (a b : num) : num := nadd a (nopp b).

Definition inf_of_sign (c : comparison) : num :=
  match c with Gt => PInf | Lt => NInf | Eq => NaN end.

Definition nsign (a : num) : option comparison :=
  match a with
  | Fin x => Some (Qsgn x)
  | PInf => Some Gt
  | NInf => Some Lt
  | NaN => None
  end.

Definition sign_mul (a b : comparison) : comparison :=
  match a, b with
  | Eq, _ | _, Eq => Eq
  | Gt, c | c, Gt => c
  | Lt, Lt => Gt
  end.

Definition nmul (a b : num) : num :=
  match a, b with
  | Fin x, Fin y => Fin (Qred (x * y))
  | _, _ =>
      match nsign a, nsign b with
      | Some sa, Some sb => inf_of_sign (sign_mul sa sb)
      | _, _ => NaN
      end
  end.

(** Division as NumPy floats do it: a zero divisor gives a non-finite
    value, it does not raise. *)
Definition ndiv (a b : num) : num :=
  match a, b with
  | NaN, _ | _, NaN => NaN
  | Fin x, Fin y =>
      match Qsgn y with
      | Eq => inf_of_sign (Qsgn x)
      | _ => Fin (Qred (x / y))
      end
  | Fin _, _ => Fin 0
  | _, Fin y =>
      match Qsgn y with
      | Lt => nopp a
      | _ => a
      end
  | _, _ => NaN
  end.

(** [a > 0] *)
Definition gt0 (a : num) : bool :=
  match nsign a with Some Gt => true | _ => false end.

(** [a != 0] *)
Definition neq0 (a : num) : bool :=
  match nsign a with Some Eq => false | _ => true end.

(** [0 <= a] *)
Definition nonneg (a : num) : bool :=
  match nsign a with Some Lt | None => false | _ => true end.

Definition of_Z (z : Z) : num := Fin (inject_Z z).

(** Equality of numbers up to the representation of the rational. *)
Definition num_eq (a b : num) : Prop :=
  match a, b with
  | Fin x, Fin y => x == y
  | PInf, PInf | NInf, NInf | NaN, NaN => True
  | _, _ => False
  end.

(* ----------------------------------------------------------------- *)
(** *** Decimal literals *)

(** A run of digits, folded into [acc]; with [us] a single underscore is
    accepted between two digits (Python's numeric literals).  Returns the
    value, the number of digits read and the rest of the text. *)
Fixpoint scan_digits (us : bool) (acc : N) (cnt : nat) (s : string)
  : N * nat * string :=
  match s with
  | EmptyString => (acc, cnt, s)
  | String c s' =>
      match digit_of_char c with
      | Some d => scan_digits us (10 * acc + d)%N (S cnt) s'
      | None =>
          if us && (Ascii.eqb c "_") && negb (Nat.eqb cnt 0) then
            match s' with
            | String c2 _ =>
                if is_digit c2 then scan_digits us acc cnt s' else (acc, cnt, s)
            | EmptyString => (acc, cnt, s)
            end
          else (acc, cnt, s)
      end
  end.

Definition scan_sign (s : string) : bool * string :=
  match s with
  | String "-" s' => (true, s')
  | String "+" s' => (false, s')
  | _ => (false, s)
  end.

Definition pow10 (e : Z) : Q :=
  match e with
  | Z0 => 1
  | Zpos p => inject_Z (10 ^ Zpos p)
  | Zneg p => 1 # (10 ^ p)
  end.

(** The optional exponent part; [None] when what follows is not one. *)
Definition scan_exponent (us : bool) (s : string) : option (Z * string) :=
  match s with
  | EmptyString => Some (0%Z, s)
  | String c s' =>
      if Ascii.eqb c "e" || Ascii.eqb c "E" then
        let '(neg, s1) := scan_sign s' in
        match scan_digits us 0 0 s1 with
        | (_, O, _) => None
        | (e, _, rest) => Some (if neg then (- Z.of_N e)%Z else Z.of_N e, rest)
        end
      else Some (0%Z, s)
  end.

(** [digits [. digits] [exponent]] or [. digits [exponent]], the whole
    text. *)
Definition parse_decimal (us : bool) (s : string) : option Q :=
  let '(ip, ni, s1) := scan_digits us 0 0 s in
  let '(m, nf, s2) :=
    match s1 with
    | String "." s1' => scan_digits us ip 0 s1'
    | _ => (ip, O, s1)
    end in
  if Nat.eqb (ni + nf) 0 then None
  else
    match scan_exponent us s2 with
    | Some (e, EmptyString) =>
        Some (Qred (inject_Z (Z.of_N m) * pow10 (e - Z.of_nat nf)))
    | _ => None
    end.

Definition parse_special (s : string) : option num :=
  let t := lower s in
  if (t =? "inf") || (t =? "infinity") then Some PInf
  else if t =? "nan" then Some NaN
  else None.

Definition parse_number (us : bool) (s : string) : option num :=
  let '(neg, body) := scan_sign s in
  match parse_special body with
  | Some v => Some (if neg then nopp v else v)
  | None =>
      match parse_decimal us body with
      | Some q => Some (Fin (if neg then Qred (- q) else q))
      | None => None
      end
  end.

(** [float(s)] for a string: [None] stands for [ValueError].  (Python
    also reads the decimal digits of other scripts; the embedding reads
    the ASCII ones.) *)
Definition py_float (s : string) : option num :=
  parse_number true (rstrip_by is_space_c (lstrip_by is_space_c s)).

(** The text-to-number conversion of [pd.to_numeric]: [None] stands for a
    value that does not convert ([errors='coerce'] turns it into NaN). *)
Definition numeric_of_string (s : string) : option num :=
  match parse_number false (rstrip_by is_space_c (lstrip_by is_space_c s)) with
  | Some NaN => None
  | r => r
  end.

(* ================================================================= *)
(** ** Calendar dates and [strptime] *)

Record date : Type := mkDate { year : Z; month : Z; day : Z }.

Definition date_eqb (a b : date) : bool :=
  ((year a =? year b) && (month a =? month b) && (day a =? day b))%Z.

(** [a <= b] on timestamps at midnight. *)
Definition date_leb (a b : date) : bool :=
  ((year a <? year b) ||
   ((year a =? year b) &&
    ((month a <? month b) || ((month a =? month b) && (day a <=? day b)))))%Z.

Definition is_leap (y : Z) : bool :=
  (((y mod 4 =? 0) && negb (y mod 100 =? 0)) || (y mod 400 =? 0))%Z.

Definition days_in_month (y m : Z) : Z :=
  match m with
  | 1 | 3 | 5 | 7 | 8 | 10 | 12 => 31
  | 4 | 6 | 9 | 11 => 30
  | 2 => if is_leap y then 29 else 28
  | _ => 0
  end%Z.

Definition valid_date (d : date) : bool :=
  ((1 <=? year d) && (1 <=? month d) && (month d <=? 12) &&
   (1 <=? day d) && (day d <=? days_in_month (year d) (month d)))%Z.

(** Days since 1970-01-01 in the proleptic Gregorian calendar. *)
Definition days_from_civil (d : date) : Z :=
  (let y := if month d <=? 2 then year d - 1 else year d in
   let era := y / 400 in
   let yoe := y - era * 400 in
   let mp := (month d + 9) mod 12 in
   let doy := (153 * mp + 2) / 5 + day d - 1 in
   let doe := yoe * 365 + yoe / 4 - yoe / 100 + doy in
   era * 146097 + doe - 719468)%Z.

(** [date.weekday()]: Monday is 0. *)
Definition weekday (d : date) : Z := ((days_from_civil d + 3) mod 7)%Z.

(** The directives the formats of [process_logbook] use. *)
Inductive directive : Type :=
  | Dd            (* %d *)
  | Dm            (* %m *)
  | DY            (* %Y *)
  | Lit (c : ascii).

Record fields : Type := mkFields { f_year : Z; f_month : Z; f_day : Z }.

Definition dz (c : ascii) : Z :=
  match digit_of_char c with Some d => Z.of_N d | None => 0%Z end.

(** The alternatives of the regular expression of a directive, in the
    order of [_strptime]: each gives a value and the rest of the text. *)
Definition alternatives (d : directive) (s : string) : list (Z * string) :=
  match d with
  | Dd =>
      (* 3[0-1] | [1-2]\d | 0[1-9] | [1-9] | " "[1-9] *)
      (match s with
       | String a (String b r) =>
           let v := (10 * dz a + dz b)%Z in
           if is_digit a && is_digit b &&
              (((1 <=? v) && (v <=? 31))%Z)
           then [(v, r)] else []
       | _ => []
       end) ++
      (match s with
       | String a r =>
           if is_digit a && (1 <=? dz a)%Z then [(dz a, r)] else []
       | _ => []
       end) ++
      (match s with
       | String " " (String b r) =>
           if is_digit b && (1 <=? dz b)%Z then [(dz b, r)] else []
       | _ => []
       end)
  | Dm =>
      (* 1[0-2] | 0[1-9] | [1-9] *)
      (match s with
       | String a (String b r) =>
           let v := (10 * dz a + dz b)%Z in
           if is_digit a && is_digit b &&
              (((1 <=? v) && (v <=? 12))%Z)
           then [(v, r)] else []
       | _ => []
       end) ++
      (match s with
       | String a r =>
           if is_digit a && (1 <=? dz a)%Z then [(dz a, r)] else []
       | _ => []
       end)
  | DY =>
      (* \d\d\d\d *)
      match s with
      | String a (String b (String c (String d r))) =>
          if is_digit a && is_digit b && is_digit c && is_digit d
          then [((1000 * dz a + 100 * dz b + 10 * dz c + dz d)%Z, r)] else []
      | _ => []
      end
  | Lit c =>
      match s with
      | String a r => if Ascii.eqb a c then [(0%Z, r)] else []
      | _ => []
      end
  end.

Definition set_field (d : directive) (v : Z) (f : fields) : fields :=
  match d with
  | Dd => mkFields (f_year f) (f_month f) v
  | Dm => mkFields (f_year f) v (f_day f)
  | DY => mkFields v (f_month f) (f_day f)
  | Lit _ => f
  end.

Fixpoint first_some {A B : Type} (f : A -> option B) (l : list A) : option B :=
  match l with
  | [] => None
  | x :: t => match f x with Some y => Some y | None => first_some f t end
  end.

(** The match of the format's regular expression at the start of the
    text (first successful path, with backtracking). *)
Fixpoint regex_match (fmt : list directive) (f : fields) (s : string)
  : option (fields * string) :=
  match fmt with
  | [] => Some (f, s)
  | d :: fmt' =>
      first_some (fun '(v, r) => regex_match fmt' (set_field d v f) r)
                 (alternatives d s)
  end.

(** [strptime] with an exact match: the whole text must be consumed and
    the fields must name a day of the calendar. *)
Definition strptime (fmt : list directive) (s : string) : option date :=
  match regex_match fmt (mkFields 1900 1 1) s with
  | Some (f, EmptyString) =>
      let d := mkDate (f_year f) (f_month f) (f_day f) in
      if valid_date d then Some d else None
  | _ => None
  end.

Definition fmt_dmy_slash : list directive := [Dd; Lit "/"; Dm; Lit "/"; DY]. (* %d/%m/%Y *)
Definition fmt_ymd_dash  : list directive := [DY; Lit "-"; Dm; Lit "-"; Dd]. (* %Y-%m-%d *)
Definition fmt_dmy_dash  : list directive := [Dd; Lit "-"; Dm; Lit "-"; DY]. (* %d-%m-%Y *)
Definition fmt_mdy_slash : list directive := [Dm; Lit "/"; Dd; Lit "/"; DY]. (* %m/%d/%Y *)
Definition fmt_ymd_slash : list directive := [DY; Lit "/"; Dm; Lit "/"; Dd]. (* %Y/%m/%d *)

(* ================================================================= *)
(** ** Cells and data frames *)

(** A value held by a cell or passed to a helper: [CNull] is [None]
    (and NaT in a datetime column), a float NaN is [CNum NaN]. *)
Inductive cell : Type :=
  | CNull
  | CStr (s : string)
  | CNum (n : num)
  | CDate (d : date).

(** [pd.isna] *)
Definition isna (c : cell) : bool :=
  match c with
  | CNull | CNum NaN => true
  | _ => false
  end.

Definition notna (c : cell) : bool := negb (isna c).

Definition num_eqb (a b : num) : bool :=
  match a, b with
  | Fin x, Fin y => Qeq_bool x y
  | PInf, PInf | NInf, NInf => true
  | _, _ => false
  end.

(** [a == b] on cell values; a null equals nothing. *)
Definition cell_eqb (a b : cell) : bool :=
  match a, b with
  | CStr x, CStr y => (x =? y)%string
  | CNum x, CNum y => num_eqb x y
  | CDate x, CDate y => date_eqb x y
  | _, _ => false
  end.

Record row : Type := mkRow { label : cell; cells : list (string * cell) }.

Record frame : Type := mkFrame { columns : list string; rows : list row }.

(** [pd.DataFrame()] *)
Definition empty_frame : frame := mkFrame [] [].

(** [df.empty]: no row or no column. *)
Definition is_empty (df : frame) : bool :=
  match rows df, columns df with
  | [], _ | _, [] => true
  | _, _ => false
  end.

(** [name in df.columns] *)
Definition has_col (df : frame) (name : string) : bool :=
  existsb (String.eqb name) (columns df).

Fixpoint cells_get (cs : list (string * cell)) (name : string) : cell :=
  match cs with
  | [] => CNull
  | (k, v) :: t => if (k =? name)%string then v else cells_get t name
  end.

Fixpoint cells_set (cs : list (string * cell)) (name : string) (v : cell)
  : list (string * cell) :=
  match cs with
  | [] => [(name, v)]
  | (k, x) :: t =>
      if (k =? name)%string then (k, v) :: t else (k, x) :: cells_set t name v
  end.

Fixpoint cells_del (cs : list (string * cell)) (name : string)
  : list (string * cell) :=
  match cs with
  | [] => []
  | (k, x) :: t =>
      if (k =? name)%string then cells_del t name else (k, x) :: cells_del t name
  end.

(** The cell of a row under a column. *)
Definition get (r : row) (name : string) : cell := cells_get (cells r) name.

(** [df[name]] as the list of its cells. *)
Definition col (df : frame) (name : string) : list cell :=
  map (fun r => get r name) (rows df).

(** [df[name] = f(row)], element by element: the column is overwritten
    when it exists and appended otherwise. *)
Definition set_col (df : frame) (name : string) (f : row -> cell) : frame :=
  mkFrame (if has_col df name then columns df else columns df ++ [name])
          (map (fun r => mkRow (label r) (cells_set (cells r) name (f r))) (rows df)).

(** [df.drop(name, axis=1)] *)
Definition drop_col (df : frame) (name : string) : frame :=
  mkFrame (filter (fun c => negb (c =? name)%string) (columns df))
          (map (fun r => mkRow (label r) (cells_del (cells r) name)) (rows df)).

(** [df[mask]] with the mask given row by row. *)
Definition filter_rows (p : row -> bool) (df : frame) : frame :=
  mkFrame (columns df) (filter p (rows df)).

(** [x in values] / [Series.isin(values)] for one cell. *)
Definition isin (values : list cell) (c : cell) : bool :=
  existsb (fun v => cell_eqb v c || (isna v && isna c)) values.

(** [Series.unique()]: first occurrences, in order; nulls count as one
    value. *)
Fixpoint unique_from (seen : list cell) (l : list cell) : list cell :=
  match l with
  | [] => []
  | c :: t =>
      if isin seen c then unique_from seen t
      else c :: unique_from (c :: seen) t
  end.

Definition unique (l : list cell) : list cell := unique_from [] l.

(** [Series.sum()] of a numeric column: nulls are skipped.  [None] when
    a cell is not a number (the sum is then not a number either). *)
Fixpoint sum_cells (l : list cell) : option num :=
  match l with
  | [] => Some zero
  | c :: t =>
      match sum_cells t with
      | None => None
      | Some acc =>
          match c with
          | CNum NaN | CNull => Some acc
          | CNum n => Some (nadd n acc)
          | _ => None
          end
      end
  end.

(** [pd.to_numeric(..., errors='coerce')] followed by [fillna(0)], for
    one cell. *)
Definition to_numeric_fill0 (c : cell) : num :=
  match c with
  | CStr s => match numeric_of_string s with Some n => n | None => zero end
  | CNum NaN => zero
  | CNum n => n
  | _ => zero
  end.

(** [pd.to_datetime(..., format=fmt, errors='coerce')] for one cell: a
    cell that already is a timestamp, or NaT, is returned as it is. *)
Definition to_datetime (fmt : list directive) (c : cell) : cell :=
  match c with
  | CStr s => match strptime fmt s with Some d => CDate d | None => CNull end
  | CDate d => CDate d
  | _ => CNull
  end.

(* ================================================================= *)
(** ** Monetary parser and formatter *)

(** [data_loader.convert_eu_to_number] *)
Definition convert_eu_to_number (amount_str : cell) : num :=
  match amount_str with
  | CStr s =>
      let clean_str := strip (str_replace euro "" s) in
      let clean_str :=
        if str_in "," clean_str
        then str_replace "," "." (str_replace "." "" clean_str)
        else clean_str in
      match py_float clean_str with
      | Some v => v
      | None => zero
      end
  | _ => zero
  end.

(** Decimal digits, least significant first. *)
Fixpoint digits_lsd (fuel : nat) (n : N) : list N :=
  match fuel with
  | O => []
  | S f =>
      (n mod 10)%N :: (if (n / 10 =? 0)%N then [] else digits_lsd f (n / 10)%N)
  end.

Definition digits_of (n : N) : list N := digits_lsd (S (N.to_nat (N.size n))) n.

(** The [,] option of the format mini-language, on digits given least
    significant first: a separator after every third digit that has a
    digit after it. *)
Fixpoint group3 (sep : ascii) (l : list ascii) : list ascii :=
  match l with
  | a :: b :: c :: ((_ :: _) as rest) => a :: b :: c :: sep :: group3 sep rest
  | _ => l
  end.

(** Rounding to the nearest integer, ties to even. *)
Definition round_half_even (x : Q) : Z :=
  let f := Qfloor x in
  match Qcompare (x - inject_Z f) (1 # 2) with
  | Lt => f
  | Gt => (f + 1)%Z
  | Eq => if Z.even f then f else (f + 1)%Z
  end.

(** [f"{q:,.2f}"] for a finite value. *)
Definition format_grouped_2f (q : Q) : string :=
  let cents := Z.to_N (round_half_even (Qabs q * 100)) in
  let ip := (cents / 100)%N in
  let fp := (cents mod 100)%N in
  (if Qlt_le_dec q 0 then "-" else "") ++
  string_of_list_ascii (rev (group3 "," (map char_of_digit (digits_of ip)))) ++
  String "." (String (char_of_digit (fp / 10)) (String (char_of_digit (fp mod 10)) "")).

(** [f"{value:,.2f}"]; [None] when the format raises. *)
Definition format_2f (value : cell) : option string :=
  match value with
  | CNum (Fin q) => Some (format_grouped_2f q)
  | CNum PInf => Some "inf"
  | CNum NInf => Some "-inf"
  | CNum NaN => Some "nan"
  | CDate _ => Some ",.2f"      (* datetime.__format__ is strftime *)
  | CStr _ | CNull => None      (* ValueError, TypeError *)
  end.

(** [utils.format_currency] *)
Definition format_currency (value : cell) : string :=
  match format_2f value with
  | Some s =>
      str_replace "X" "." (str_replace "." "," (str_replace "," "X" (s ++ " " ++ euro)))
  | None => "0,00 " ++ euro
  end.

(* ================================================================= *)
(** ** Loading the sheets ([data_loader.load_sheets_data])

    The sheets are given as what [get_all_values] returned for them
    (header row first), [None] standing for a worksheet that could not
    be read. *)

Definition sheet : Type := list (list string).

Fixpoint labelled_rows (headers : list string) (i : Z) (data : sheet) : list row :=
  match data with
  | [] => []
  | r :: t =>
      mkRow (CNum (of_Z i)) (combine headers (map CStr r))
      :: labelled_rows headers (i + 1) t
  end.

(** [pd.DataFrame(data, columns=headers)]; [None] when a data row does
    not have one cell per header (the constructor raises). *)
Definition data_frame (data : sheet) (headers : list string) : option frame :=
  if forallb (fun r => Nat.eqb (List.length r) (List.length headers)) data
  then Some (mkFrame headers (labelled_rows headers 0 data))
  else None.

(** A worksheet read inside its [try]: header row, then the data. *)
Definition read_sheet (values : option sheet) : option frame :=
  match values with
  | Some (headers :: data) => data_frame data headers
  | _ => None
  end.

(** The mapping used when the sheet "Mappa" cannot be read. *)
Definition default_mapping_data : sheet :=
  [ ["ACOS MEDICA"; "Acos Medica"];
    ["Bovo Garden Srl"; "Flobflower"];
    ["Business Gates S.r.l."; "Business Gates"];
    ["CARL ZEISS VISION ITALIA S.P.A."; "Zeiss"];
    ["CAROVILLA PIERLUIGI (SONIT)"; "Sonit"];
    ["Cisa S.p.a."; "Cisa"];
    ["CoLibrì System S.p.A."; "Colibrì"];
    ["CURCAPIL DI CARLUCCI DONATO SNC"; "Curcapil"];
    ["Elettrocasa S.r.l."; "Elettrocasa"];
    ["FIDELIA - S.R.L."; "Casaviva"];
    ["FLO.MAR. S.R.L.S."; "Flomar"];
    ["Fratelli Bonella"; "Fratelli Bonella"];
    ["HOMIT S.R.L."; "Divani Store"];
    ["NOWAVE"; "Nowave"];
    ["PATRIZIO BRESEGHELLO"; "Patrizio Breseghello"];
    ["POLONORD ADESTE"; "Polonord"];
    ["SAIET"; "Saiet"];
    ["SAN PIETRO LAB"; "San Pietro Lab"];
    ["Sivec Srl"; "Passione Fiori"];
    ["STILMAR DI MARISE RICCARDO (COCCOLE)"; "Coccole"];
    ["TOMAINO SRL"; "Tomaino"] ].

Definition default_mapping_df : frame :=
  mkFrame ["Cliente"; "Cliente Map"]
          (labelled_rows ["Cliente"; "Cliente Map"] 0 default_mapping_data).

(** [df.dropna(how='all')] *)
Definition dropna_all (df : frame) : frame :=
  filter_rows (fun r => negb (forallb (fun kv => isna (snd kv)) (cells r))) df.

(** The characters of the class [[€.,\s]]. *)
Definition money_char (ch : string) : bool :=
  (ch =? euro)%string || (ch =? ".")%string || (ch =? ",")%string ||
  is_space_char ch.

(** [re.sub(r'[€.,\s]', '', s)] *)
Definition strip_money_chars (s : string) : string :=
  join (filter (fun ch => negb (money_char ch)) (chars s)).

(** The four steps applied to every compensation column, for one cell:
    empty text to NaN, deletion of the currency characters, conversion
    with coercion, NaN to 0. *)
Definition normalize_compensation (c : cell) : num :=
  let c1 := match c with CStr EmptyString => CNull | _ => c end in
  let c2 := match c1 with CStr s => CStr (strip_money_chars s) | _ => c1 end in
  to_numeric_fill0 c2.

(** [df.rename(columns={old: new})] *)
Definition rename_col (df : frame) (old new : string) : frame :=
  let rn := fun k => if (k =? old)%string then new else k in
  mkFrame (map rn (columns df))
          (map (fun r => mkRow (label r) (map (fun kv => (rn (fst kv), snd kv)) (cells r)))
               (rows df)).

(** [df.set_index(name)] *)
Definition set_index (df : frame) (name : string) : frame :=
  mkFrame (filter (fun c => negb (c =? name)%string) (columns df))
          (map (fun r => mkRow (get r name) (cells_del (cells r) name)) (rows df)).

Definition prepare_clienti (clienti_df : frame) : frame :=
  if has_col clienti_df "Actual" then
    drop_col (filter_rows (fun r => cell_eqb (get r "Actual") (CStr "Actual")) clienti_df)
             "Actual"
  else clienti_df.

(** The header of the collaborator column, with its usual misspelling
    put right. *)
Definition fix_header (compensi_df : frame) : frame :=
  if has_col compensi_df "Collaboaratore"
  then rename_col compensi_df "Collaboaratore" "Collaboratore"
  else compensi_df.

(** One turn of the loop over the columns. *)
Definition normalize_column (df : frame) (c : string) : frame :=
  if negb (c =? "Collaboratore")%string
  then set_col df c (fun r => CNum (normalize_compensation (get r c)))
  else df.

Definition prepare_compensi (compensi_df : frame) : frame :=
  let compensi_df := fix_header compensi_df in
  if has_col compensi_df "Collaboratore" then
    let compensi_df := set_index compensi_df "Collaboratore" in
    fold_left normalize_column (columns compensi_df) compensi_df
  else compensi_df.

Record sheets : Type := mkSheets {
  sh_logbook : option sheet;
  sh_clienti : option sheet;
  sh_compensi : option sheet;
  sh_mappa : option sheet
}.

Record tables : Type := mkTables {
  logbook_df : option frame;
  clienti_df : option frame;
  compensi_df : option frame;
  mapping_df : option frame
}.

(** [load_sheets_data] once the spreadsheet is open. *)
Definition load_sheets_data (s : sheets) : tables :=
  let logbook := read_sheet (sh_logbook s) in
  let clienti := read_sheet (sh_clienti s) in
  let compensi := read_sheet (sh_compensi s) in
  let mapping :=
    match read_sheet (sh_mappa s) with
    | Some m => m
    | None => default_mapping_df
    end in
  match logbook, clienti, compensi with
  | Some l, Some c, Some p =>
      mkTables (Some (dropna_all l))
               (Some (prepare_clienti (dropna_all c)))
               (Some (prepare_compensi (dropna_all p)))
               (Some (dropna_all mapping))
  | _, _, _ => mkTables logbook clienti compensi (Some mapping)
  end.

(* ================================================================= *)
(** ** Record normalizer ([data_processor.process_logbook]) *)

(** The locale in force for [strftime('%B')]: [app.py] asks for the
    Italian one and silently keeps the default when it is not installed. *)
Inductive locale : Type := it_IT | C_locale.

Definition month_name (loc : locale) (m : Z) : string :=
  match loc, m with
  | it_IT, 1 => "gennaio" | it_IT, 2 => "febbraio" | it_IT, 3 => "marzo"
  | it_IT, 4 => "aprile" | it_IT, 5 => "maggio" | it_IT, 6 => "giugno"
  | it_IT, 7 => "luglio" | it_IT, 8 => "agosto" | it_IT, 9 => "settembre"
  | it_IT, 10 => "ottobre" | it_IT, 11 => "novembre" | it_IT, 12 => "dicembre"
  | C_locale, 1 => "January" | C_locale, 2 => "February" | C_locale, 3 => "March"
  | C_locale, 4 => "April" | C_locale, 5 => "May" | C_locale, 6 => "June"
  | C_locale, 7 => "July" | C_locale, 8 => "August" | C_locale, 9 => "September"
  | C_locale, 10 => "October" | C_locale, 11 => "November" | C_locale, 12 => "December"
  | _, _ => ""
  end%Z.

(** [Timestamp.day_name()] *)
Definition day_name (d : date) : string :=
  match weekday d with
  | 0 => "Monday" | 1 => "Tuesday" | 2 => "Wednesday" | 3 => "Thursday"
  | 4 => "Friday" | 5 => "Saturday" | _ => "Sunday"
  end%Z.

(** [Series.dt.strftime('%B').str.lower()] for one cell. *)
Definition mese_of (loc : locale) (c : cell) : cell :=
  match c with
  | CDate d => CStr (lower (month_name loc (month d)))
  | _ => CNull
  end.

(** [Series.dt.day_name()] for one cell. *)
Definition giorno_of (c : cell) : cell :=
  match c with
  | CDate d => CStr (day_name d)
  | _ => CNull
  end.

Definition required_columns : list string :=
  ["Nome"; "Data"; "Mese"; "Giorno"; "Reparto1"; "Macro attività";
   "Micro attività"; "Cliente"; "Note"; "Minuti Impiegati"].

Definition fallback_formats : list (list directive) :=
  [fmt_ymd_dash; fmt_dmy_dash; fmt_mdy_slash; fmt_ymd_slash].

(** One turn of the loop over the fallback formats.  [invalid_dates] is a
    copy of the rows whose date is NaT, taken after the column was
    converted; the assignment goes through [processed_df.loc[...]], a
    fresh object, so [processed_df] is the same after the turn whatever
    the mask is. *)
Definition try_fallback_format (invalid_dates : frame) (processed_df : frame)
  (fmt : list directive) : frame :=
  let date_temp := map (to_datetime fmt) (col invalid_dates "Data") in
  let mask := map notna date_temp in
  if existsb (fun b => b) mask then processed_df else processed_df.

Definition convert_dates (processed_df : frame) : frame :=
  if has_col processed_df "Data" then
    let processed_df :=
      set_col processed_df "Data" (fun r => to_datetime fmt_dmy_slash (get r "Data")) in
    if existsb isna (col processed_df "Data") then
      let invalid_dates := filter_rows (fun r => isna (get r "Data")) processed_df in
      fold_left (try_fallback_format invalid_dates) fallback_formats processed_df
    else processed_df
  else set_col processed_df "Data" (fun _ => CNull).

Definition add_missing_columns (processed_df : frame) : frame :=
  fold_left
    (fun df c => if has_col df c then df else set_col df c (fun _ => CNull))
    required_columns processed_df.

Definition derive_month_and_day (loc : locale) (processed_df : frame) : frame :=
  if has_col processed_df "Data" && negb (forallb isna (col processed_df "Data")) then
    let processed_df :=
      if negb (has_col processed_df "Mese") || existsb isna (col processed_df "Mese")
      then set_col processed_df "Mese" (fun r => mese_of loc (get r "Data"))
      else processed_df in
    if negb (has_col processed_df "Giorno") || existsb isna (col processed_df "Giorno")
    then set_col processed_df "Giorno" (fun r => giorno_of (get r "Data"))
    else processed_df
  else processed_df.

Definition process_logbook (loc : locale) (df : option frame) : frame :=
  let processed_df := match df with Some d => d | None => empty_frame end in
  if is_empty processed_df then mkFrame required_columns []
  else
    let processed_df := convert_dates processed_df in
    let processed_df := add_missing_columns processed_df in
    let processed_df :=
      set_col processed_df "Minuti Impiegati"
              (fun r => CNum (to_numeric_fill0 (get r "Minuti Impiegati"))) in
    let processed_df := derive_month_and_day loc processed_df in
    filter_rows (fun r => notna (get r "Data")) processed_df.

(* ================================================================= *)
(** ** Filter engine ([data_processor.filter_data]) *)

(** [c >= start_ts] and [c <= end_ts] for a cell of the (datetime) date
    column; a NaT compares false. *)
Definition in_period (start_date end_date : date) (c : cell) : bool :=
  match c with
  | CDate d => date_leb start_date d && date_leb d end_date
  | _ => false
  end.

(** [sel and len(sel) > 0]: the selector is given and is not empty. *)
Definition active {A : Type} (sel : option (list A)) : option (list A) :=
  match sel with
  | Some (x :: t) => Some (x :: t)
  | _ => None
  end.

Definition filter_data (df : option frame) (start_date end_date : option date)
  (collaborators departments macro_activities micro_activities clients
     : option (list cell)) : frame :=
  match df with
  | None => empty_frame
  | Some df =>
      if is_empty df then empty_frame
      else
        let filtered_df := df in
        let filtered_df :=
          match start_date, end_date with
          | Some s, Some e =>
              if has_col filtered_df "Data"
              then filter_rows
                     (fun r => notna (get r "Data") && in_period s e (get r "Data"))
                     filtered_df
              else filtered_df
          | _, _ => filtered_df
          end in
        let filtered_df :=
          match active collaborators with
          | Some l =>
              if has_col filtered_df "Nome"
              then filter_rows (fun r => isin l (get r "Nome")) filtered_df
              else filtered_df
          | None => filtered_df
          end in
        let filtered_df :=
          match active departments with
          | Some l =>
              if has_col filtered_df "Reparto"
              then filter_rows (fun r => isin l (get r "Reparto")) filtered_df
              else if has_col filtered_df "Reparto1"
              then filter_rows (fun r => isin l (get r "Reparto1")) filtered_df
              else filtered_df
          | None => filtered_df
          end in
        let filtered_df :=
          match active macro_activities with
          | Some l =>
              if has_col filtered_df "Macro attività"
              then filter_rows (fun r => isin l (get r "Macro attività")) filtered_df
              else filtered_df
          | None => filtered_df
          end in
        match active clients with
        | Some l =>
            if has_col filtered_df "Cliente"
            then filter_rows (fun r => isin l (get r "Cliente")) filtered_df
            else filtered_df
        | None => filtered_df
        end
  end.

(* ================================================================= *)
(** ** Exceptions *)

Inductive exn : Type :=
  | KeyError (key : string)
  | TypeError (what : string)
  | Unsupported (what : string).   (* behaviour outside the embedding *)

Inductive result (A : Type) : Type :=
  | Ok (a : A)
  | Raise (e : exn).

Arguments Ok {A} a.
Arguments Raise {A} e.

Definition bind {A B : Type} (m : result A) (k : A -> result B) : result B :=
  match m with
  | Ok a => k a
  | Raise e => Raise e
  end.

Notation "x <- m ;; k" := (bind m (fun x => k))
  (at level 61, m at next level, right associativity).

(** [df[name]], which raises [KeyError] for a column that is not there. *)
Definition column (df : frame) (name : string) : result (list cell) :=
  if has_col df name then Ok (col df name) else Raise (KeyError name).

(** [df[name].sum()] of a column of numbers. *)
Definition column_sum (df : frame) (name : string) : result num :=
  c <- column df name ;;
  match sum_cells c with
  | Some n => Ok n
  | None => Raise (TypeError "sum of a column that is not numeric")
  end.

(* ----------------------------------------------------------------- *)
(** *** [sorted] *)

Definition cell_leb (a b : cell) : option bool :=
  match a, b with
  | CStr x, CStr y => Some (String.leb x y)
  | CDate x, CDate y => Some (date_leb x y)
  | CNum (Fin x), CNum (Fin y) => Some (Qle_bool x y)
  | _, _ => None
  end.

Fixpoint insert_sorted (x : cell) (l : list cell) : result (list cell) :=
  match l with
  | [] => Ok [x]
  | y :: t =>
      match cell_leb x y with
      | None => Raise (TypeError "values that cannot be ordered")
      | Some true => Ok (x :: l)
      | Some false => t' <- insert_sorted x t ;; Ok (y :: t')
      end
  end.

(** [sorted(l)]: values of different kinds cannot be compared. *)
Fixpoint sorted (l : list cell) : result (list cell) :=
  match l with
  | [] => Ok []
  | x :: t => t' <- sorted t ;; insert_sorted x t'
  end.

(* ================================================================= *)
(** ** Client name resolver ([app.find_client_row]) *)

Definition is_regex_meta (c : ascii) : bool :=
  existsb (Ascii.eqb c)
          (list_ascii_of_string ".^$*+?{}[]\|()").

Fixpoint regex_free (s : string) : bool :=
  match s with
  | EmptyString => true
  | String c s' => negb (is_regex_meta c) && regex_free s'
  end.

(** [Series.str.contains(pat, case=False, na=False)] for one cell.  The
    pattern is a regular expression; the embedding covers the patterns
    without metacharacters, which match as plain text, a character of
    the cell matching a character of the pattern when the two have the
    same lower case. *)
Definition contains_nocase (pat : string) (c : cell) : bool :=
  match c with
  | CStr s => str_in (fold_case pat) (fold_case s)
  | _ => false
  end.

Definition find_client_row (clienti_df : option frame) (client_name : cell)
  : result (option frame) :=
  match clienti_df with
  | None => Ok None
  | Some clienti_df =>
      if is_empty clienti_df then Ok None
      else if has_col clienti_df "Cliente" then
        let result :=
          filter_rows (fun r => cell_eqb (get r "Cliente") client_name) clienti_df in
        if negb (is_empty result) then Ok (Some result)
        else
          match client_name with
          | CStr pat =>
              if regex_free pat then
                let result :=
                  filter_rows (fun r => contains_nocase pat (get r "Cliente"))
                              clienti_df in
                if negb (is_empty result) then Ok (Some result) else Ok None
              else Raise (Unsupported "regular expression pattern")
          | _ => Raise (TypeError "first argument must be string or compiled pattern")
          end
      else Ok None
  end.

(* ================================================================= *)
(** ** Month labels ([app.extract_month_from_date]) *)

Definition month_map (m : Z) : cell :=
  match m with
  | 1 => CStr "Gennaio" | 2 => CStr "Febbraio" | 3 => CStr "Marzo"
  | 4 => CStr "Aprile" | 5 => CStr "Maggio" | 6 => CStr "Giugno"
  | 7 => CStr "Luglio" | 8 => CStr "Agosto" | 9 => CStr "Settembre"
  | 10 => CStr "Ottobre" | 11 => CStr "Novembre" | 12 => CStr "Dicembre"
  | _ => CNull
  end%Z.

Definition extract_month_from_date (date : cell) : cell :=
  match date with
  | CDate d => month_map (month d)
  | _ => CNull   (* pd.isna, or the [except] branch *)
  end.

(** The step of [main] that follows [process_logbook]. *)
Definition add_mese_formattato (logbook_processed : frame) : frame :=
  if has_col logbook_processed "Data"
  then set_col logbook_processed "MeseFormattato"
               (fun r => extract_month_from_date (get r "Data"))
  else logbook_processed.

(* ================================================================= *)
(** ** Metrics reconciler (the KPI block of [app.main]) *)

(** A Python dict built from pairs: a later pair replaces an earlier one
    with the same key. *)
Definition dict : Type := list (cell * cell).

Definition key_eqb (a b : cell) : bool :=
  match a, b with
  | CNull, CNull => true
  | _, _ => cell_eqb a b
  end.

(** [d.get(k, default)] *)
Definition dict_get (d : dict) (k default : cell) : cell :=
  match find (fun kv => key_eqb (fst kv) k) (rev d) with
  | Some kv => snd kv
  | None => default
  end.

(** [dict(zip(mapping_df['Cliente Map'], mapping_df['Cliente']))], under
    the guards of [main]. *)
Definition build_client_map (mapping_df : option frame) : dict :=
  match mapping_df with
  | Some m =>
      if negb (is_empty m) && has_col m "Cliente" && has_col m "Cliente Map"
      then combine (col m "Cliente Map") (col m "Cliente")
      else []
  | None => []
  end.

Record metrics : Type := mkMetrics {
  total_hours : num;
  total_period_cost : num;
  total_company_hours : num;
  average_hourly_cost : num;
  filtered_hours_cost : num;
  total_revenue : num;
  margin : num;
  margin_percentage : num
}.

Definition sixty : num := Fin 60.
Definition hundred : num := Fin 100.

(** [filtered_df['MeseFormattato'].dropna().unique().tolist()], under its
    guard. *)
Definition selected_months (filtered_df : frame) : list cell :=
  if negb (is_empty filtered_df) && has_col filtered_df "MeseFormattato"
  then unique (filter notna (col filtered_df "MeseFormattato"))
  else [].

(** [month_name and month_name in df.columns]: the column a month label
    names, if any. *)
Definition month_column (df : frame) (month_name : cell) : option string :=
  match month_name with
  | CStr EmptyString => None
  | CStr s => if has_col df s then Some s else None
  | _ => None
  end.

(** The loop over the months of the cost: a column whose sum fails is
    skipped ([except Exception: pass]). *)
Definition month_costs (relevant_compensi_df : frame) (months : list cell) : num :=
  fold_left
    (fun month_costs_sum month_name =>
       match month_column relevant_compensi_df month_name with
       | Some c =>
           match sum_cells (col relevant_compensi_df c) with
           | Some s => nadd month_costs_sum s
           | None => month_costs_sum
           end
       | None => month_costs_sum
       end)
    months zero.

(** The inner loop of the revenue: the months of one resolved client. *)
Definition client_revenue (client_row_data : frame) (months : list cell)
  (total : num) : num :=
  fold_left
    (fun total_revenue month_name =>
       match month_column client_row_data month_name with
       | Some c =>
           match sum_cells (map (fun v => CNum (convert_eu_to_number v))
                                (col client_row_data c)) with
           | Some s => nadd total_revenue s
           | None => total_revenue
           end
       | None => total_revenue
       end)
    months total.

Fixpoint revenue_loop (clienti_df : frame) (months : list cell)
  (mapped_clients : list cell) (total : num) : result num :=
  match mapped_clients with
  | [] => Ok total
  | client_name_mapped :: rest =>
      client_row_data <- find_client_row (Some clienti_df) client_name_mapped ;;
      let total :=
        match client_row_data with
        | Some d => if negb (is_empty d) then client_revenue d months total else total
        | None => total
        end in
      revenue_loop clienti_df months rest total
  end.

Definition is_nil {A : Type} (l : list A) : bool :=
  match l with [] => true | _ => false end.

Definition compute_metrics
  (filtered_df logbook_processed compensi_df clienti_df : frame)
  (client_map : dict)
  (collaborators_for_costs clients_for_revenue : list cell)
  (start_date end_date : date) : result metrics :=
  let selected_months_for_calc := selected_months filtered_df in
  minutes <- column_sum filtered_df "Minuti Impiegati" ;;
  let total_hours := ndiv minutes sixty in
  costs <-
    (if negb (is_nil collaborators_for_costs) &&
        negb (is_nil selected_months_for_calc) &&
        negb (is_empty compensi_df)
     then
       let relevant_compensi_df :=
         filter_rows (fun r => isin collaborators_for_costs (label r)) compensi_df in
       let total_period_cost := month_costs relevant_compensi_df selected_months_for_calc in
       let company_hours_df :=
         filter_data (Some logbook_processed) (Some start_date) (Some end_date)
                     (Some collaborators_for_costs) None None None None in
       company_minutes <- column_sum company_hours_df "Minuti Impiegati" ;;
       let total_company_hours := ndiv company_minutes sixty in
       let average_hourly_cost :=
         if gt0 total_company_hours
         then ndiv total_period_cost total_company_hours
         else zero in
       Ok (total_period_cost, total_company_hours, average_hourly_cost)
     else Ok (zero, zero, zero)) ;;
  let '(total_period_cost, total_company_hours, average_hourly_cost) := costs in
  let filtered_hours_cost := nmul total_hours average_hourly_cost in
  total_revenue <-
    (if negb (is_nil selected_months_for_calc) &&
        negb (is_nil clients_for_revenue) &&
        negb (is_empty clienti_df)
     then
       let mapped_clients_for_revenue :=
         map (fun cl => dict_get client_map cl cl) clients_for_revenue in
       revenue_loop clienti_df selected_months_for_calc mapped_clients_for_revenue zero
     else Ok zero) ;;
  let margin := nsub total_revenue filtered_hours_cost in
  let margin_percentage :=
    if neq0 total_revenue
    then nmul (ndiv margin total_revenue) hundred
    else zero in
  Ok (mkMetrics total_hours total_period_cost total_company_hours
                average_hourly_cost filtered_hours_cost total_revenue
                margin margin_percentage).

(* ================================================================= *)
(** ** The dashboard run ([app.main]) *)

(** What the sidebar widgets return. *)
Record selections : Type := mkSelections {
  start_date : date;
  end_date : date;
  selected_clients : list cell;
  selected_departments : list cell;
  selected_macro : list cell;
  selected_collaborators : list cell
}.

Inductive outcome : Type :=
  | Stopped (message : string)       (* st.error(...); st.stop() *)
  | Crashed (e : exn)                (* an exception leaves [main] *)
  | Displayed (m : metrics).

(** [l if l else None] *)
Definition or_none {A : Type} (l : list A) : option (list A) :=
  match l with [] => None | _ => Some l end.

(** [a > b] on dates. *)
Definition date_gtb (a b : date) : bool := negb (date_leb a b).

Definition run {A : Type} (m : result A) (k : A -> outcome) : outcome :=
  match m with
  | Ok a => k a
  | Raise e => Crashed e
  end.

Definition options_of (df : frame) (name : string) : result (list cell) :=
  c <- column df name ;; sorted (unique c).

(** The sidebar and the KPI block, reached once the gates of [main] are
    passed. *)
Definition dashboard (logbook_processed clienti compensi : frame)
  (client_map : dict) (ui : selections) : outcome :=
  let lp := Some logbook_processed in
  let sd := Some (start_date ui) in
  let ed := Some (end_date ui) in
  let date_filtered_df := filter_data lp sd ed None None None None None in
  run (if negb (is_empty date_filtered_df)
       then options_of date_filtered_df "Cliente" else Ok [])
    (fun active_clients =>
  run (options_of logbook_processed "Cliente") (fun _ =>
  run (if has_col logbook_processed "Reparto"
       then options_of logbook_processed "Reparto"
       else options_of logbook_processed "Reparto1") (fun _ =>
  run (options_of logbook_processed "Macro attività") (fun _ =>
  let pre_filtered_df :=
    filter_data lp sd ed None
                (or_none (selected_departments ui))
                (or_none (selected_macro ui))
                None
                (or_none (selected_clients ui)) in
  run (if negb (is_empty pre_filtered_df)
       then options_of pre_filtered_df "Nome" else Ok [])
    (fun active_collaborators =>
  run (options_of logbook_processed "Nome") (fun _ =>
  let filtered_df :=
    filter_data lp sd ed
                (or_none (selected_collaborators ui))
                (or_none (selected_departments ui))
                (or_none (selected_macro ui))
                None
                (or_none (selected_clients ui)) in
  let collaborators_for_costs :=
    if is_nil (selected_collaborators ui)
    then active_collaborators else selected_collaborators ui in
  let clients_for_revenue :=
    if is_nil (selected_clients ui)
    then active_clients else selected_clients ui in
  run (compute_metrics filtered_df logbook_processed compensi clienti
                       client_map collaborators_for_costs clients_for_revenue
                       (start_date ui) (end_date ui))
      Displayed)))))).

Definition main (loc : locale) (s : sheets) (ui : selections) : outcome :=
  let t := load_sheets_data s in
  match logbook_df t, clienti_df t, compensi_df t with
  | Some _, Some clienti, Some compensi =>
      let client_map := build_client_map (mapping_df t) in
      let logbook_processed := add_mese_formattato (process_logbook loc (logbook_df t)) in
      if is_empty logbook_processed then
        Stopped "Nessun dato valido nel foglio Logbook."
      else if negb (has_col logbook_processed "Data") ||
              forallb isna (col logbook_processed "Data") then
        Stopped "Colonna 'Data' non trovata o non valida nel foglio Logbook."
      else if date_gtb (start_date ui) (end_date ui) then
        Stopped "La data di fine deve essere successiva alla data di inizio"
      else dashboard logbook_processed clienti compensi client_map ui
  | _, _, _ =>
      Stopped "Errore nel caricamento dei dati. Verifica che i nomi dei fogli Google Sheets siano corretti."
  end.

(* ----------------------------------------------------------------- *)
(** *** The single-entry scenario *)

(** One entry, one compensation, one revenue row marked actual; no
    sheet "Mappa". *)
Definition scenario_sheets : sheets :=
  mkSheets
    (Some [ ["Nome"; "Data"; "Minuti Impiegati"; "Cliente"];
            ["A"; "05/03/2024"; "120"; "X"] ])
    (Some [ ["Cliente"; "Actual"; "Marzo"];
            ["X"; "Actual"; "€ 1.000,00"] ])
    (Some [ ["Collaboratore"; "Marzo"];
            ["A"; "300"] ])
    None.

(** March 2024, nothing selected in the sidebar. *)
Definition march_2024 : selections :=
  mkSelections (mkDate 2024 3 1) (mkDate 2024 3 31) [] [] [] [].

(** The table of a sheet that was read. *)
Definition frame_of (f : option frame) : frame :=
  match f with Some d => d | None => empty_frame end.

(** The canonical time-entry table of the scenario. *)
Definition scenario_logbook (loc : locale) : frame :=
  add_mese_formattato
    (process_logbook loc (logbook_df (load_sheets_data scenario_sheets))).

(* ================================================================= *)
(** ** Month names and quarters ([utils.months_it_to_num],
       [utils.quarter_from_month]) *)

(** [d[k]] guarded by [k in d], for a dict literal with text keys. *)
Fixpoint lookup {A : Type} (d : list (string * A)) (k : string) : option A :=
  match d with
  | [] => None
  | (k', v) :: t => if (k' =? k)%string then Some v else lookup t k
  end.

Definition is_ascii (s : string) : bool :=
  forallb (fun c => (char_code c <? 128)%N) (list_ascii_of_string s).

Definition is_upper_char (c : ascii) : bool :=
  let n := char_code c in ((65 <=? n) && (n <=? 90))%N.

Definition is_lower_char (c : ascii) : bool :=
  let n := char_code c in ((97 <=? n) && (n <=? 122))%N.

(** [str.isupper] and [str.islower]: a cased character at least, and
    none of the other case. *)
Definition isupper (s : string) : bool :=
  existsb is_upper_char (list_ascii_of_string s) &&
  negb (existsb is_lower_char (list_ascii_of_string s)).

Definition islower (s : string) : bool :=
  existsb is_lower_char (list_ascii_of_string s) &&
  negb (existsb is_upper_char (list_ascii_of_string s)).

(** The truth value of a cell. *)
Definition truthy (c : cell) : bool :=
  match c with
  | CNull => false
  | CStr s => negb (s =? "")%string
  | CNum (Fin q) => negb (Qeq_bool q 0)
  | CNum _ => true
  | CDate _ => true
  end.

Definition months_it_to_num (month_name : cell) : result cell :=
  let month_map :=
    [ ("gennaio", "Gennaio"); ("febbraio", "Febbraio"); ("marzo", "Marzo");
      ("aprile", "Aprile"); ("maggio", "Maggio"); ("giugno", "Giugno");
      ("luglio", "Luglio"); ("agosto", "Agosto"); ("settembre", "Settembre");
      ("ottobre", "Ottobre"); ("novembre", "Novembre"); ("dicembre", "Dicembre") ] in
  let month_name_lower :=
    match month_name with CStr s => lower s | _ => "" end in
  match lookup month_map month_name_lower with
  | Some v => Ok (CStr v)
  | None =>
      let english_map :=
        [ ("january", "Gennaio"); ("february", "Febbraio"); ("march", "Marzo");
          ("april", "Aprile"); ("may", "Maggio"); ("june", "Giugno");
          ("july", "Luglio"); ("august", "Agosto"); ("september", "Settembre");
          ("october", "Ottobre"); ("november", "Novembre"); ("december", "Dicembre") ] in
      match lookup english_map month_name_lower with
      | Some v => Ok (CStr v)
      | None =>
          if truthy month_name then
            match month_name with
            | CStr (String c rest as s) =>
                if is_ascii s then
                  if isupper (String c "") && islower rest then Ok month_name
                  else Ok CNull
                else Raise (Unsupported "letter case outside ASCII")
            | _ => Raise (TypeError "object is not subscriptable")
            end
          else Ok CNull
      end
  end.

(** [int(s)] for a text in base ten; [None] stands for [ValueError]. *)
Definition py_int (s : string) : option Z :=
  let '(neg, body) := scan_sign (strip s) in
  match scan_digits true 0 0 body with
  | (v, S _, EmptyString) => Some (if neg then (- Z.of_N v)%Z else Z.of_N v)
  | _ => None
  end.

(** [a <= x <= b] for a number [x] and two integer literals. *)
Definition between (a b : Z) (x : num) : bool :=
  match x with
  | Fin q => Qle_bool (inject_Z a) q && Qle_bool q (inject_Z b)
  | _ => false
  end.

Definition quarter_from_month (month : cell) : result (option Z) :=
  month_num <-
    match month with
    | CStr s =>
        let month_lower := lower s in
        let it_months :=
          [ ("gennaio", 1); ("febbraio", 2); ("marzo", 3); ("aprile", 4);
            ("maggio", 5); ("giugno", 6); ("luglio", 7); ("agosto", 8);
            ("settembre", 9); ("ottobre", 10); ("novembre", 11); ("dicembre", 12) ]%Z in
        let en_months :=
          [ ("january", 1); ("february", 2); ("march", 3); ("april", 4);
            ("may", 5); ("june", 6); ("july", 7); ("august", 8);
            ("september", 9); ("october", 10); ("november", 11); ("december", 12) ]%Z in
        match lookup it_months month_lower with
        | Some n => Ok (Some (of_Z n))
        | None =>
            match lookup en_months month_lower with
            | Some n => Ok (Some (of_Z n))
            | None =>
                if is_ascii s then
                  match py_int s with
                  | Some n => Ok (Some (of_Z n))
                  | None => Ok None              (* except: return None *)
                  end
                else Raise (Unsupported "digits outside ASCII")
            end
        end
    | CNum n => Ok (Some n)
    | CNull | CDate _ => Raise (TypeError "'<=' not supported between instances")
    end ;;
  match month_num with
  | None => Ok None
  | Some month_num =>
      if between 1 3 month_num then Ok (Some 1%Z)
      else if between 4 6 month_num then Ok (Some 2%Z)
      else if between 7 9 month_num then Ok (Some 3%Z)
      else if between 10 12 month_num then Ok (Some 4%Z)
      else Ok None
  end.

(* ================================================================= *)
(** ** Calendar helpers ([utils.get_month_range],
       [utils.get_days_in_month], [utils.get_working_days_in_month]) *)

(** What a call returns, or the exception it raises. *)
Inductive raising (A : Type) : Type :=
  | Returns (a : A)
  | ValueError (what : string)
  | OverflowError (what : string).

Arguments Returns {A} a.
Arguments ValueError {A} what.
Arguments OverflowError {A} what.

Definition and_then {A B : Type} (m : raising A) (k : A -> raising B) : raising B :=
  match m with
  | Returns a => k a
  | ValueError w => ValueError w
  | OverflowError w => OverflowError w
  end.

(** [datetime(year, month, day)]: the years 1 to 9999. *)
Definition datetime (y m d : Z) : raising date :=
  if negb ((1 <=? y) && (y <=? 9999))%Z then ValueError "year is out of range"
  else if negb ((1 <=? m) && (m <=? 12))%Z then ValueError "month must be in 1..12"
  else if negb ((1 <=? d) && (d <=? days_in_month y m))%Z
       then ValueError "day is out of range for month"
  else Returns (mkDate y m d).

(** [date.toordinal()]: 1 for 1 January of the year 1. *)
Definition toordinal (d : date) : Z := (days_from_civil d + 719163)%Z.

(** [date.fromordinal(n)] *)
Definition fromordinal (n : Z) : date :=
  (let z := n - 719163 + 719468 in
   let era := z / 146097 in
   let doe := z - era * 146097 in
   let yoe := (doe - doe / 1460 + doe / 36524 - doe / 146096) / 365 in
   let doy := doe - (365 * yoe + yoe / 4 - yoe / 100) in
   let mp := (5 * doy + 2) / 153 in
   let d := doy - (153 * mp + 2) / 5 + 1 in
   let m := if mp <? 10 then mp + 3 else mp - 9 in
   mkDate (if m <=? 2 then yoe + era * 400 + 1 else yoe + era * 400) m d)%Z.

(** [d + timedelta(days=n)] *)
Definition add_days (d : date) (n : Z) : raising date :=
  let o := (toordinal d + n)%Z in
  if ((1 <=? o) && (o <=? 3652059))%Z then Returns (fromordinal o)
  else OverflowError "date value out of range".

Definition get_month_range (year month : Z) : raising (date * date) :=
  and_then (datetime year month 1) (fun first_day =>
  and_then
    (if (month =? 12)%Z
     then and_then (datetime (year + 1) 1 1) (fun d => add_days d (-1))
     else and_then (datetime year (month + 1) 1) (fun d => add_days d (-1)))
    (fun last_day => Returns (first_day, last_day))).

(** [calendar.monthrange(year, month)[1]] *)
Definition get_days_in_month (year month : Z) : raising Z :=
  if negb ((1 <=? month) && (month <=? 12))%Z then ValueError "bad month number"
  else Returns (days_in_month year month).

(** The loop of [get_working_days_in_month]; [None] when the fuel runs
    out before the loop ends. *)
Fixpoint count_working_days (fuel : nat) (current_date last_date : date)
  (working_days : Z) : option (raising Z) :=
  match fuel with
  | O => None
  | S fuel' =>
      if date_leb current_date last_date then
        let working_days :=
          if (weekday current_date <? 5)%Z then (working_days + 1)%Z else working_days in
        match add_days current_date 1 with
        | Returns next => count_working_days fuel' next last_date working_days
        | ValueError w => Some (ValueError w)
        | OverflowError w => Some (OverflowError w)
        end
      else Some (Returns working_days)
  end.

Definition get_working_days_in_month (fuel : nat) (year month : Z) : option (raising Z) :=
  match get_month_range year month with
  | Returns (first_day, last_day) => count_working_days fuel first_day last_day 0
  | ValueError w => Some (ValueError w)
  | OverflowError w => Some (OverflowError w)
  end.

(* ================================================================= *)
(** ** Hours by collaborator and by client
       ([data_processor.aggregate_hours_by_collaborator],
       [data_processor.aggregate_hours_by_client]) *)

Definition is_text (c : cell) : bool :=
  match c with CStr _ => true | _ => false end.

(** One row of the aggregate for each group key, in order:
    [groupby(key)['Minuti Impiegati'].sum().reset_index()] and the
    column [Ore], the sum divided by 60. *)
Fixpoint group_rows (df : frame) (key : string) (i : Z) (keys : list cell)
  : result (list row) :=
  match keys with
  | [] => Ok []
  | k :: t =>
      match sum_cells (col (filter_rows (fun r => cell_eqb (get r key) k) df)
                           "Minuti Impiegati") with
      | Some s =>
          rest <- group_rows df key (i + 1) t ;;
          Ok (mkRow (CNum (of_Z i)) [(key, k); ("Ore", CNum (ndiv s sixty))] :: rest)
      | None => Raise (TypeError "sum of a column that is not numeric")
      end
  end.

(** The body the two aggregations share.  The groups are those of the
    keys that are not null, sorted; the embedding covers keys that are
    all texts. *)
Definition aggregate_hours (key : string) (df : option frame) : result frame :=
  match df with
  | None => Ok (mkFrame [key; "Ore"] [])
  | Some df =>
      if is_empty df || negb (has_col df key) || negb (has_col df "Minuti Impiegati")
      then Ok (mkFrame [key; "Ore"] [])
      else
        let named := filter notna (col df key) in
        if forallb is_text named then
          keys <- sorted (unique named) ;;
          agg_rows <- group_rows df key 0 keys ;;
          Ok (mkFrame [key; "Ore"] agg_rows)
        else Raise (Unsupported "group keys that are not text")
  end.

Definition aggregate_hours_by_collaborator (df : option frame) : result frame :=
  aggregate_hours "Nome" df.

Definition aggregate_hours_by_client (df : option frame) : result frame :=
  aggregate_hours "Cliente" df.

(* ================================================================= *)
(** ** Definitions used by the statements *)

(** What [set_col] does to one row. *)
Definition row_set (name : string) (f : row -> cell) (r : row) : row :=
  mkRow (label r) (cells_set (cells r) name (f r)).

(** A table with one entry in March and one in April. *)
Definition two_entries : frame :=
  mkFrame ["Nome"; "Data"]
    [ mkRow (CNum (of_Z 0)) [("Nome", CStr "A"); ("Data", CDate (mkDate 2024 3 5))];
      mkRow (CNum (of_Z 1)) [("Nome", CStr "B"); ("Data", CDate (mkDate 2024 4 9))] ].

(** All metrics at zero. *)
Definition zero_metrics : metrics :=
  mkMetrics zero zero zero zero zero zero zero zero.

(** Sheets whose sheet "Logbook" has its header row and no entry. *)
Definition empty_logbook_sheets : sheets :=
  mkSheets (Some [ ["Nome"; "Data"; "Minuti Impiegati"; "Cliente"] ])
           (sh_clienti scenario_sheets) (sh_compensi scenario_sheets) None.

(** The statement of C9: the KPI block run on an entirely empty
    time-entry table, its filtered entries being what [filter_data]
    returns for that table, gives all metrics at zero. *)
Definition zero_metrics_on_empty_table : Prop :=
  forall (logbook_processed compensi clienti : frame) (client_map : dict)
         (collaborators_for_costs clients_for_revenue : list cell) (s e : date),
    rows logbook_processed = [] ->
    compute_metrics
      (filter_data (Some logbook_processed) (Some s) (Some e) None None None None None)
      logbook_processed compensi clienti client_map
      collaborators_for_costs clients_for_revenue s e = Ok zero_metrics.

(** April 2024, nothing selected in the sidebar. *)
Definition april_2024 : selections :=
  mkSelections (mkDate 2024 4 1) (mkDate 2024 4 30) [] [] [] [].

(** Two entries of one collaborator for one client, in March and in
    April, with a compensation and a revenue for each of the two
    months. *)
Definition two_month_sheets : sheets :=
  mkSheets
    (Some [ ["Nome"; "Data"; "Minuti Impiegati"; "Cliente"];
            ["A"; "05/03/2024"; "120"; "X"];
            ["A"; "09/04/2024"; "60"; "X"] ])
    (Some [ ["Cliente"; "Actual"; "Marzo"; "Aprile"];
            ["X"; "Actual"; "€ 1.000,00"; "€ 2.000,00"] ])
    (Some [ ["Collaboratore"; "Marzo"; "Aprile"];
            ["A"; "300"; "400"] ])
    None.

(** The table [main] works on for these sheets. *)
Definition two_month_logbook : frame :=
  add_mese_formattato
    (process_logbook it_IT (logbook_df (load_sheets_data two_month_sheets))).

(** The date a raw row ends up with: only the day-first format counts. *)
Definition date_cell (df : frame) (r : row) : cell :=
  if has_col df "Data" then to_datetime fmt_dmy_slash (get r "Data") else CNull.

(** One turn of the loop of [add_missing_columns]. *)
Definition add_missing_step (df : frame) (c : string) : frame :=
  if has_col df c then df else set_col df c (fun _ => CNull).

(** [name in l] *)
Definition mem (name : string) (l : list string) : bool :=
  existsb (String.eqb name) l.

(** Whether [derive_month_and_day] overwrites the month column. *)
Definition mese_rederived (df : frame) : bool :=
  has_col df "Data" && negb (forallb isna (col df "Data")) &&
  (negb (has_col df "Mese") || existsb isna (col df "Mese")).

(** The duration cell a raw row is read with. *)
Definition raw_minutes (df : frame) (r : row) : cell :=
  if has_col df "Minuti Impiegati" then get r "Minuti Impiegati" else CNull.

(** A log whose only entry is dated in the ISO way. *)
Definition iso_logbook : frame :=
  mkFrame ["Nome"; "Data"; "Minuti Impiegati"; "Cliente"]
    [ mkRow (CNum (of_Z 0))
        [("Nome", CStr "A"); ("Data", CStr "2024-03-05");
         ("Minuti Impiegati", CStr "120"); ("Cliente", CStr "X")] ].

(** A log whose month column disagrees with its date column. *)
Definition stale_month_logbook : frame :=
  mkFrame ["Nome"; "Data"; "Mese"; "Minuti Impiegati"; "Cliente"]
    [ mkRow (CNum (of_Z 0))
        [("Nome", CStr "A"); ("Data", CStr "05/03/2024"); ("Mese", CStr "gennaio");
         ("Minuti Impiegati", CStr "120"); ("Cliente", CStr "X")] ].

(** The statement of C5 for the month column of [process_logbook]. *)
Definition month_always_rederived (loc : locale) (raw : frame) : Prop :=
  forall r, In r (rows (process_logbook loc (Some raw))) ->
            get r "Mese" = mese_of loc (get r "Data").

(** A log with a negative duration. *)
Definition negative_minutes_logbook : frame :=
  mkFrame ["Nome"; "Data"; "Minuti Impiegati"; "Cliente"]
    [ mkRow (CNum (of_Z 0))
        [("Nome", CStr "A"); ("Data", CStr "05/03/2024");
         ("Minuti Impiegati", CStr "-30"); ("Cliente", CStr "X")] ].

(** The statement of C6. *)
Definition minutes_never_negative (loc : locale) (raw : frame) : Prop :=
  forall r, In r (rows (process_logbook loc (Some raw))) ->
            exists n, get r "Minuti Impiegati" = CNum n /\ nonneg n = true.

(** The client map [main] builds when the sheet "Mappa" is missing. *)
Definition default_client_map : dict := build_client_map (Some default_mapping_df).

(** The amounts summed for one logbook client. *)
Definition revenue_of (client_map : dict) (clienti : frame) (months : list cell)
  (client : cell) : result num :=
  revenue_loop clienti months [dict_get client_map client client] zero.

(** The rows of the revenue table with a given name. *)
Definition rows_named (name : string) (clienti : frame) : frame :=
  filter_rows (fun r => cell_eqb (get r "Cliente") (CStr name)) clienti.

(** The statement of C2: the amounts summed for the logbook client
    "ACOS MEDICA" are those of the revenue row "Acos Medica". *)
Definition acos_resolves_to_short_name : Prop :=
  forall (clienti : frame) (months : list cell),
    has_col clienti "Cliente" = true ->
    (exists r, In r (rows clienti) /\ get r "Cliente" = CStr "Acos Medica") ->
    revenue_of default_client_map clienti months (CStr "ACOS MEDICA") =
    Ok (client_revenue (rows_named "Acos Medica" clienti) months zero).

(** A revenue table with a row under each of the two spellings. *)
Definition two_acos_rows : frame :=
  mkFrame ["Cliente"; "Marzo"]
    [ mkRow (CNum (of_Z 0)) [("Cliente", CStr "ACOS MEDICA"); ("Marzo", CStr "€ 5,00")];
      mkRow (CNum (of_Z 1)) [("Cliente", CStr "Acos Medica"); ("Marzo", CStr "€ 1.000,00")] ].

(** A revenue table with two names that hold an accented letter. *)
Definition accented_rows : frame :=
  mkFrame ["Cliente"; "Marzo"]
    [ mkRow (CNum (of_Z 0)) [("Cliente", CStr "Colibrì"); ("Marzo", CStr "€ 5,00")];
      mkRow (CNum (of_Z 1)) [("Cliente", CStr "CAFFÈ ROMA"); ("Marzo", CStr "€ 7,00")] ].

(** A revenue table with the row "Acos Medica" only. *)
Definition one_acos_row : frame :=
  mkFrame ["Cliente"; "Marzo"]
    [ mkRow (CNum (of_Z 0)) [("Cliente", CStr "Acos Medica"); ("Marzo", CStr "€ 1.000,00")] ].

(** The first byte of the euro sign. *)
Definition euro_lead : ascii := ascii_of_nat 226.

(** A byte below 0x80: a character of ASCII. *)
Definition is_ascii_char (c : ascii) : bool := (char_code c <? 0x80)%N.



(** A character of ASCII or Latin-1 (a code point below 256: one byte
    below 0x80, or 0xC2 or 0xC3 and one continuation byte). *)
Definition is_latin1_char (ch : string) : bool :=
  match ch with
  | String c EmptyString => is_ascii_char c
  | String c (String d EmptyString) =>
      ((char_code c =? 0xC2) || (char_code c =? 0xC3))%N && is_continuation d
  | _ => false
  end.

(** A text written with the characters of ASCII and Latin-1. *)
Definition is_latin1 (s : string) : bool := forallb is_latin1_char (chars s).

(** What the functions of the pipeline see in a digit character. *)
Record plain_digit (c : ascii) : Prop := {
  pd_digit : is_digit c = true;
  pd_ascii : is_ascii_char c = true;
  pd_space : is_space c = false;
  pd_space_c : is_space_c c = false;
  pd_comma : Ascii.eqb "," c = false;
  pd_dot : Ascii.eqb "." c = false;
  pd_x : Ascii.eqb "X" c = false;
  pd_euro : Ascii.eqb euro_lead c = false;
  pd_lower : lower_char c <> "i"%char /\ lower_char c <> "n"%char;
  pd_sign : c <> "-"%char /\ c <> "+"%char
}.

(** The number a list of digits, least significant first, stands for. *)
Definition value_lsd (ds : list N) : N :=
  fold_right (fun d acc => (d + 10 * acc)%N) 0%N ds.

(** The three replacements of [format_currency], for one character. *)
Definition swap_separators (c : ascii) : ascii :=
  let c1 := if Ascii.eqb "," c then "X"%char else c in
  let c2 := if Ascii.eqb "." c1 then ","%char else c1 in
  if Ascii.eqb "X" c2 then "."%char else c2.



(* ================================================================= *)
(** ** The compound predicate of the filter engine *)

(** What a selector of [filter_data] asks of a cell: nothing when the
    selector is omitted or empty, membership otherwise. *)
Definition selected (sel : option (list cell)) (c : cell) : bool :=
  match active sel with
  | Some l => isin l c
  | None => true
  end.

(** What [filter_data] asks of a row of a table with the columns of
    [df], once the table is known not to be empty. *)
Definition passes (df : frame) (s e : date)
  (collaborators departments macro_activities clients : option (list cell))
  (r : row) : bool :=
  (if has_col df "Data" then in_period s e (get r "Data") else true) &&
  (if has_col df "Nome" then selected collaborators (get r "Nome") else true) &&
  (if has_col df "Reparto" then selected departments (get r "Reparto")
   else if has_col df "Reparto1" then selected departments (get r "Reparto1")
   else true) &&
  (if has_col df "Macro attività" then selected macro_activities (get r "Macro attività")
   else true) &&
  (if has_col df "Cliente" then selected clients (get r "Cliente") else true).

(** Two cell values that [isin] and [unique] take for one value. *)
Definition same_value (a b : cell) : bool := cell_eqb a b || (isna a && isna b).

(** Whether [derive_month_and_day] overwrites the day column. *)
Definition giorno_rederived (df : frame) : bool :=
  has_col df "Data" && negb (forallb isna (col df "Data")) &&
  (negb (has_col df "Giorno") || existsb isna (col df "Giorno")).

(** The columns [process_logbook] computes; the others pass through. *)
Definition computed_columns : list string :=
  ["Data"; "Mese"; "Giorno"; "Minuti Impiegati"].

(** The messages [main] stops with. *)
Definition load_error : string :=
  "Errore nel caricamento dei dati. Verifica che i nomi dei fogli Google Sheets siano corretti.".
Definition no_valid_data : string := "Nessun dato valido nel foglio Logbook.".
Definition no_date_column : string :=
  "Colonna 'Data' non trovata o non valida nel foglio Logbook.".
Definition reversed_period : string :=
  "La data di fine deve essere successiva alla data di inizio".

(** The three sheets [main] cannot do without were read. *)
Definition essential_sheets_read (s : sheets) : bool :=
  match read_sheet (sh_logbook s), read_sheet (sh_clienti s),
        read_sheet (sh_compensi s) with
  | Some _, Some _, Some _ => true
  | _, _, _ => false
  end.

(** The time entries as loaded: the sheet "Logbook" without its rows
    that are all null. *)
Definition loaded_logbook (s : sheets) : frame :=
  match read_sheet (sh_logbook s) with
  | Some l => dropna_all l
  | None => empty_frame
  end.

(** The day after a day of the calendar. *)
Definition next_day (d : date) : date :=
  if (day d <? days_in_month (year d) (month d))%Z
  then mkDate (year d) (month d) (day d + 1)
  else if (month d <? 12)%Z then mkDate (year d) (month d + 1) 1
  else mkDate (year d + 1) 1 1.

(** The working days among [n] days in a row, the first of which is the
    weekday [w]. *)
Fixpoint working_days_from (w : Z) (n : nat) : Z :=
  match n with
  | O => 0
  | S n' => (if (w mod 7 <? 5)%Z then 1 else 0) + working_days_from (w + 1) n'
  end%Z.

(** The days of a month, in order. *)
Definition month_days (y m : Z) : list date :=
  map (fun k => mkDate y m (Z.of_nat k)) (seq 1 (Z.to_nat (days_in_month y m))).

(** [d.weekday() < 5]: Monday to Friday. *)
Definition is_working_day (d : date) : bool := (weekday d <? 5)%Z.

(** A table with the columns of the canonical time-entry table. *)
Definition canonical_entries : frame :=
  mkFrame ["Nome"; "Data"; "Reparto1"; "Macro attività"; "Cliente"]
    [ mkRow (CNum (of_Z 0))
        [("Nome", CStr "A"); ("Data", CDate (mkDate 2024 3 5)); ("Reparto1", CStr "R1");
         ("Macro attività", CStr "M1"); ("Cliente", CStr "X")];
      mkRow (CNum (of_Z 1))
        [("Nome", CStr "B"); ("Data", CDate (mkDate 2024 3 6)); ("Reparto1", CStr "R2");
         ("Macro attività", CStr "M1"); ("Cliente", CStr "X")] ].

(** Sheets whose only time entry is dated in the ISO way. *)
Definition iso_sheets : sheets :=
  mkSheets
    (Some [ ["Nome"; "Data"; "Minuti Impiegati"; "Cliente"];
            ["A"; "2024-03-05"; "120"; "X"] ])
    (Some [ ["Cliente"; "Actual"; "Marzo"];
            ["X"; "Actual"; "1.000,00"] ])
    (Some [ ["Collaboratore"; "Marzo"];
            ["A"; "300"] ])
    None.

(** The metrics of the single-entry scenario. *)
Definition scenario_metrics : metrics :=
  mkMetrics (Fin 2) (Fin 300) (Fin 2) (Fin 150) (Fin 300) (Fin 1000) (Fin 700) (Fin 70).

(** The duration of a row, when it is a finite number. *)
Definition minutes_q (r : row) : Q :=
  match get r "Minuti Impiegati" with
  | CNum (Fin q) => q
  | _ => 0
  end.

(** The sum of a list of rationals. *)
Definition qsum (l : list Q) : Q := fold_right Qplus 0 l.

(** Every duration of the table is a finite number. *)
Definition finite_minutes (df : frame) : Prop :=
  forall r, In r (rows df) -> exists q, get r "Minuti Impiegati" = CNum (Fin q).

(** Four entries, one of them without a name. *)
Definition hours_table : frame :=
  mkFrame ["Nome"; "Minuti Impiegati"]
    [ mkRow (CNum (of_Z 0)) [("Nome", CStr "B"); ("Minuti Impiegati", CNum (Fin 120))];
      mkRow (CNum (of_Z 1)) [("Nome", CStr "A"); ("Minuti Impiegati", CNum (Fin 60))];
      mkRow (CNum (of_Z 2)) [("Nome", CNull); ("Minuti Impiegati", CNum (Fin 15))];
      mkRow (CNum (of_Z 3)) [("Nome", CStr "A"); ("Minuti Impiegati", CNum (Fin 30))] ].

(** Its hours by collaborator. *)
Definition hours_by_name : frame :=
  mkFrame ["Nome"; "Ore"]
    [ mkRow (CNum (of_Z 0)) [("Nome", CStr "A"); ("Ore", CNum (Fin (3 # 2)))];
      mkRow (CNum (of_Z 1)) [("Nome", CStr "B"); ("Ore", CNum (Fin 2))] ].

(** The characters of a run of digits, most significant first. *)
Definition digit_chars (ds : list N) : list ascii := map char_of_digit ds.

(** The number a run of digits, most significant first, stands for. *)
Definition value_msd (ds : list N) : N :=
  fold_left (fun acc d => (10 * acc + d)%N) ds 0%N.

(* ================================================================= *)
(** * Properties *)

(* ----------------------------------------------------------------- *)
(** ** Sanity checks of the embedding *)

Example py_float_plain : py_float "1234.56" = Some (Fin (30864 # 25)).
Proof. reflexivity. Qed.

Example py_float_underscore : py_float " 1_000.5e1 " = Some (Fin 10005).
Proof. reflexivity. Qed.

Example py_float_bad : py_float "bad" = None /\ py_float "" = None /\ py_float "1__0" = None.
Proof. repeat split; reflexivity. Qed.

Example strptime_dmy : strptime fmt_dmy_slash "05/03/2024" = Some (mkDate 2024 3 5).
Proof. reflexivity. Qed.

Example strptime_short : strptime fmt_dmy_slash "5/3/2024" = Some (mkDate 2024 3 5).
Proof. reflexivity. Qed.

Example strptime_feb30 : strptime fmt_dmy_slash "30/02/2024" = None.
Proof. reflexivity. Qed.

Example strptime_iso : strptime fmt_ymd_dash "2024-03-05" = Some (mkDate 2024 3 5).
Proof. reflexivity. Qed.

Example weekday_example : weekday (mkDate 2024 3 5) = 1%Z.
Proof. reflexivity. Qed.

Example format_currency_1234_5 :
  format_currency (CNum (Fin (12345 # 10))) = "1.234,50 €".
Proof. reflexivity. Qed.

Example format_currency_million :
  format_currency (CNum (Fin (100000099 # 100))) = "1.000.000,99 €".
Proof. reflexivity. Qed.

Example convert_eu_example :
  convert_eu_to_number (CStr "€ 1.234,56") = Fin (30864 # 25).
Proof. reflexivity. Qed.

Example normalize_compensation_plain : normalize_compensation (CStr "300") = Fin 300.
Proof. reflexivity. Qed.

Example normalize_compensation_euro : normalize_compensation (CStr "€ 1.250") = Fin 1250.
Proof. reflexivity. Qed.

Example chars_example : chars "Colibrì 5 €" =
  ["C"; "o"; "l"; "i"; "b"; "r"; "ì"; " "; "5"; " "; "€"].
Proof. reflexivity. Qed.

Example utf8_euro : utf8 0x20AC = euro.
Proof. reflexivity. Qed.

(** A no-break space before the euro sign. *)
Example convert_eu_no_break_space :
  convert_eu_to_number (CStr ("1.234,56" ++ utf8 0xA0 ++ euro)) = Fin (30864 # 25).
Proof. vm_compute. reflexivity. Qed.

Example normalize_compensation_no_break_space :
  normalize_compensation (CStr ("550,00" ++ utf8 0xA0 ++ euro)) = Fin 55000.
Proof. vm_compute. reflexivity. Qed.

Example strip_wide_blanks :
  strip (utf8 0x2003 ++ " a b " ++ utf8 0x3000 ++ utf8 0x0A) = "a b".
Proof. vm_compute. reflexivity. Qed.

Example contains_nocase_accent :
  contains_nocase "caffì roma" (CStr "CAFFÌ ROMA") = true /\
  contains_nocase "COLIBRÌ" (CStr "CoLibrì System S.p.A.") = true /\
  contains_nocase "caffe" (CStr "CAFFÈ ROMA") = false.
Proof. repeat split; vm_compute; reflexivity. Qed.

Example scenario_runs : main it_IT scenario_sheets march_2024 =
  Displayed (mkMetrics (Fin 2) (Fin 300) (Fin 2) (Fin 150) (Fin 300)
                       (Fin 1000) (Fin 700) (Fin 70)).
Proof. vm_compute. reflexivity. Qed.

(* ----------------------------------------------------------------- *)
(** ** Frames: reading a cell after the column operations *)

Lemma cells_get_set_same cs name v : cells_get (cells_set cs name v) name = v.
Proof.
  induction cs as [|[k x] t IH]; simpl.
  - now rewrite String.eqb_refl.
  - destruct (k =? name)%string eqn:E; simpl; rewrite E; auto.
Qed.

Lemma cells_get_set_other cs name v other :
  name <> other -> cells_get (cells_set cs name v) other = cells_get cs other.
Proof.
  intros Hne. induction cs as [|[k x] t IH]; simpl.
  - destruct (name =? other)%string eqn:E; auto.
    apply String.eqb_eq in E. contradiction.
  - destruct (k =? name)%string eqn:E; simpl.
    + apply String.eqb_eq in E. subst k.
      destruct (name =? other)%string eqn:E2; auto.
      apply String.eqb_eq in E2. contradiction.
    + destruct (k =? other)%string; auto.
Qed.

Lemma rows_set_col df name f : rows (set_col df name f) = map (row_set name f) (rows df).
Proof. reflexivity. Qed.

Lemma get_row_set_same name f r : get (row_set name f r) name = f r.
Proof. apply cells_get_set_same. Qed.

Lemma get_row_set_other name f r other :
  name <> other -> get (row_set name f r) other = get r other.
Proof. apply cells_get_set_other. Qed.

Lemma has_col_set_col df name f other :
  has_col (set_col df name f) other = has_col df other || (other =? name)%string.
Proof.
  unfold set_col, has_col at 1; simpl.
  destruct (has_col df name) eqn:E.
  - destruct (other =? name)%string eqn:E2.
    + apply String.eqb_eq in E2. subst. fold (has_col df name). rewrite E. reflexivity.
    + now rewrite orb_false_r.
  - rewrite existsb_app. simpl. now rewrite orb_false_r.
Qed.

Lemma is_empty_rows df : rows df = [] -> is_empty df = true.
Proof. unfold is_empty. now intros ->. Qed.

Lemma is_empty_has_col df name :
  is_empty df = true -> has_col df name = true -> rows df = [].
Proof.
  unfold is_empty, has_col. destruct (rows df); auto.
  destruct (columns df); simpl; discriminate.
Qed.

(* ----------------------------------------------------------------- *)
(** ** Monetary parser *)

(** C7. [convert_eu_to_number] is a total function: it gives 1234.56 on
    "€ 1.234,56", and 0 on the empty string, on [None], on "bad", on
    every value that is not a string and on every string that [float]
    rejects once the symbol, the blanks and the separators are
    normalized. *)
Theorem convert_eu_to_number_total :
  num_eq (convert_eu_to_number (CStr "€ 1.234,56")) (Fin (123456 # 100)) /\
  convert_eu_to_number (CStr "") = zero /\
  convert_eu_to_number CNull = zero /\
  convert_eu_to_number (CStr "bad") = zero /\
  (forall v, (forall s, v <> CStr s) -> convert_eu_to_number v = zero) /\
  (forall s,
     let clean_str := strip (str_replace euro "" s) in
     py_float (if str_in "," clean_str
               then str_replace "," "." (str_replace "." "" clean_str)
               else clean_str) = None ->
     convert_eu_to_number (CStr s) = zero).
Proof.
  repeat split; try reflexivity.
  - intros v Hv. destruct v; try reflexivity. exfalso. now apply (Hv s).
  - intros s clean_str H. unfold convert_eu_to_number.
    fold clean_str. now rewrite H.
Qed.

(* ----------------------------------------------------------------- *)
(** ** Dates and periods *)

Lemma date_leb_trans a b c :
  date_leb a b = true -> date_leb b c = true -> date_leb a c = true.
Proof.
  unfold date_leb. intros H1 H2.
  destruct a as [ya ma da], b as [yb mb db], c as [yc mc dc]; simpl in *.
  rewrite ?orb_true_iff, ?andb_true_iff, ?Z.ltb_lt, ?Z.eqb_eq, ?Z.leb_le in *.
  lia.
Qed.

Lemma date_leb_refl a : date_leb a a = true.
Proof.
  unfold date_leb. rewrite !Z.eqb_refl, Z.leb_refl. simpl.
  now rewrite orb_true_r, orb_true_r.
Qed.

Lemma date_eqb_eq a b : date_eqb a b = true -> a = b.
Proof.
  destruct a, b; unfold date_eqb; simpl.
  rewrite !andb_true_iff, !Z.eqb_eq. intros [[-> ->] ->]. reflexivity.
Qed.

(** Two periods that contain the same rows of a table give the same
    run of the dashboard on it. *)
Section SamePeriod.
Variables (df : frame) (s e s' e' : date).
Hypothesis same : forall r, In r (rows df) ->
  in_period s e (get r "Data") = in_period s' e' (get r "Data").

Lemma filter_data_same_period c d m mi cl :
  filter_data (Some df) (Some s) (Some e) c d m mi cl =
  filter_data (Some df) (Some s') (Some e') c d m mi cl.
Proof.
  unfold filter_data. destruct (is_empty df); [reflexivity|].
  destruct (has_col df "Data"); [|reflexivity].
  replace (filter_rows (fun r => notna (get r "Data") && in_period s e (get r "Data")) df)
    with (filter_rows (fun r => notna (get r "Data") && in_period s' e' (get r "Data")) df).
  - reflexivity.
  - unfold filter_rows. f_equal. apply filter_ext_in.
    intros r Hr. now rewrite same.
Qed.

Lemma compute_metrics_same_period f comp cli cm cc cr :
  compute_metrics f df comp cli cm cc cr s e =
  compute_metrics f df comp cli cm cc cr s' e'.
Proof.
  unfold compute_metrics.
  destruct (column_sum f "Minuti Impiegati"); cbn [bind]; [|reflexivity].
  now rewrite filter_data_same_period.
Qed.

Lemma dashboard_same_period cli comp cm sc sd sm sco :
  dashboard df cli comp cm (mkSelections s e sc sd sm sco) =
  dashboard df cli comp cm (mkSelections s' e' sc sd sm sco).
Proof.
  unfold dashboard; cbn [start_date end_date selected_clients
    selected_departments selected_macro selected_collaborators].
  rewrite !filter_data_same_period.
  repeat match goal with
  | |- run ?m _ = run ?m _ => destruct m; cbn [run]; [|reflexivity]
  end;
  try rewrite !filter_data_same_period;
  repeat match goal with
  | |- run ?m _ = run ?m _ => destruct m; cbn [run]; [|reflexivity]
  end.
  all: now rewrite compute_metrics_same_period.
Qed.
End SamePeriod.

(* ----------------------------------------------------------------- *)
(** ** The single-entry scenario *)

Lemma main_scenario loc ui :
  main loc scenario_sheets ui =
  if date_gtb (start_date ui) (end_date ui)
  then Stopped "La data di fine deve essere successiva alla data di inizio"
  else dashboard (scenario_logbook loc)
         (frame_of (clienti_df (load_sheets_data scenario_sheets)))
         (frame_of (compensi_df (load_sheets_data scenario_sheets)))
         (build_client_map (mapping_df (load_sheets_data scenario_sheets))) ui.
Proof.
  unfold main.
  generalize (date_gtb (start_date ui) (end_date ui)). intros b.
  generalize dashboard. intros D.
  destruct loc; vm_compute; reflexivity.
Qed.

Lemma scenario_dates loc :
  forallb (fun r => cell_eqb (get r "Data") (CDate (mkDate 2024 3 5)))
          (rows (scenario_logbook loc)) = true.
Proof. destruct loc; vm_compute; reflexivity. Qed.

Lemma scenario_on_the_day loc :
  dashboard (scenario_logbook loc)
    (frame_of (clienti_df (load_sheets_data scenario_sheets)))
    (frame_of (compensi_df (load_sheets_data scenario_sheets)))
    (build_client_map (mapping_df (load_sheets_data scenario_sheets)))
    (mkSelections (mkDate 2024 3 5) (mkDate 2024 3 5) [] [] [] []) =
  Displayed (mkMetrics (Fin 2) (Fin 300) (Fin 2) (Fin 150) (Fin 300)
                       (Fin 1000) (Fin 700) (Fin 70)).
Proof. destruct loc; vm_compute; reflexivity. Qed.

(** C1. One entry (collaborator "A", 5 March 2024, 120 minutes, client
    "X"), "A" paid 300 for "Marzo", "X" invoiced "€ 1.000,00" for "Marzo"
    on a row marked actual, no selection in the sidebar and any period
    that contains the date: the dashboard computes 2 hours, 2 company
    hours, an average hourly cost of 150, a cost of 300 for the filtered
    hours, a revenue of 1000, a margin of 700 and a margin of 70 percent. *)
Theorem single_entry_scenario (loc : locale) (first_day last_day : date) :
  date_leb first_day (mkDate 2024 3 5) = true ->
  date_leb (mkDate 2024 3 5) last_day = true ->
  main loc scenario_sheets (mkSelections first_day last_day [] [] [] []) =
  Displayed (mkMetrics (Fin 2) (Fin 300) (Fin 2) (Fin 150) (Fin 300)
                       (Fin 1000) (Fin 700) (Fin 70)).
Proof.
  intros H1 H2.
  pose proof (date_leb_trans _ _ _ H1 H2) as H3.
  rewrite main_scenario.
  cbn [start_date end_date].
  unfold date_gtb. rewrite H3. cbn [negb].
  rewrite (dashboard_same_period _ first_day last_day (mkDate 2024 3 5) (mkDate 2024 3 5)).
  - apply scenario_on_the_day.
  - intros r Hr.
    pose proof (scenario_dates loc) as Hd.
    rewrite forallb_forall in Hd. specialize (Hd r Hr).
    destruct (get r "Data") as [| |n|d]; try discriminate Hd.
    apply date_eqb_eq in Hd. subst d.
    unfold in_period. rewrite H1, H2, date_leb_refl. reflexivity.
Qed.

Lemma single_entry_scenario_witness :
  main it_IT scenario_sheets
       (mkSelections (mkDate 2024 3 1) (mkDate 2024 3 31) [] [] [] []) =
  Displayed (mkMetrics (Fin 2) (Fin 300) (Fin 2) (Fin 150) (Fin 300)
                       (Fin 1000) (Fin 700) (Fin 70)).
Proof.
  apply (single_entry_scenario it_IT (mkDate 2024 3 1) (mkDate 2024 3 31));
    reflexivity.
Defined.

(* ----------------------------------------------------------------- *)
(** ** Filter engine *)

Lemma in_period_spec s e c :
  in_period s e c = true <->
  exists d, c = CDate d /\ date_leb s d = true /\ date_leb d e = true.
Proof.
  split.
  - destruct c as [| |n|d]; simpl; try discriminate.
    intros H. apply andb_true_iff in H. exists d. tauto.
  - intros [d [-> [H1 H2]]]. simpl. now rewrite H1, H2.
Qed.

Lemma notna_in_period s e c : notna c && in_period s e c = in_period s e c.
Proof. destruct c as [| |[]|]; reflexivity. Qed.

(** C8. On a table that has the date column, [filter_data] without any
    selector returns exactly the rows (in their order) whose date is not
    null and lies between the two ends of the period, both included; an
    empty list given for a selector has the effect of no selector. *)
Theorem filter_data_period_only (df : frame) (s e : date) :
  has_col df "Data" = true ->
  rows (filter_data (Some df) (Some s) (Some e) None None None None None) =
    filter (fun r => in_period s e (get r "Data")) (rows df) /\
  (forall r,
     In r (rows (filter_data (Some df) (Some s) (Some e) None None None None None)) <->
     In r (rows df) /\
     exists d, get r "Data" = CDate d /\ date_leb s d = true /\ date_leb d e = true) /\
  (forall co de ma mi cl,
     filter_data (Some df) (Some s) (Some e) (Some []) de ma mi cl =
       filter_data (Some df) (Some s) (Some e) None de ma mi cl /\
     filter_data (Some df) (Some s) (Some e) co (Some []) ma mi cl =
       filter_data (Some df) (Some s) (Some e) co None ma mi cl /\
     filter_data (Some df) (Some s) (Some e) co de (Some []) mi cl =
       filter_data (Some df) (Some s) (Some e) co de None mi cl /\
     filter_data (Some df) (Some s) (Some e) co de ma (Some []) cl =
       filter_data (Some df) (Some s) (Some e) co de ma None cl /\
     filter_data (Some df) (Some s) (Some e) co de ma mi (Some []) =
       filter_data (Some df) (Some s) (Some e) co de ma mi None).
Proof.
  intros Hcol.
  assert (Hrows :
    rows (filter_data (Some df) (Some s) (Some e) None None None None None) =
    filter (fun r => in_period s e (get r "Data")) (rows df)).
  { unfold filter_data; cbn [active].
    destruct (is_empty df) eqn:Hemp.
    - rewrite (is_empty_has_col df "Data" Hemp Hcol). reflexivity.
    - rewrite Hcol. cbn [filter_rows rows].
      apply filter_ext. intros r. apply notna_in_period. }
  split; [exact Hrows|]. split.
  - intros r. rewrite Hrows, filter_In, in_period_spec. tauto.
  - intros co de ma mi cl. repeat split; reflexivity.
Qed.

Lemma filter_data_period_only_witness :
  rows (filter_data (Some two_entries) (Some (mkDate 2024 3 1)) (Some (mkDate 2024 3 5))
                    None None None None None) =
  [ mkRow (CNum (of_Z 0)) [("Nome", CStr "A"); ("Data", CDate (mkDate 2024 3 5))] ].
Proof.
  rewrite (proj1 (filter_data_period_only two_entries (mkDate 2024 3 1) (mkDate 2024 3 5)
                                          eq_refl)).
  reflexivity.
Defined.

(* ----------------------------------------------------------------- *)
(** ** Sums and months of a table without rows *)

Lemma selected_months_empty df : rows df = [] -> selected_months df = [].
Proof.
  intros H. unfold selected_months. now rewrite (is_empty_rows df H).
Qed.

Lemma column_sum_empty df name :
  rows df = [] -> has_col df name = true -> column_sum df name = Ok zero.
Proof.
  intros Hr Hc. unfold column_sum, column, col. rewrite Hc, Hr. reflexivity.
Qed.

(* ----------------------------------------------------------------- *)
(** ** Record normalizer, row by row *)

Lemma try_fallback_format_keeps invalid_dates processed_df fmt :
  try_fallback_format invalid_dates processed_df fmt = processed_df.
Proof. unfold try_fallback_format. now destruct (existsb _ _). Qed.

Lemma fold_fallback_keeps invalid_dates fmts : forall processed_df,
  fold_left (try_fallback_format invalid_dates) fmts processed_df = processed_df.
Proof.
  induction fmts as [|fmt fmts IH]; intros p; simpl; auto.
  now rewrite try_fallback_format_keeps.
Qed.

Lemma convert_dates_eq df :
  convert_dates df = set_col df "Data" (date_cell df).
Proof.
  unfold convert_dates, date_cell.
  destruct (has_col df "Data") eqn:E.
  - destruct (existsb isna _); [apply fold_fallback_keeps|reflexivity].
  - reflexivity.
Qed.

Lemma add_missing_rows cols : forall df,
  exists g,
    rows (fold_left add_missing_step cols df) = map g (rows df) /\
    (forall r, label (g r) = label r) /\
    (forall r name,
       get (g r) name =
       if negb (has_col df name) && mem name cols then CNull else get r name) /\
    (forall name,
       has_col (fold_left add_missing_step cols df) name =
       has_col df name || mem name cols).
Proof.
  induction cols as [|c cols IH]; intros df.
  - exists (fun r => r). simpl. repeat split.
    + now rewrite map_id.
    + intros. now rewrite andb_false_r.
    + intros. now rewrite orb_false_r.
  - cbn [fold_left].
    destruct (has_col df c) eqn:Hc.
    + replace (add_missing_step df c) with df
        by (unfold add_missing_step; now rewrite Hc).
      destruct (IH df) as [g [Hr [Hl [Hg Hh]]]].
      exists g. repeat split; auto.
      * intros r name. rewrite Hg. unfold mem; simpl.
        destruct (name =? c) eqn:E; auto.
        apply String.eqb_eq in E. subst. now rewrite Hc.
      * intros name. rewrite Hh. unfold mem; simpl.
        destruct (name =? c) eqn:E; auto.
        apply String.eqb_eq in E. subst. now rewrite Hc.
    + replace (add_missing_step df c) with (set_col df c (fun _ => CNull))
        by (unfold add_missing_step; now rewrite Hc).
      destruct (IH (set_col df c (fun _ => CNull))) as [g [Hr [Hl [Hg Hh]]]].
      exists (fun r => g (row_set c (fun _ => CNull) r)). repeat split.
      * rewrite Hr, rows_set_col, map_map. reflexivity.
      * intros r. now rewrite Hl.
      * intros r name. rewrite Hg, has_col_set_col. unfold mem; simpl.
        destruct (name =? c) eqn:E.
        -- apply String.eqb_eq in E. subst.
           rewrite Hc, orb_true_r. simpl. apply get_row_set_same.
        -- rewrite orb_false_r. simpl.
           rewrite get_row_set_other; auto.
           intros ->. now rewrite String.eqb_refl in E.
      * intros name. rewrite Hh, has_col_set_col. unfold mem; simpl.
        now rewrite orb_assoc.
Qed.

Lemma add_missing_columns_eq df :
  add_missing_columns df = fold_left add_missing_step required_columns df.
Proof. reflexivity. Qed.

Lemma derive_rows loc df :
  exists h,
    rows (derive_month_and_day loc df) = map h (rows df) /\
    (forall r, label (h r) = label r) /\
    (forall r name, name <> "Mese" -> name <> "Giorno" ->
                    get (h r) name = get r name) /\
    (forall r, get (h r) "Mese" =
               if mese_rederived df then mese_of loc (get r "Data")
               else get r "Mese") /\
    (forall name, has_col df name = true ->
                  has_col (derive_month_and_day loc df) name = true).
Proof.
  unfold derive_month_and_day, mese_rederived.
  destruct (has_col df "Data" && negb (forallb isna (col df "Data"))) eqn:E1.
  2:{ exists (fun r => r). rewrite map_id. repeat split; auto. }
  cbn [andb].
  destruct (negb (has_col df "Mese") || existsb isna (col df "Mese")) eqn:E2.
  - set (df1 := set_col df "Mese" (fun r => mese_of loc (get r "Data"))).
    destruct (negb (has_col df1 "Giorno") || existsb isna (col df1 "Giorno")).
    + exists (fun r => row_set "Giorno" (fun r => giorno_of (get r "Data"))
                        (row_set "Mese" (fun r => mese_of loc (get r "Data")) r)).
      repeat split.
      * unfold df1. now rewrite !rows_set_col, map_map.
      * intros r name H1 H2.
        rewrite !get_row_set_other; auto.
      * intros r. rewrite get_row_set_other by discriminate.
        apply get_row_set_same.
      * intros name H. unfold df1. rewrite !has_col_set_col, H. reflexivity.
    + exists (row_set "Mese" (fun r => mese_of loc (get r "Data"))).
      repeat split.
      * intros r name H1 H2. rewrite get_row_set_other; auto.
      * intros r. apply get_row_set_same.
      * intros name H. unfold df1. rewrite has_col_set_col, H. reflexivity.
  - destruct (negb (has_col df "Giorno") || existsb isna (col df "Giorno")).
    + exists (row_set "Giorno" (fun r => giorno_of (get r "Data"))).
      repeat split.
      * intros r name H1 H2. rewrite get_row_set_other; auto.
      * intros r. rewrite get_row_set_other by discriminate. reflexivity.
      * intros name H. rewrite has_col_set_col, H. reflexivity.
    + exists (fun r => r). rewrite map_id. repeat split; auto.
Qed.

Lemma to_datetime_isna fmt c : isna (to_datetime fmt c) = true -> to_datetime fmt c = CNull.
Proof.
  destruct c as [|s|n|d]; simpl; auto.
  - destruct (strptime fmt s); simpl; auto. discriminate.
  - discriminate.
Qed.

Lemma date_cell_isna df r : isna (date_cell df r) = true -> date_cell df r = CNull.
Proof.
  unfold date_cell. destruct (has_col df "Data"); auto. apply to_datetime_isna.
Qed.

Lemma existsb_map {A B} (f : A -> B) p l :
  existsb p (map f l) = existsb (fun x => p (f x)) l.
Proof. induction l; simpl; congruence. Qed.

Lemma existsb_pointwise {A} (p q : A -> bool) l :
  (forall x, p x = q x) -> existsb p l = existsb q l.
Proof. intros H. induction l; simpl; congruence. Qed.

Lemma forallb_map {A B} (f : A -> B) p l :
  forallb p (map f l) = forallb (fun x => p (f x)) l.
Proof. induction l; simpl; congruence. Qed.

Lemma process_logbook_shape loc df :
  is_empty df = false ->
  exists G,
    rows (process_logbook loc (Some df)) =
      filter (fun r => notna (get r "Data")) (map G (rows df)) /\
    has_col (process_logbook loc (Some df)) "Data" = true /\
    forall r0,
      label (G r0) = label r0 /\
      get (G r0) "Data" = date_cell df r0 /\
      get (G r0) "Minuti Impiegati" = CNum (to_numeric_fill0 (raw_minutes df r0)) /\
      (In r0 (rows df) -> has_col df "Mese" = false ->
       get (G r0) "Mese" = mese_of loc (date_cell df r0)) /\
      (has_col df "Mese" = true -> existsb isna (col df "Mese") = false ->
       get (G r0) "Mese" = get r0 "Mese").
Proof.
  intros Hne. unfold process_logbook. rewrite Hne.
  rewrite convert_dates_eq, add_missing_columns_eq.
  set (df1 := set_col df "Data" (date_cell df)).
  destruct (add_missing_rows required_columns df1) as [g [Hg1 [Hg2 [Hg3 Hg4]]]].
  set (df2 := fold_left add_missing_step required_columns df1) in *.
  set (fM := fun r => CNum (to_numeric_fill0 (get r "Minuti Impiegati"))).
  set (df3 := set_col df2 "Minuti Impiegati" fM).
  destruct (derive_rows loc df3) as [h [Hh1 [Hh2 [Hh3 [Hh4 Hh5]]]]].
  set (G := fun r0 => h (row_set "Minuti Impiegati" fM
                          (g (row_set "Data" (date_cell df) r0)))).
  assert (Hdata1 : has_col df1 "Data" = true).
  { unfold df1. rewrite has_col_set_col. apply orb_true_r. }
  assert (HGdata : forall r0, get (G r0) "Data" = date_cell df r0).
  { intros r0. unfold G. rewrite Hh3 by discriminate.
    rewrite get_row_set_other by discriminate.
    rewrite Hg3, Hdata1. cbn [negb andb]. apply get_row_set_same. }
  assert (Hrows3 : rows df3 =
            map (fun r0 => row_set "Minuti Impiegati" fM
                             (g (row_set "Data" (date_cell df) r0))) (rows df)).
  { unfold df3. rewrite rows_set_col, Hg1. unfold df1.
    rewrite rows_set_col, !map_map. reflexivity. }
  exists G. split; [|split].
  - cbn [filter_rows rows]. rewrite Hh1, Hrows3, map_map. reflexivity.
  - cbn [filter_rows has_col columns].
    apply Hh5. unfold df3. rewrite has_col_set_col, Hg4, Hdata1. reflexivity.
  - intros r0. split; [|split; [|split; [|split]]].
    + unfold G. rewrite Hh2. cbn [row_set label]. now rewrite Hg2.
    + apply HGdata.
    + unfold G. rewrite Hh3 by discriminate.
      rewrite get_row_set_same. unfold fM. do 2 f_equal.
      rewrite Hg3. unfold df1. rewrite has_col_set_col.
      rewrite get_row_set_other by discriminate.
      unfold raw_minutes.
      destruct (has_col df "Minuti Impiegati"); reflexivity.
    + intros Hin Hmese. unfold G. rewrite Hh4.
      rewrite !get_row_set_other by discriminate.
      rewrite !Hg3, Hdata1. cbn [negb andb].
      rewrite get_row_set_same.
      unfold df1 at 1. rewrite has_col_set_col, Hmese.
      cbn [orb negb andb String.eqb Ascii.eqb Bool.eqb].
      change (mem "Mese" required_columns) with true. cbn iota.
      destruct (mese_rederived df3) eqn:Hre; [reflexivity|].
      (* not re-derived: every date is null *)
      unfold mese_rederived in Hre.
      assert (Hd3 : has_col df3 "Data" = true).
      { unfold df3. rewrite has_col_set_col, Hg4, Hdata1. reflexivity. }
      assert (Hm3 : existsb isna (col df3 "Mese") = true).
      { unfold col. rewrite Hrows3, map_map, existsb_map.
        apply existsb_exists. exists r0. split; auto.
        rewrite get_row_set_other by discriminate.
        rewrite Hg3. unfold df1 at 1. rewrite has_col_set_col, Hmese. reflexivity. }
      rewrite Hd3, Hm3, orb_true_r, andb_true_r in Hre. cbn [andb] in Hre.
      apply negb_false_iff in Hre.
      unfold col in Hre. rewrite Hrows3, map_map, forallb_map in Hre.
      rewrite forallb_forall in Hre. specialize (Hre r0 Hin).
      rewrite get_row_set_other in Hre by discriminate.
      rewrite Hg3, Hdata1 in Hre. cbn [negb andb] in Hre.
      rewrite get_row_set_same in Hre.
      now rewrite (date_cell_isna _ _ Hre).
    + intros Hmese Hnn. unfold G. rewrite Hh4.
      assert (Hm : forall r, get (row_set "Minuti Impiegati" fM
                               (g (row_set "Data" (date_cell df) r))) "Mese"
                         = get r "Mese").
      { intros r. rewrite get_row_set_other by discriminate.
        rewrite Hg3. unfold df1 at 1. rewrite has_col_set_col, Hmese.
        cbn [orb negb andb]. apply get_row_set_other. discriminate. }
      rewrite Hm.
      assert (Hre : mese_rederived df3 = false).
      { unfold mese_rederived.
        assert (Hc : has_col df3 "Mese" = true).
        { unfold df3. rewrite has_col_set_col, Hg4. unfold df1.
          rewrite has_col_set_col, Hmese. reflexivity. }
        rewrite Hc. cbn [negb orb].
        assert (He : existsb isna (col df3 "Mese") = existsb isna (col df "Mese")).
        { unfold col. rewrite Hrows3, map_map, !existsb_map.
          apply existsb_pointwise. intros r. cbv beta. now rewrite Hm. }
        rewrite He, Hnn. apply andb_false_r. }
      now rewrite Hre.
Qed.

Lemma date_cell_notna df r :
  notna (date_cell df r) = true -> exists d, date_cell df r = CDate d.
Proof.
  unfold date_cell. destruct (has_col df "Data"); [|discriminate].
  destruct (get r "Data") as [|s|n|d]; simpl; try discriminate.
  - destruct (strptime fmt_dmy_slash s) as [d|]; [|discriminate]. now exists d.
  - now exists d.
Qed.

Lemma filter_map_comm {A B} (f : A -> B) p l :
  filter p (map f l) = map f (filter (fun x => p (f x)) l).
Proof.
  induction l as [|x l IH]; simpl; auto.
  destruct (p (f x)); simpl; now rewrite IH.
Qed.

(** The rows that survive are the rows whose date text matches the
    day-first format, whatever the fallback formats would make of the
    others. *)
Lemma process_logbook_keeps loc df :
  is_empty df = false ->
  map label (rows (process_logbook loc (Some df))) =
  map label (filter (fun r0 => notna (date_cell df r0)) (rows df)).
Proof.
  intros Hne.
  destruct (process_logbook_shape loc df Hne) as [G [Hrows [_ HG]]].
  rewrite Hrows, filter_map_comm, map_map.
  assert (Hf : filter (fun x => notna (get (G x) "Data")) (rows df) =
               filter (fun r0 => notna (date_cell df r0)) (rows df)).
  { apply filter_ext. intros r0. now rewrite (proj1 (proj2 (HG r0))). }
  rewrite Hf. apply map_ext. intros r0. apply (HG r0).
Qed.

(** C3. A row dated "2024-03-05" is valid under the fallback format
    %Y-%m-%d, which reads it as 5 March 2024, the date the day-first
    format gives for "05/03/2024"; yet [process_logbook] drops the row:
    the fallback formats are tried on the column already turned into
    NaT, so they convert nothing, and their result is written to a copy. *)
Theorem iso_dated_row_is_dropped :
  strptime fmt_ymd_dash "2024-03-05" = Some (mkDate 2024 3 5) /\
  strptime fmt_dmy_slash "05/03/2024" = Some (mkDate 2024 3 5) /\
  In fmt_ymd_dash fallback_formats /\
  rows (process_logbook it_IT (Some iso_logbook)) = [].
Proof.
  split; [reflexivity|]. split; [reflexivity|]. split; [now left|].
  vm_compute. reflexivity.
Qed.

(* ----------------------------------------------------------------- *)
(** ** Month labels *)

Lemma rows_add_mese_formattato df :
  has_col df "Data" = true ->
  rows (add_mese_formattato df) =
  map (row_set "MeseFormattato" (fun r => extract_month_from_date (get r "Data")))
      (rows df).
Proof. intros H. unfold add_mese_formattato. now rewrite H. Qed.

Lemma process_logbook_has_data loc df : has_col (process_logbook loc df) "Data" = true.
Proof.
  destruct df as [df|].
  - destruct (is_empty df) eqn:E.
    + unfold process_logbook. now rewrite E.
    + now destruct (process_logbook_shape loc df E) as [G [_ [H _]]].
  - reflexivity.
Qed.

(** The month column of the source is kept when it has no null cell:
    the row dated 5 March keeps the label "gennaio". *)
Lemma stale_month_is_kept : ~ month_always_rederived it_IT stale_month_logbook.
Proof.
  intros H.
  specialize (H (mkRow (CNum (of_Z 0))
    [("Nome", CStr "A"); ("Data", CDate (mkDate 2024 3 5)); ("Mese", CStr "gennaio");
     ("Minuti Impiegati", CNum (Fin 120)); ("Cliente", CStr "X");
     ("Giorno", CStr "Tuesday"); ("Reparto1", CNull); ("Macro attività", CNull);
     ("Micro attività", CNull); ("Note", CNull)])).
  assert (Hin : In (mkRow (CNum (of_Z 0))
    [("Nome", CStr "A"); ("Data", CDate (mkDate 2024 3 5)); ("Mese", CStr "gennaio");
     ("Minuti Impiegati", CNum (Fin 120)); ("Cliente", CStr "X");
     ("Giorno", CStr "Tuesday"); ("Reparto1", CNull); ("Macro attività", CNull);
     ("Micro attività", CNull); ("Note", CNull)])
    (rows (process_logbook it_IT (Some stale_month_logbook)))).
  { vm_compute. left. reflexivity. }
  specialize (H Hin). discriminate H.
Qed.

(** C5 (as amended). In the table [main] works on, every row has a date
    and its join key [MeseFormattato] is the label of the month of that
    date, whatever the source gave under that name; the column [Mese] of
    [process_logbook] is derived from the date when the source has no
    such column, and is the source's own when the source has the column
    with no null cell. *)
Theorem join_key_is_month_of_date (loc : locale) (raw : frame) (r : row) :
  In r (rows (add_mese_formattato (process_logbook loc (Some raw)))) ->
  (exists d, get r "Data" = CDate d /\ get r "MeseFormattato" = month_map (month d)) /\
  (has_col raw "Mese" = false -> get r "Mese" = mese_of loc (get r "Data")) /\
  (has_col raw "Mese" = true -> existsb isna (col raw "Mese") = false ->
   exists r0, In r0 (rows raw) /\ label r0 = label r /\ get r "Mese" = get r0 "Mese").
Proof.
  intros Hin.
  rewrite rows_add_mese_formattato in Hin by apply process_logbook_has_data.
  apply in_map_iff in Hin. destruct Hin as [r1 [<- Hin1]].
  destruct (is_empty raw) eqn:Hemp.
  { unfold process_logbook in Hin1. rewrite Hemp in Hin1. destruct Hin1. }
  destruct (process_logbook_shape loc raw Hemp) as [G [Hrows [_ HG]]].
  rewrite Hrows in Hin1. apply filter_In in Hin1. destruct Hin1 as [Hin1 Hnn].
  apply in_map_iff in Hin1. destruct Hin1 as [r0 [<- Hin0]].
  destruct (HG r0) as [Hl [Hd [_ [Hm Hk]]]].
  rewrite (get_row_set_other "MeseFormattato" _ _ "Data") by discriminate.
  rewrite (get_row_set_other "MeseFormattato" _ _ "Mese") by discriminate.
  rewrite get_row_set_same. cbn [row_set label].
  rewrite Hd in *.
  destruct (date_cell_notna _ _ Hnn) as [d Hdc]. rewrite Hdc in *.
  split; [|split].
  - exists d. split; reflexivity.
  - intros Hc. now apply Hm.
  - intros Hc Hn. exists r0. repeat split; auto.
Qed.

Lemma join_key_is_month_of_date_witness :
  exists d,
    get (mkRow (CNum (of_Z 0))
          [("Nome", CStr "A"); ("Data", CDate (mkDate 2024 3 5)); ("Mese", CStr "gennaio");
           ("Minuti Impiegati", CNum (Fin 120)); ("Cliente", CStr "X");
           ("Giorno", CStr "Tuesday"); ("Reparto1", CNull); ("Macro attività", CNull);
           ("Micro attività", CNull); ("Note", CNull);
           ("MeseFormattato", CStr "Marzo")]) "Data" = CDate d /\
    get (mkRow (CNum (of_Z 0))
          [("Nome", CStr "A"); ("Data", CDate (mkDate 2024 3 5)); ("Mese", CStr "gennaio");
           ("Minuti Impiegati", CNum (Fin 120)); ("Cliente", CStr "X");
           ("Giorno", CStr "Tuesday"); ("Reparto1", CNull); ("Macro attività", CNull);
           ("Micro attività", CNull); ("Note", CNull);
           ("MeseFormattato", CStr "Marzo")]) "MeseFormattato" = month_map (month d).
Proof.
  refine (proj1 (join_key_is_month_of_date it_IT stale_month_logbook _ _)).
  vm_compute. left. reflexivity.
Defined.

(* ----------------------------------------------------------------- *)
(** ** Durations *)

(** A negative duration goes through [process_logbook] unchanged. *)
Lemma negative_minutes_are_kept : ~ minutes_never_negative it_IT negative_minutes_logbook.
Proof.
  intros H.
  destruct (H (mkRow (CNum (of_Z 0))
    [("Nome", CStr "A"); ("Data", CDate (mkDate 2024 3 5));
     ("Minuti Impiegati", CNum (Fin (-30))); ("Cliente", CStr "X");
     ("Mese", CStr "marzo"); ("Giorno", CStr "Tuesday"); ("Reparto1", CNull);
     ("Macro attività", CNull); ("Micro attività", CNull); ("Note", CNull)]))
    as [n [Hn Hpos]].
  - vm_compute. left. reflexivity.
  - injection Hn as <-. discriminate Hpos.
Qed.

Lemma to_numeric_fill0_not_nan c : to_numeric_fill0 c <> NaN.
Proof.
  destruct c as [|s|[]|]; simpl; try discriminate.
  unfold numeric_of_string.
  destruct (parse_number false _) as [[]|]; discriminate.
Qed.

(** C6 (as amended). Every row [process_logbook] returns carries, as its
    duration, the number its raw duration converts to: zero when the raw
    value is missing or is not numeric, and the value itself, of
    whatever sign, when it is numeric; so the duration is non-negative as
    soon as the raw value is not a negative number. *)
Theorem minutes_normalized (loc : locale) (raw : frame) (r : row) :
  In r (rows (process_logbook loc (Some raw))) ->
  exists r0,
    In r0 (rows raw) /\ label r0 = label r /\
    get r "Minuti Impiegati" = CNum (to_numeric_fill0 (raw_minutes raw r0)) /\
    (raw_minutes raw r0 = CNull -> get r "Minuti Impiegati" = CNum zero) /\
    (forall s, raw_minutes raw r0 = CStr s -> numeric_of_string s = None ->
               get r "Minuti Impiegati" = CNum zero) /\
    (forall s n, raw_minutes raw r0 = CStr s -> numeric_of_string s = Some n ->
                 get r "Minuti Impiegati" = CNum n) /\
    (nonneg (to_numeric_fill0 (raw_minutes raw r0)) = true ->
     exists n, get r "Minuti Impiegati" = CNum n /\ nonneg n = true).
Proof.
  intros Hin.
  destruct (is_empty raw) eqn:Hemp.
  { unfold process_logbook in Hin. rewrite Hemp in Hin. destruct Hin. }
  destruct (process_logbook_shape loc raw Hemp) as [G [Hrows [_ HG]]].
  rewrite Hrows in Hin. apply filter_In in Hin. destruct Hin as [Hin _].
  apply in_map_iff in Hin. destruct Hin as [r0 [<- Hin0]].
  destruct (HG r0) as [Hl [_ [Hm _]]].
  exists r0. rewrite Hm. repeat split; auto.
  - intros ->. reflexivity.
  - intros s -> Hs. simpl. now rewrite Hs.
  - intros s n -> Hs. simpl. now rewrite Hs.
  - intros Hp. eexists. split; [reflexivity|exact Hp].
Qed.

Lemma minutes_normalized_witness :
  exists r0,
    In r0 (rows negative_minutes_logbook) /\
    get (mkRow (CNum (of_Z 0))
          [("Nome", CStr "A"); ("Data", CDate (mkDate 2024 3 5));
           ("Minuti Impiegati", CNum (Fin (-30))); ("Cliente", CStr "X");
           ("Mese", CStr "marzo"); ("Giorno", CStr "Tuesday"); ("Reparto1", CNull);
           ("Macro attività", CNull); ("Micro attività", CNull); ("Note", CNull)])
        "Minuti Impiegati"
    = CNum (to_numeric_fill0 (raw_minutes negative_minutes_logbook r0)).
Proof.
  destruct (minutes_normalized it_IT negative_minutes_logbook
    (mkRow (CNum (of_Z 0))
       [("Nome", CStr "A"); ("Data", CDate (mkDate 2024 3 5));
        ("Minuti Impiegati", CNum (Fin (-30))); ("Cliente", CStr "X");
        ("Mese", CStr "marzo"); ("Giorno", CStr "Tuesday"); ("Reparto1", CNull);
        ("Macro attività", CNull); ("Micro attività", CNull); ("Note", CNull)]))
    as [r0 [H1 [_ [H2 _]]]].
  - vm_compute. left. reflexivity.
  - exists r0. split; assumption.
Defined.

(* ----------------------------------------------------------------- *)
(** ** Client name resolver *)

Lemma two_acos_rows_revenue :
  revenue_of default_client_map two_acos_rows [CStr "Marzo"] (CStr "ACOS MEDICA")
    = Ok (Fin 5) /\
  client_revenue (rows_named "Acos Medica" two_acos_rows) [CStr "Marzo"] zero
    = Fin 1000.
Proof. split; vm_compute; reflexivity. Qed.

(** The default map leaves "ACOS MEDICA" as it is, and a revenue row of
    that very name wins over the row "Acos Medica". *)
Lemma acos_exact_name_wins : ~ acos_resolves_to_short_name.
Proof.
  intros H.
  assert (Hrow : exists r, In r (rows two_acos_rows) /\
                           get r "Cliente" = CStr "Acos Medica").
  { eexists. split; [right; left; reflexivity|reflexivity]. }
  specialize (H two_acos_rows [CStr "Marzo"] eq_refl Hrow).
  destruct two_acos_rows_revenue as [H1 H2].
  rewrite H1, H2 in H. discriminate H.
Qed.

Lemma filter_none {A} (p : A -> bool) l :
  (forall x, In x l -> p x = false) -> filter p l = [].
Proof.
  induction l as [|x l IH]; intros H; simpl; auto.
  rewrite (H x (or_introl eq_refl)). apply IH. intros y Hy. apply H. now right.
Qed.

Lemma has_col_not_empty df name p x :
  has_col df name = true -> In x (rows df) -> p x = true ->
  is_empty (filter_rows p df) = false.
Proof.
  intros Hc Hin Hp. unfold is_empty, filter_rows; simpl.
  destruct (filter p (rows df)) eqn:E.
  - assert (Hx : In x (filter p (rows df))) by (apply filter_In; auto).
    rewrite E in Hx. destruct Hx.
  - unfold has_col in Hc. destruct (columns df); [discriminate|reflexivity].
Qed.

(** The map [main] works with when the sheet "Mappa" cannot be read. *)
Lemma default_client_map_in_force s :
  read_sheet (sh_mappa s) = None ->
  build_client_map (mapping_df (load_sheets_data s)) = default_client_map.
Proof.
  intros H. unfold load_sheets_data. rewrite H.
  destruct (read_sheet (sh_logbook s)), (read_sheet (sh_clienti s)),
           (read_sheet (sh_compensi s));
    cbn [mapping_df]; vm_compute; reflexivity.
Qed.

(** C2 (as amended). With the default mapping the label "ACOS MEDICA"
    is not translated (the map sends "Acos Medica" to "ACOS MEDICA");
    when no revenue row is named exactly "ACOS MEDICA", the resolver
    falls back to the search without letter case, and the amounts summed
    for the touched months are those of the rows whose name contains
    "ACOS MEDICA" in any letter case, the row "Acos Medica" among them. *)
Theorem acos_resolves_by_substring (clienti : frame) (months : list cell) :
  has_col clienti "Cliente" = true ->
  (forall r, In r (rows clienti) ->
             cell_eqb (get r "Cliente") (CStr "ACOS MEDICA") = false) ->
  (exists r, In r (rows clienti) /\ get r "Cliente" = CStr "Acos Medica") ->
  let matched :=
    filter_rows (fun r => contains_nocase "ACOS MEDICA" (get r "Cliente")) clienti in
  (forall s, read_sheet (sh_mappa s) = None ->
             build_client_map (mapping_df (load_sheets_data s)) = default_client_map) /\
  dict_get default_client_map (CStr "ACOS MEDICA") (CStr "ACOS MEDICA")
    = CStr "ACOS MEDICA" /\
  dict_get default_client_map (CStr "Acos Medica") (CStr "Acos Medica")
    = CStr "ACOS MEDICA" /\
  find_client_row (Some clienti) (CStr "ACOS MEDICA") = Ok (Some matched) /\
  revenue_of default_client_map clienti months (CStr "ACOS MEDICA")
    = Ok (client_revenue matched months zero) /\
  (forall r, In r (rows clienti) -> get r "Cliente" = CStr "Acos Medica" ->
             In r (rows matched)).
Proof.
  intros Hcol Hexact [r1 [Hin1 Hname1]] matched.
  assert (Hmap : dict_get default_client_map (CStr "ACOS MEDICA") (CStr "ACOS MEDICA")
                 = CStr "ACOS MEDICA") by (vm_compute; reflexivity).
  assert (Hne : is_empty clienti = false).
  { unfold is_empty. destruct (rows clienti); [destruct Hin1|].
    unfold has_col in Hcol. destruct (columns clienti); [discriminate|reflexivity]. }
  assert (Hm1 : contains_nocase "ACOS MEDICA" (get r1 "Cliente") = true)
    by (rewrite Hname1; vm_compute; reflexivity).
  assert (Hfind : find_client_row (Some clienti) (CStr "ACOS MEDICA") = Ok (Some matched)).
  { unfold find_client_row. rewrite Hne, Hcol.
    assert (He : is_empty (filter_rows
                   (fun r => cell_eqb (get r "Cliente") (CStr "ACOS MEDICA")) clienti)
                 = true).
    { apply is_empty_rows. cbn [filter_rows rows]. now apply filter_none. }
    rewrite He. cbn [negb].
    change (regex_free "ACOS MEDICA") with true. cbn iota.
    rewrite (has_col_not_empty clienti "Cliente" _ r1 Hcol Hin1 Hm1).
    reflexivity. }
  split; [exact default_client_map_in_force|].
  split; [exact Hmap|]. split; [vm_compute; reflexivity|].
  split; [exact Hfind|]. split.
  - unfold revenue_of. rewrite Hmap. cbn [revenue_loop].
    rewrite Hfind. cbn [bind].
    unfold matched.
    now rewrite (has_col_not_empty clienti "Cliente" _ r1 Hcol Hin1 Hm1).
  - intros r Hin Hname. unfold matched. cbn [filter_rows rows].
    apply filter_In. split; auto. rewrite Hname. vm_compute. reflexivity.
Qed.

Lemma acos_resolves_by_substring_witness :
  revenue_of default_client_map one_acos_row [CStr "Marzo"] (CStr "ACOS MEDICA")
  = Ok (client_revenue
          (filter_rows (fun r => contains_nocase "ACOS MEDICA" (get r "Cliente"))
                       one_acos_row)
          [CStr "Marzo"] zero).
Proof.
  refine (proj1 (proj2 (proj2 (proj2 (proj2
           (acos_resolves_by_substring one_acos_row [CStr "Marzo"] _ _ _)))))).
  - reflexivity.
  - intros r [<-|[]]. reflexivity.
  - eexists. split; [left; reflexivity|reflexivity].
Defined.

(* ----------------------------------------------------------------- *)
(** ** Texts as lists of characters *)

Local Abbreviation str := string_of_list_ascii.

Lemma str_app l1 l2 : str (l1 ++ l2) = str l1 ++ str l2.
Proof. induction l1; simpl; congruence. Qed.

Lemma append_empty_r s : s ++ "" = s.
Proof. induction s; simpl; congruence. Qed.

Lemma prefix_single a c s : prefix (String a "") (String c s) = Ascii.eqb a c.
Proof.
  simpl. destruct (ascii_dec a c) as [->|Hne].
  - rewrite Ascii.eqb_refl. now destruct s.
  - symmetry. now apply Ascii.eqb_neq.
Qed.

Lemma replace_char_by_char a b l :
  str_replace (String a "") (String b "") (str l) =
  str (map (fun c => if Ascii.eqb a c then b else c) l).
Proof.
  unfold str_replace. induction l as [|c l IH]; [reflexivity|].
  cbn [str map replace_from]. rewrite prefix_single.
  destruct (Ascii.eqb a c); cbn [String.length Nat.sub append]; now rewrite IH.
Qed.

Lemma delete_char a l :
  str_replace (String a "") "" (str l) =
  str (filter (fun c => negb (Ascii.eqb a c)) l).
Proof.
  unfold str_replace. induction l as [|c l IH]; [reflexivity|].
  cbn [str filter replace_from]. rewrite prefix_single.
  destruct (Ascii.eqb a c); cbn [negb String.length Nat.sub append str]; now rewrite IH.
Qed.

Lemma prefix_euro_other c s :
  Ascii.eqb euro_lead c = false -> prefix euro (String c s) = false.
Proof.
  intros H. unfold euro. cbn [prefix].
  destruct (ascii_dec _ c) as [<-|]; [discriminate H|reflexivity].
Qed.

Lemma delete_euro_after l t :
  Forall (fun c => Ascii.eqb euro_lead c = false) l ->
  str_replace euro "" (str l ++ t) = str l ++ str_replace euro "" t.
Proof.
  change (str_replace euro "") with (replace_from euro "" 0).
  induction 1 as [|c l Hc Hl IH]; [reflexivity|].
  cbn [str append replace_from].
  rewrite (prefix_euro_other _ _ Hc). now rewrite IH.
Qed.

Lemma lstrip_by_head sp c s : sp c = false -> lstrip_by sp (String c s) = String c s.
Proof. intros H. simpl. now rewrite H. Qed.

Lemma rstrip_by_head sp c s :
  sp c = false -> rstrip_by sp (String c s) = String c (rstrip_by sp s).
Proof. intros H. simpl. rewrite H. now destruct (rstrip_by sp s). Qed.

Lemma rstrip_by_keeps sp l t :
  Forall (fun c => sp c = false) l ->
  rstrip_by sp (str l ++ t) = str l ++ rstrip_by sp t.
Proof.
  induction 1 as [|c l Hc Hl IH]; [reflexivity|].
  cbn [str append]. rewrite rstrip_by_head by assumption. now rewrite IH.
Qed.

Lemma lstrip_by_keeps sp l :
  Forall (fun c => sp c = false) l -> lstrip_by sp (str l) = str l.
Proof. destruct 1; [reflexivity|]. now apply lstrip_by_head. Qed.

Lemma str_in_char c l : In c l -> str_in (String c "") (str l) = true.
Proof.
  induction l as [|x l IH]; [intros []|].
  intros [->|H]; cbn [str str_in].
  - rewrite prefix_single, Ascii.eqb_refl. reflexivity.
  - rewrite IH by assumption. apply orb_true_r.
Qed.

(* ----------------------------------------------------------------- *)
(** ** Texts as lists of characters of several bytes *)

Lemma chars_head c s :
  trail_count c = 0%nat -> chars (String c s) = String c "" :: chars s.
Proof. intros H. cbn [chars]. rewrite H. reflexivity. Qed.

Lemma ascii_no_trail c : is_ascii_char c = true -> trail_count c = 0%nat.
Proof.
  unfold is_ascii_char, trail_count. intros H. apply N.ltb_lt in H.
  destruct (N.ltb_spec (char_code c) 0xC0) as [_|H']; [reflexivity|lia].
Qed.


Lemma chars_run l t :
  Forall (fun c => trail_count c = 0%nat) l ->
  chars (str l ++ t) = (map (fun c => String c "") l ++ chars t)%list.
Proof.
  induction 1 as [|c l Hc Hl IH]; [reflexivity|].
  cbn [str append map app]. rewrite (chars_head _ _ Hc). now rewrite IH.
Qed.


Lemma join_singles l : join (map (fun c => String c "") l) = str l.
Proof. induction l as [|c l IH]; [reflexivity|]. cbn. now rewrite <- IH. Qed.

(** Cut into characters and put together again, a text is what it was. *)
Lemma join_chars s : join (chars s) = s.
Proof.
  induction s as [|c s IH]; [reflexivity|].
  cbn [chars].
  assert (Hab : forall n l, let (a, r) := absorb n l in a ++ join r = join l).
  { clear. induction n as [|n IHn]; intros l; [reflexivity|].
    destruct l as [|[|c [|? ?]] t]; try reflexivity.
    cbn [absorb]. destruct (is_continuation c); [|reflexivity].
    specialize (IHn t). destruct (absorb n t) as [a r].
    cbn [join fold_right append]. fold (join t). now rewrite <- IHn. }
  specialize (Hab (trail_count c) (chars s)).
  destruct (absorb (trail_count c) (chars s)) as [a r].
  cbn [join fold_right append]. fold (join r). now rewrite Hab, IH.
Qed.

Lemma is_space_char_single c : is_space_char (String c "") = is_space c.
Proof. destruct c as [[] [] [] [] [] [] [] []]; reflexivity. Qed.

Lemma drop_while_map {A B} (f : A -> B) p l :
  drop_while p (map f l) = map f (drop_while (fun x => p (f x)) l).
Proof.
  induction l as [|x l IH]; [reflexivity|]. cbn [map drop_while].
  destruct (p (f x)); [exact IH|reflexivity].
Qed.

Lemma drop_while_end_map {A B} (f : A -> B) p l :
  drop_while_end p (map f l) = map f (drop_while_end (fun x => p (f x)) l).
Proof.
  induction l as [|x l IH]; [reflexivity|]. cbn [map drop_while_end].
  rewrite IH. destruct (drop_while_end _ l); cbn [map]; [|reflexivity].
  destruct (p (f x)); reflexivity.
Qed.

Lemma lstrip_by_str sp l : lstrip_by sp (str l) = str (drop_while sp l).
Proof.
  induction l as [|c l IH]; [reflexivity|]. cbn [str lstrip_by drop_while].
  destruct (sp c); [exact IH|reflexivity].
Qed.

Lemma rstrip_by_str sp l : rstrip_by sp (str l) = str (drop_while_end sp l).
Proof.
  induction l as [|c l IH]; [reflexivity|]. cbn [str rstrip_by drop_while_end].
  rewrite IH. destruct (drop_while_end sp l); cbn [str]; [|reflexivity].
  destruct (sp c); reflexivity.
Qed.

Lemma drop_while_ext {A} (p q : A -> bool) l :
  (forall x, p x = q x) -> drop_while p l = drop_while q l.
Proof.
  intros H. induction l as [|x l IH]; [reflexivity|]. cbn. rewrite H, IH. reflexivity.
Qed.

Lemma drop_while_end_ext {A} (p q : A -> bool) l :
  (forall x, p x = q x) -> drop_while_end p l = drop_while_end q l.
Proof.
  intros H. induction l as [|x l IH]; [reflexivity|]. cbn. rewrite H, IH. reflexivity.
Qed.

(** On a text of ASCII characters [strip] drops the blanks of ASCII at
    the two ends. *)
Lemma strip_ascii l :
  Forall (fun c => is_ascii_char c = true) l ->
  strip (str l) = rstrip_by is_space (lstrip_by is_space (str l)).
Proof.
  intros H. unfold strip.
  rewrite <- (append_empty_r (str l)) at 1.
  rewrite chars_run.
  2:{ eapply Forall_impl; [|exact H]. apply ascii_no_trail. }
  cbn [chars]. rewrite app_nil_r.
  rewrite drop_while_map, drop_while_end_map, join_singles.
  rewrite lstrip_by_str, rstrip_by_str.
  f_equal.
  rewrite (drop_while_ext _ is_space) by apply is_space_char_single.
  apply drop_while_end_ext, is_space_char_single.
Qed.





(* ----------------------------------------------------------------- *)
(** ** Grouping by three *)

Lemma group3_ind (P : list ascii -> Prop) :
  P [] -> (forall a, P [a]) -> (forall a b, P [a; b]) -> (forall a b c, P [a; b; c]) ->
  (forall a b c d l, P (d :: l) -> P (a :: b :: c :: d :: l)) ->
  forall l, P l.
Proof.
  intros H0 H1 H2 H3 H4.
  assert (H : forall n l, (List.length l <= n)%nat -> P l).
  { induction n as [|n IH]; intros l Hl.
    - destruct l; [apply H0|simpl in Hl; lia].
    - destruct l as [|a [|b [|c [|d l]]]]; auto.
      apply H4. apply IH. simpl in *. lia. }
  intros l. now apply (H (List.length l)).
Qed.

Lemma group3_map f sep l : map f (group3 sep l) = group3 (f sep) (map f l).
Proof.
  induction l as [| | | |a b c d l IH] using group3_ind; try reflexivity.
  change (group3 sep (a :: b :: c :: d :: l))
    with (a :: b :: c :: sep :: group3 sep (d :: l)).
  change (group3 (f sep) (map f (a :: b :: c :: d :: l)))
    with (f a :: f b :: f c :: f sep :: group3 (f sep) (map f (d :: l))).
  cbn [map] in *. now rewrite IH.
Qed.

Lemma group3_filter sep l :
  Forall (fun c => Ascii.eqb sep c = false) l ->
  filter (fun c => negb (Ascii.eqb sep c)) (group3 sep l) = l.
Proof.
  induction l as [|a|a b|a b c|a b c d l IH] using group3_ind; intros H.
  1-4: cbn [group3];
       repeat match goal with
       | H : Forall _ (_ :: _) |- _ => inversion H; subst; clear H
       end;
       cbn [filter];
       repeat match goal with
       | H : Ascii.eqb _ _ = false |- _ => rewrite H; clear H
       end; reflexivity.
  change (group3 sep (a :: b :: c :: d :: l))
    with (a :: b :: c :: sep :: group3 sep (d :: l)).
  inversion H as [|? ? Ha H']; subst.
  inversion H' as [|? ? Hb H'']; subst.
  inversion H'' as [|? ? Hc H''']; subst.
  cbn [filter]. rewrite Ha, Hb, Hc, Ascii.eqb_refl. cbn [negb].
  now rewrite (IH H''').
Qed.

Lemma group3_in sep l c : In c (group3 sep l) -> c = sep \/ In c l.
Proof.
  induction l as [| | | |a b c' d l IH] using group3_ind; try (now right).
  change (group3 sep (a :: b :: c' :: d :: l))
    with (a :: b :: c' :: sep :: group3 sep (d :: l)).
  intros [<-|[<-|[<-|[<-|H]]]]; auto.
  - right. now left.
  - right. right. now left.
  - right. right. right. now left.
  - destruct (IH H) as [->|H']; auto.
    right. right. right. now right.
Qed.

(* ----------------------------------------------------------------- *)
(** ** Digits *)

Lemma digit_cases (d : N) :
  (d < 10)%N ->
  d = 0%N \/ d = 1%N \/ d = 2%N \/ d = 3%N \/ d = 4%N \/
  d = 5%N \/ d = 6%N \/ d = 7%N \/ d = 8%N \/ d = 9%N.
Proof. lia. Qed.

Ltac each_digit d H :=
  destruct (digit_cases d H) as [->|[->|[->|[->|[->|[->|[->|[->|[->| ->]]]]]]]]].

Lemma digit_of_char_of_digit d : (d < 10)%N -> digit_of_char (char_of_digit d) = Some d.
Proof. intros H. each_digit d H; reflexivity. Qed.

Lemma char_of_digit_plain d : (d < 10)%N -> plain_digit (char_of_digit d).
Proof.
  intros H. each_digit d H; split; try reflexivity; split; discriminate.
Qed.

Lemma digits_lsd_lt fuel : forall n, Forall (fun d => (d < 10)%N) (digits_lsd fuel n).
Proof.
  induction fuel as [|fuel IH]; intros n; cbn [digits_lsd]; constructor.
  - apply N.mod_lt. discriminate.
  - destruct (n / 10 =? 0)%N; [constructor|apply IH].
Qed.

Lemma digits_lsd_value fuel : forall n,
  (n < 2 ^ N.of_nat fuel)%N -> value_lsd (digits_lsd fuel n) = n.
Proof.
  induction fuel as [|fuel IH]; intros n Hn.
  - simpl in Hn. assert (n = 0%N) by lia. subst. reflexivity.
  - cbn [digits_lsd value_lsd fold_right].
    destruct (N.eqb_spec (n / 10) 0) as [Hz|Hz].
    + cbn [fold_right]. pose proof (N.div_mod' n 10). lia.
    + fold (value_lsd (digits_lsd fuel (n / 10))). rewrite IH.
      * pose proof (N.div_mod' n 10). lia.
      * rewrite Nat2N.inj_succ, N.pow_succ_r' in Hn.
        apply N.Div0.div_lt_upper_bound. lia.
Qed.

Lemma digits_of_value n : value_lsd (digits_of n) = n.
Proof.
  unfold digits_of. apply digits_lsd_value.
  rewrite Nat2N.inj_succ, N2Nat.id, N.pow_succ_r'.
  pose proof (N.size_gt n). lia.
Qed.

Lemma digits_of_lt n : Forall (fun d => (d < 10)%N) (digits_of n).
Proof. apply digits_lsd_lt. Qed.

Lemma digits_of_not_nil n : digits_of n <> [].
Proof. unfold digits_of. cbn [digits_lsd]. discriminate. Qed.

Lemma fold_left_rev_value ds :
  fold_left (fun acc d => (10 * acc + d)%N) (rev ds) 0%N = value_lsd ds.
Proof.
  induction ds as [|d ds IH]; [reflexivity|].
  cbn [rev]. rewrite fold_left_app. cbn [fold_left]. rewrite IH.
  unfold value_lsd. cbn [fold_right]. lia.
Qed.

(** [scan_digits] reads a run of digits up to a character that is
    neither a digit nor an underscore. *)
Lemma scan_digits_run us ds : forall acc cnt rest,
  Forall (fun d => (d < 10)%N) ds ->
  match rest with
  | EmptyString => True
  | String c _ => digit_of_char c = None /\ Ascii.eqb c "_" = false
  end ->
  scan_digits us acc cnt (string_of_list_ascii (map char_of_digit ds) ++ rest) =
  (fold_left (fun a d => (10 * a + d)%N) ds acc, (cnt + List.length ds)%nat, rest).
Proof.
  induction ds as [|d ds IH]; intros acc cnt rest Hds Hrest.
  - cbn [map string_of_list_ascii append fold_left List.length].
    rewrite Nat.add_0_r.
    destruct rest as [|c rest]; [reflexivity|].
    destruct Hrest as [H1 H2]. cbn [scan_digits]. rewrite H1, H2.
    now rewrite andb_false_r.
  - inversion Hds as [|? ? Hd Hds']; subst.
    cbn [map string_of_list_ascii append scan_digits].
    rewrite (digit_of_char_of_digit d Hd).
    rewrite IH by assumption.
    cbn [fold_left List.length]. f_equal. f_equal. lia.
Qed.

(* ----------------------------------------------------------------- *)
(** ** Formatting and parsing an amount in cents *)

Lemma swap_separators_digit c : plain_digit c -> swap_separators c = c.
Proof.
  intros H. unfold swap_separators.
  now rewrite (pd_comma c H), (pd_dot c H), (pd_x c H).
Qed.

Lemma map_swap_digits l : Forall plain_digit l -> map swap_separators l = l.
Proof.
  induction 1 as [|c l Hc Hl IH]; [reflexivity|].
  cbn [map]. now rewrite IH, swap_separators_digit.
Qed.

Section Cents.
Variable c : N.

Let ip : N := (c / 100)%N.
Let fp : N := (c mod 100)%N.
Let L : list ascii := map char_of_digit (digits_of ip).
Let d1 : ascii := char_of_digit (fp / 10).
Let d0 : ascii := char_of_digit (fp mod 10).

Lemma fp_digits : (fp / 10 < 10)%N /\ (fp mod 10 < 10)%N.
Proof.
  assert (fp < 100)%N by (apply N.mod_lt; discriminate).
  split.
  - apply N.Div0.div_lt_upper_bound. lia.
  - apply N.mod_lt. discriminate.
Qed.

Lemma L_plain : Forall plain_digit L.
Proof.
  unfold L. apply Forall_map.
  eapply Forall_impl; [|apply digits_of_lt].
  intros d Hd. now apply char_of_digit_plain.
Qed.

Lemma d1_plain : plain_digit d1.
Proof. apply char_of_digit_plain, fp_digits. Qed.

Lemma d0_plain : plain_digit d0.
Proof. apply char_of_digit_plain, fp_digits. Qed.

Lemma round_cents : round_half_even (Qabs (Z.of_N c # 100) * 100) = Z.of_N c.
Proof.
  unfold round_half_even.
  assert (Hf : Qfloor (Qabs (Z.of_N c # 100) * 100) = Z.of_N c).
  { unfold Qfloor, Qabs, Qmult; cbn [Qnum Qden].
    rewrite Z.abs_eq by lia.
    change (Z.pos (100 * 1)) with 100%Z. now rewrite Z.div_mul. }
  rewrite Hf.
  assert (Hc : Qcompare (Qabs (Z.of_N c # 100) * 100 - inject_Z (Z.of_N c)) (1 # 2) = Lt).
  { unfold Qcompare, Qabs, Qmult, Qminus, Qplus, Qopp, inject_Z; cbn [Qnum Qden].
    rewrite Z.abs_eq by lia.
    apply Z.compare_lt_iff. lia. }
  now rewrite Hc.
Qed.

Lemma format_grouped_cents :
  format_grouped_2f (Z.of_N c # 100) =
  string_of_list_ascii (rev (group3 "," L) ++ ["."%char; d1; d0]).
Proof.
  unfold format_grouped_2f. rewrite round_cents, N2Z.id.
  destruct (Qlt_le_dec (Z.of_N c # 100) 0) as [Hneg|_].
  - exfalso. unfold Qlt in Hneg; cbn [Qnum Qden] in Hneg. lia.
  - rewrite str_app. reflexivity.
Qed.

Lemma format_currency_cents :
  format_currency (CNum (Fin (Z.of_N c # 100))) =
  string_of_list_ascii
    (rev (group3 "." L) ++ [","%char; d1; d0] ++ " "%char :: list_ascii_of_string euro).
Proof.
  unfold format_currency, format_2f. rewrite format_grouped_cents.
  assert (Happ :
    string_of_list_ascii (rev (group3 "," L) ++ ["."%char; d1; d0]) ++ " " ++ euro =
    string_of_list_ascii
      (rev (group3 "," L) ++ ["."%char; d1; d0] ++ " "%char :: list_ascii_of_string euro)).
  { rewrite app_assoc, (str_app (_ ++ _)). reflexivity. }
  rewrite Happ.
  rewrite !replace_char_by_char, !map_map.
  change (fun x => if Ascii.eqb "X" (if Ascii.eqb "." (if Ascii.eqb "," x then "X"%char else x)
                     then ","%char else if Ascii.eqb "," x then "X"%char else x)
                   then "."%char
                   else if Ascii.eqb "." (if Ascii.eqb "," x then "X"%char else x)
                        then ","%char else if Ascii.eqb "," x then "X"%char else x)
    with swap_separators.
  rewrite map_app, map_rev, group3_map, (map_swap_digits L L_plain).
  cbn [map app].
  rewrite (swap_separators_digit d1 d1_plain), (swap_separators_digit d0 d0_plain).
  reflexivity.
Qed.

Lemma L_not_nil : L <> [].
Proof.
  unfold L. pose proof (digits_of_not_nil ip).
  destruct (digits_of ip); [contradiction|discriminate].
Qed.

(** The amount between the sign-free number and the symbol. *)
Let body : list ascii := rev (group3 "." L) ++ [","%char; d1; d0].

Lemma body_chars :
  Forall (fun x => x = "."%char \/ x = ","%char \/ plain_digit x) body.
Proof.
  unfold body. apply Forall_app. split.
  - apply Forall_rev. apply Forall_forall. intros x Hx.
    destruct (group3_in _ _ _ Hx) as [->|Hin]; auto.
    right. right. pose proof L_plain as HL.
    rewrite Forall_forall in HL. now apply HL.
  - constructor; [right; left; reflexivity|].
    constructor; [right; right; apply d1_plain|].
    constructor; [right; right; apply d0_plain|constructor].
Qed.

Lemma body_no_space : Forall (fun x => is_space x = false) body.
Proof.
  eapply Forall_impl; [|apply body_chars].
  intros x [->|[->|H]]; try reflexivity. apply (pd_space x H).
Qed.

Lemma body_no_euro : Forall (fun x => Ascii.eqb euro_lead x = false) body.
Proof.
  eapply Forall_impl; [|apply body_chars].
  intros x [->|[->|H]]; try reflexivity. apply (pd_euro x H).
Qed.

Lemma body_ascii : Forall (fun x => is_ascii_char x = true) body.
Proof.
  eapply Forall_impl; [|apply body_chars].
  intros x [->|[->|H]]; try reflexivity. apply (pd_ascii x H).
Qed.

Lemma body_not_nil : body <> [].
Proof. unfold body. destruct (rev (group3 "." L)); discriminate. Qed.

Lemma strip_body :
  strip (str_replace euro "" (string_of_list_ascii
           (body ++ " "%char :: list_ascii_of_string euro))) =
  string_of_list_ascii body.
Proof.
  rewrite str_app, (delete_euro_after _ _ body_no_euro).
  change (str_replace euro "" (string_of_list_ascii (" "%char :: list_ascii_of_string euro)))
    with (string_of_list_ascii [" "%char]).
  rewrite <- str_app, strip_ascii, str_app
    by (apply Forall_app; split; [apply body_ascii|repeat constructor]).
  cbn [string_of_list_ascii].
  assert (Hl : lstrip_by is_space (string_of_list_ascii body ++ " ") =
               string_of_list_ascii body ++ " ").
  { pose proof body_no_space as Hs. pose proof body_not_nil as Hn.
    destruct body as [|x l]; [contradiction|].
    inversion Hs; subst. now apply lstrip_by_head. }
  rewrite Hl, (rstrip_by_keeps _ _ _ body_no_space).
  apply append_empty_r.
Qed.

Lemma body_has_comma : str_in "," (string_of_list_ascii body) = true.
Proof.
  apply str_in_char. unfold body. apply in_or_app. right. now left.
Qed.

Lemma body_to_literal :
  str_replace "," "." (str_replace "." "" (string_of_list_ascii body)) =
  string_of_list_ascii (rev L ++ ["."%char; d1; d0]).
Proof.
  rewrite delete_char, replace_char_by_char. f_equal.
  unfold body. rewrite filter_app, filter_rev, group3_filter.
  2:{ eapply Forall_impl; [|apply L_plain]. intros x H. apply (pd_dot x H). }
  cbn [filter].
  rewrite (pd_dot d1 d1_plain), (pd_dot d0 d0_plain).
  change (Ascii.eqb "." ",") with false. cbn [negb].
  rewrite map_app. cbn [map].
  rewrite (pd_comma d1 d1_plain), (pd_comma d0 d0_plain).
  change (Ascii.eqb "," ",") with true. cbn iota.
  f_equal.
  rewrite <- (map_id (rev L)) at 2. apply map_ext_in.
  intros x Hx. apply in_rev in Hx.
  pose proof L_plain as HL. rewrite Forall_forall in HL.
  now rewrite (pd_comma x (HL x Hx)).
Qed.

Lemma digit_head d t :
  (d < 10)%N ->
  scan_sign (String (char_of_digit d) t) = (false, String (char_of_digit d) t) /\
  parse_special (String (char_of_digit d) t) = None.
Proof. intros H. each_digit d H; split; reflexivity. Qed.

Lemma literal_chars : Forall (fun x => is_space_c x = false) (rev L ++ ["."%char; d1; d0]).
Proof.
  apply Forall_app. split.
  - apply Forall_rev. eapply Forall_impl; [|apply L_plain].
    intros x H. apply (pd_space_c x H).
  - repeat constructor.
    + apply (pd_space_c d1 d1_plain).
    + apply (pd_space_c d0 d0_plain).
Qed.

Lemma cents_split : (10 * (10 * ip + fp / 10) + fp mod 10)%N = c.
Proof.
  unfold ip, fp.
  pose proof (N.div_mod' c 100). pose proof (N.div_mod' (c mod 100) 10). lia.
Qed.

Lemma parse_decimal_literal :
  parse_decimal true (string_of_list_ascii (rev L ++ ["."%char; d1; d0])) =
  Some (Qred (inject_Z (Z.of_N c) * pow10 (-2))).
Proof.
  unfold parse_decimal.
  assert (HL : rev L = map char_of_digit (rev (digits_of ip)))
    by (unfold L; now rewrite map_rev).
  rewrite str_app, HL.
  rewrite (scan_digits_run true (rev (digits_of ip)) 0%N 0%nat).
  2:{ apply Forall_rev, digits_of_lt. }
  2:{ split; reflexivity. }
  rewrite fold_left_rev_value, digits_of_value.
  cbn [string_of_list_ascii].
  change (String d1 (String d0 ""))
    with (string_of_list_ascii (map char_of_digit [fp / 10; fp mod 10]%N) ++ "").
  rewrite (scan_digits_run true [fp / 10; fp mod 10]%N ip 0%nat "").
  2:{ destruct fp_digits. repeat constructor; assumption. }
  2:{ exact I. }
  cbn [fold_left]. rewrite cents_split.
  cbn [List.length Nat.add].
  destruct (List.length (rev (digits_of ip)) + 2)%nat eqn:E; [lia|].
  reflexivity.
Qed.

Lemma py_float_literal :
  py_float (string_of_list_ascii (rev L ++ ["."%char; d1; d0])) =
  Some (Fin (Qred (inject_Z (Z.of_N c) * pow10 (-2)))).
Proof.
  unfold py_float.
  rewrite (lstrip_by_keeps _ _ literal_chars).
  rewrite <- (append_empty_r (string_of_list_ascii _)) at 1.
  rewrite (rstrip_by_keeps _ _ _ literal_chars).
  cbn [rstrip_by]. rewrite append_empty_r.
  unfold parse_number.
  assert (Hh : exists d t, (d < 10)%N /\
             string_of_list_ascii (rev L ++ ["."%char; d1; d0]) =
             String (char_of_digit d) t).
  { unfold L. rewrite <- map_rev.
    pose proof (digits_of_not_nil ip) as Hn.
    pose proof (digits_of_lt ip) as Hlt. apply Forall_rev in Hlt.
    destruct (rev (digits_of ip)) as [|d ds] eqn:E.
    - apply (f_equal (@rev N)) in E. rewrite rev_involutive in E. contradiction.
    - inversion Hlt; subst. exists d. eexists. split; [assumption|reflexivity]. }
  destruct Hh as [d [t [Hd Ht]]].
  destruct (digit_head d t Hd) as [Hs Hp].
  pose proof parse_decimal_literal as Hdec.
  rewrite Ht in *. rewrite Hs, Hp, Hdec. reflexivity.
Qed.

(** Formatting an amount of [c] cents and parsing the text back. *)
Lemma convert_format_cents :
  convert_eu_to_number (CStr (format_currency (CNum (Fin (Z.of_N c # 100))))) =
  Fin (Qred (inject_Z (Z.of_N c) * pow10 (-2))).
Proof.
  rewrite format_currency_cents. unfold convert_eu_to_number.
  replace (rev (group3 "." L) ++ [","%char; d1; d0] ++
             " "%char :: list_ascii_of_string euro)%list
    with (body ++ " "%char :: list_ascii_of_string euro)%list
    by (unfold body; now rewrite <- app_assoc).
  rewrite strip_body, body_has_comma, body_to_literal, py_float_literal.
  reflexivity.
Qed.
End Cents.

Lemma cents_value (c : N) :
  Qred (inject_Z (Z.of_N c) * pow10 (-2)) == Z.of_N c # 100.
Proof.
  rewrite Qred_correct. unfold Qeq, Qmult, inject_Z, pow10; cbn [Qnum Qden].
  change (Z.pos (1 * 10 ^ 2)) with 100%Z. lia.
Qed.

Lemma Qabs_nonneg_eq q : 0 <= q -> Qabs q = q.
Proof.
  destruct q as [n d]. unfold Qle, Qabs; cbn [Qnum Qden]. intros H.
  rewrite Z.abs_eq by lia. reflexivity.
Qed.

(** A number nearer to an integer than one half is rounded to it. *)
Lemma round_half_even_within (x : Q) (n : Z) :
  Qabs (x - inject_Z n) < 1 # 2 -> round_half_even x = n.
Proof.
  intros H. apply Qabs_Qlt_condition in H. destruct H as [Hl Hu].
  unfold round_half_even.
  pose proof (Qfloor_le x) as H1. pose proof (Qlt_floor x) as H2.
  rewrite inject_Z_plus in H2. change (inject_Z 1) with 1 in H2.
  remember (Qfloor x) as f eqn:Ef. clear Ef.
  assert (Hm : inject_Z (n - 1) == inject_Z n - 1).
  { unfold Z.sub. rewrite inject_Z_plus. reflexivity. }
  assert (Hp : forall z, inject_Z (z + 1) == inject_Z z + 1).
  { intros z. rewrite inject_Z_plus. reflexivity. }
  assert (Hf : (n - 1 <= f <= n)%Z).
  { split.
    - apply Z.lt_succ_r. rewrite Zlt_Qlt. unfold Z.succ. rewrite Hp, Hm.
      clear Hm Hp. lra.
    - apply Z.lt_succ_r. rewrite Zlt_Qlt. unfold Z.succ. rewrite Hp.
      clear Hm Hp. lra. }
  assert (Hcase : f = n \/ f = (n - 1)%Z) by lia.
  clear Hf Hp. destruct Hcase as [E|E]; subst f.
  - assert (Hc : Qcompare (x - inject_Z n) (1 # 2) = Lt) by (apply Qlt_alt; exact Hu).
    now rewrite Hc.
  - assert (Hc : Qcompare (x - inject_Z (n - 1)) (1 # 2) = Gt).
    { apply Qgt_alt. rewrite Hm in *. clear Hm. lra. }
    rewrite Hc. lia.
Qed.

(** An amount nearer to a positive number of cents than half a cent is
    rendered as that number of cents. *)
Lemma format_grouped_near (c : N) (x : Q) :
  (0 < c)%N -> Qabs (x - (Z.of_N c # 100)) < 1 # 200 ->
  format_grouped_2f x = format_grouped_2f (Z.of_N c # 100).
Proof.
  intros Hc H.
  assert (Hcq : (Z.of_N c # 100) * 100 == inject_Z (Z.of_N c)).
  { unfold Qeq, Qmult, inject_Z; cbn [Qnum Qden]. lia. }
  assert (H1 : 1 <= inject_Z (Z.of_N c)).
  { change 1 with (inject_Z 1). rewrite <- Zle_Qle. lia. }
  pose proof H as H'. apply Qabs_Qlt_condition in H'. destruct H' as [Hl Hu].
  assert (Hx : 0 <= x) by lra.
  unfold format_grouped_2f.
  rewrite (round_cents c), N2Z.id, (Qabs_nonneg_eq x Hx).
  rewrite (round_half_even_within (x * 100) (Z.of_N c)).
  2:{ apply Qabs_Qlt_condition. split; lra. }
  rewrite N2Z.id.
  destruct (Qlt_le_dec x 0) as [Hn|_]; [lra|].
  destruct (Qlt_le_dec (Z.of_N c # 100) 0) as [Hn|_]; [|reflexivity].
  exfalso. unfold Qlt in Hn; cbn [Qnum Qden] in Hn. lia.
Qed.

(** C10. Take a positive number of cents and an amount nearer to it
    than half a cent: the amount of two decimals itself or, as a
    binary64 number has to be, a number next to it.  [format_currency]
    renders the amount as the digits of the euros with a "." after
    every third digit counted from the right, a ",", the two digits of
    the cents, a blank and the euro sign; [convert_eu_to_number] reads
    the amount of two decimals back from that text; and
    [format_currency] renders 1234.5 as "1.234,50 €". *)
Theorem format_then_parse (cents : positive) (x : Q) :
  Qabs (x - (Zpos cents # 100)) < 1 # 200 ->
  format_currency (CNum (Fin x)) =
    string_of_list_ascii
      (rev (group3 "." (map char_of_digit (digits_of (Npos cents / 100)))) ++
       [","%char; char_of_digit ((Npos cents mod 100) / 10);
        char_of_digit ((Npos cents mod 100) mod 10)] ++
       " "%char :: list_ascii_of_string euro) /\
  num_eq (convert_eu_to_number (CStr (format_currency (CNum (Fin x)))))
         (Fin (Zpos cents # 100)) /\
  format_currency (CNum (Fin (12345 # 10))) = "1.234,50 €".
Proof.
  intros H.
  change (Zpos cents) with (Z.of_N (Npos cents)) in *.
  assert (Hsame : format_currency (CNum (Fin x)) =
                  format_currency (CNum (Fin (Z.of_N (Npos cents) # 100)))).
  { unfold format_currency, format_2f.
    rewrite (format_grouped_near (Npos cents) x); [reflexivity|reflexivity|exact H]. }
  rewrite Hsame. split; [|split].
  - apply format_currency_cents.
  - rewrite convert_format_cents. apply cents_value.
  - reflexivity.
Qed.

(** The binary64 number written 0.29, which is less than 29 cents. *)
Lemma format_then_parse_witness :
  format_currency (CNum (Fin (5224175567749775 # 18014398509481984))) = "0,29 €".
Proof.
  refine (proj1 (format_then_parse 29 (5224175567749775 # 18014398509481984) _)).
  reflexivity.
Defined.

(* ----------------------------------------------------------------- *)
(** ** Compensation cells *)






Lemma cells_get_del_other cs name other :
  name <> other -> cells_get (cells_del cs name) other = cells_get cs other.
Proof.
  intros Hne. induction cs as [|[k x] t IH]; [reflexivity|].
  cbn [cells_del cells_get].
  destruct (k =? name) eqn:E.
  - apply String.eqb_eq in E. subst k.
    destruct (name =? other) eqn:E2; [|assumption].
    apply String.eqb_eq in E2. contradiction.
  - cbn [cells_get]. now rewrite IH.
Qed.







Section CentsAsCompensation.
Variable c : N.

Let ip : N := (c / 100)%N.
Let fp : N := (c mod 100)%N.
Let L : list ascii := map char_of_digit (digits_of ip).
Let d1 : ascii := char_of_digit (fp / 10).
Let d0 : ascii := char_of_digit (fp mod 10).



End CentsAsCompensation.




(* ----------------------------------------------------------------- *)
(** ** Filter engine: composition of the selectors *)

Lemma has_col_filter_rows p df name : has_col (filter_rows p df) name = has_col df name.
Proof. reflexivity. Qed.

Lemma filter_rows_twice p q df :
  filter_rows q (filter_rows p df) = filter_rows (fun r => p r && q r) df.
Proof.
  unfold filter_rows; cbn [columns rows]. f_equal.
  induction (rows df) as [|r l IH]; [reflexivity|].
  cbn [filter]. destruct (p r); cbn [filter andb]; [|exact IH].
  destruct (q r); now rewrite IH.
Qed.

Lemma filter_rows_true df : filter_rows (fun _ => true) df = df.
Proof.
  destruct df as [c r]. unfold filter_rows; cbn [columns rows]. f_equal.
  induction r as [|x l IH]; [reflexivity|]. cbn [filter]. now rewrite IH.
Qed.

(** One stage of [filter_data]: a selector applied to a column, when the
    column is there. *)
Lemma selector_stage sel name df :
  match active sel with
  | Some l =>
      if has_col df name then filter_rows (fun r => isin l (get r name)) df else df
  | None => df
  end =
  filter_rows (fun r => if has_col df name then selected sel (get r name) else true) df.
Proof.
  unfold selected. destruct (active sel) as [l|].
  - destruct (has_col df name); [reflexivity|now rewrite filter_rows_true].
  - destruct (has_col df name); now rewrite filter_rows_true.
Qed.

(** The column the department selector is tested on. *)
Lemma department_stage sel df :
  match active sel with
  | Some l =>
      if has_col df "Reparto"
      then filter_rows (fun r => isin l (get r "Reparto")) df
      else if has_col df "Reparto1"
      then filter_rows (fun r => isin l (get r "Reparto1")) df
      else df
  | None => df
  end =
  filter_rows (fun r => if has_col df "Reparto" then selected sel (get r "Reparto")
                        else if has_col df "Reparto1" then selected sel (get r "Reparto1")
                        else true) df.
Proof.
  unfold selected. destruct (active sel) as [l|].
  - destruct (has_col df "Reparto"); [reflexivity|].
    destruct (has_col df "Reparto1"); [reflexivity|now rewrite filter_rows_true].
  - destruct (has_col df "Reparto"), (has_col df "Reparto1"); now rewrite filter_rows_true.
Qed.

Lemma filter_data_shape df s e co de ma mi cl :
  is_empty df = false ->
  filter_data (Some df) (Some s) (Some e) co de ma mi cl =
  filter_rows (passes df s e co de ma cl) df.
Proof.
  intros Hne. unfold filter_data. rewrite Hne.
  assert (H1 : (if has_col df "Data"
                then filter_rows
                       (fun r => notna (get r "Data") && in_period s e (get r "Data")) df
                else df) =
               filter_rows (fun r => if has_col df "Data"
                                     then in_period s e (get r "Data") else true) df).
  { destruct (has_col df "Data"); [|now rewrite filter_rows_true].
    unfold filter_rows. f_equal. apply filter_ext. intros r. apply notna_in_period. }
  rewrite H1.
  rewrite (selector_stage co "Nome").
  rewrite (department_stage de).
  rewrite (selector_stage ma "Macro attività").
  rewrite (selector_stage cl "Cliente").
  rewrite !filter_rows_twice.
  unfold filter_rows; cbn [columns rows]. f_equal.
  apply filter_ext. intros r. cbv beta. unfold passes, has_col. cbn [columns].
  rewrite !andb_assoc. reflexivity.
Qed.

Lemma is_empty_no_rows df name :
  is_empty df = true -> has_col df name = true -> rows df = [].
Proof. apply is_empty_has_col. Qed.

Lemma filter_data_rows_empty df s e co de ma mi cl :
  is_empty df = true -> rows (filter_data (Some df) s e co de ma mi cl) = [].
Proof. intros H. unfold filter_data. now rewrite H. Qed.

(** X1. On a table that has the columns of the canonical time-entry
    table (the department under "Reparto1"), [filter_data] keeps, in
    their order, exactly the rows whose date is in the period and whose
    fields satisfy every selector that is given and not empty: the
    selectors compose by intersection. *)
Theorem filter_data_intersection (df : frame) (s e : date)
  (co de ma mi cl : option (list cell)) :
  has_col df "Data" = true -> has_col df "Nome" = true ->
  has_col df "Reparto" = false -> has_col df "Reparto1" = true ->
  has_col df "Macro attività" = true -> has_col df "Cliente" = true ->
  rows (filter_data (Some df) (Some s) (Some e) co de ma mi cl) =
    filter (fun r => in_period s e (get r "Data") &&
                     selected co (get r "Nome") &&
                     selected de (get r "Reparto1") &&
                     selected ma (get r "Macro attività") &&
                     selected cl (get r "Cliente")) (rows df) /\
  forall r,
    In r (rows (filter_data (Some df) (Some s) (Some e) co de ma mi cl)) <->
    In r (rows df) /\
    in_period s e (get r "Data") = true /\
    selected co (get r "Nome") = true /\
    selected de (get r "Reparto1") = true /\
    selected ma (get r "Macro attività") = true /\
    selected cl (get r "Cliente") = true.
Proof.
  intros Hd Hn Hr Hr1 Hm Hc.
  assert (Hrows :
    rows (filter_data (Some df) (Some s) (Some e) co de ma mi cl) =
    filter (fun r => in_period s e (get r "Data") &&
                     selected co (get r "Nome") &&
                     selected de (get r "Reparto1") &&
                     selected ma (get r "Macro attività") &&
                     selected cl (get r "Cliente")) (rows df)).
  { destruct (is_empty df) eqn:Hemp.
    - rewrite (filter_data_rows_empty _ _ _ _ _ _ _ _ Hemp).
      now rewrite (is_empty_no_rows df "Data" Hemp Hd).
    - rewrite (filter_data_shape _ _ _ _ _ _ mi _ Hemp). cbn [filter_rows rows].
      apply filter_ext. intros r. unfold passes.
      now rewrite Hd, Hn, Hr, Hr1, Hm, Hc. }
  split; [exact Hrows|].
  intros r. rewrite Hrows, filter_In, !andb_true_iff. tauto.
Qed.

Lemma filter_data_intersection_witness :
  rows (filter_data (Some canonical_entries) (Some (mkDate 2024 3 1)) (Some (mkDate 2024 3 31))
                    (Some [CStr "A"]) None (Some [CStr "M1"]) None (Some [])) =
  filter (fun r => in_period (mkDate 2024 3 1) (mkDate 2024 3 31) (get r "Data") &&
                   selected (Some [CStr "A"]) (get r "Nome") &&
                   selected None (get r "Reparto1") &&
                   selected (Some [CStr "M1"]) (get r "Macro attività") &&
                   selected (Some []) (get r "Cliente")) (rows canonical_entries).
Proof.
  refine (proj1 (filter_data_intersection canonical_entries (mkDate 2024 3 1)
                   (mkDate 2024 3 31) (Some [CStr "A"]) None (Some [CStr "M1"]) None
                   (Some []) _ _ _ _ _ _)); reflexivity.
Defined.

Lemma passes_same_columns df df' s e co de ma cl r :
  columns df' = columns df ->
  passes df' s e co de ma cl r = passes df s e co de ma cl r.
Proof. intros H. unfold passes, has_col. now rewrite H. Qed.

Lemma filter_nil_and {A} (p q : A -> bool) l :
  filter p l = [] -> filter (fun x => p x && q x) l = [].
Proof.
  induction l as [|x l IH]; [reflexivity|]. cbn [filter].
  destruct (p x); [discriminate|]. cbn [andb]. exact IH.
Qed.

Lemma filter_filter_and {A} (p q : A -> bool) l :
  filter q (filter p l) = filter (fun x => p x && q x) l.
Proof.
  induction l as [|x l IH]; [reflexivity|]. cbn [filter].
  destruct (p x); cbn [filter andb]; [|exact IH].
  destruct (q x); now rewrite IH.
Qed.

(** Two passes of [filter_data] over a table that is not empty. *)
Lemma filter_data_two_passes df s e co de ma mi cl s' e' co' de' ma' mi' cl' :
  is_empty df = false ->
  rows (filter_data (Some (filter_data (Some df) (Some s) (Some e) co de ma mi cl))
                    (Some s') (Some e') co' de' ma' mi' cl') =
  filter (fun r => passes df s e co de ma cl r && passes df s' e' co' de' ma' cl' r)
         (rows df).
Proof.
  intros Hne. rewrite (filter_data_shape _ _ _ _ _ _ mi _ Hne).
  set (d1 := filter_rows (passes df s e co de ma cl) df).
  destruct (is_empty d1) eqn:H1.
  - rewrite (filter_data_rows_empty _ _ _ _ _ _ _ _ H1).
    symmetry. apply filter_nil_and.
    unfold is_empty, d1 in H1. cbn [filter_rows rows columns] in H1.
    destruct (filter (passes df s e co de ma cl) (rows df)); [reflexivity|].
    unfold is_empty in Hne. destruct (rows df); [discriminate|].
    destruct (columns df); discriminate.
  - rewrite (filter_data_shape _ _ _ _ _ _ mi' _ H1).
    unfold d1. cbn [filter_rows rows].
    rewrite filter_filter_and. apply filter_ext. intros r.
    f_equal.
Qed.

(** X2. Two passes of [filter_data] give the same rows in either order,
    and a second pass with the same arguments changes nothing. *)
Theorem filter_data_commutes (df : frame) (s e s' e' : date)
  (co de ma mi cl co' de' ma' mi' cl' : option (list cell)) :
  rows (filter_data (Some (filter_data (Some df) (Some s) (Some e) co de ma mi cl))
                    (Some s') (Some e') co' de' ma' mi' cl') =
  rows (filter_data (Some (filter_data (Some df) (Some s') (Some e') co' de' ma' mi' cl'))
                    (Some s) (Some e) co de ma mi cl) /\
  rows (filter_data (Some (filter_data (Some df) (Some s) (Some e) co de ma mi cl))
                    (Some s) (Some e) co de ma mi cl) =
  rows (filter_data (Some df) (Some s) (Some e) co de ma mi cl).
Proof.
  destruct (is_empty df) eqn:Hemp.
  - assert (He : forall a b c d f g h i,
               filter_data (Some df) a b c d f g h = empty_frame /\
               filter_data (Some empty_frame) a b c d f g i = empty_frame).
    { intros. unfold filter_data. rewrite Hemp. split; reflexivity. }
    split.
    + rewrite (proj1 (He _ _ co de ma mi cl cl)), (proj1 (He _ _ co' de' ma' mi' cl' cl')).
      reflexivity.
    + rewrite (proj1 (He _ _ co de ma mi cl cl)). reflexivity.
  - split.
    + rewrite !filter_data_two_passes by assumption.
      apply filter_ext. intros r. apply andb_comm.
    + rewrite filter_data_two_passes by assumption.
      rewrite (filter_data_shape _ _ _ _ _ _ mi _ Hemp). cbn [filter_rows rows].
      apply filter_ext. intros r. apply andb_diag.
Qed.

Lemma filter_data_rows (df : frame) s e co de ma mi cl :
  (rows df = [] \/ columns df <> []) ->
  rows (filter_data (Some df) (Some s) (Some e) co de ma mi cl) =
  filter (passes df s e co de ma cl) (rows df).
Proof.
  intros H. destruct (is_empty df) eqn:Hemp.
  - rewrite (filter_data_rows_empty _ _ _ _ _ _ _ _ Hemp).
    unfold is_empty in Hemp. destruct (rows df) as [|r l]; [reflexivity|].
    destruct H as [H|H]; [discriminate|]. destruct (columns df); [now elim H|discriminate].
  - now rewrite (filter_data_shape _ _ _ _ _ _ mi _ Hemp).
Qed.

(** X3. The department selector reads the column "Reparto" when the
    table has one, the column "Reparto1" otherwise, and restricts
    nothing on a table that has neither. *)
Theorem filter_data_department_column (df : frame) (s e : date)
  (co de ma mi cl : option (list cell)) :
  rows (filter_data (Some df) (Some s) (Some e) co de ma mi cl) =
  filter (fun r => if has_col df "Reparto" then selected de (get r "Reparto")
                   else if has_col df "Reparto1" then selected de (get r "Reparto1")
                   else true)
         (rows (filter_data (Some df) (Some s) (Some e) co None ma mi cl)).
Proof.
  destruct (is_empty df) eqn:Hemp.
  - now rewrite !(filter_data_rows_empty _ _ _ _ _ _ _ _ Hemp).
  - rewrite !(filter_data_shape _ _ _ _ _ _ mi _ Hemp). cbn [filter_rows rows].
    rewrite filter_filter_and. apply filter_ext. intros r. unfold passes, selected.
    cbn [active].
    destruct (has_col df "Data"), (has_col df "Nome"), (has_col df "Reparto"),
      (has_col df "Reparto1"), (has_col df "Macro attività"), (has_col df "Cliente");
      repeat match goal with |- context [match ?x with _ => _ end] =>
               destruct x end;
      repeat match goal with
             | |- context [in_period ?a ?b ?c] => destruct (in_period a b c)
             | |- context [isin ?l ?c] => destruct (isin l c)
             end; reflexivity.
Qed.

(** X4. A table without rows loses its columns in [filter_data]: the
    result is [pd.DataFrame()], and reading any column of it, the
    duration included, raises [KeyError].  A table that has rows keeps
    its columns, whatever is selected and even when no row is left. *)
Theorem filter_data_empty_table (df : frame) (s e : date)
  (co de ma mi cl : option (list cell)) :
  filter_data None (Some s) (Some e) co de ma mi cl = empty_frame /\
  columns (filter_data (Some df) (Some s) (Some e) co de ma mi cl) =
    (if is_empty df then [] else columns df) /\
  (forall name,
     is_empty df = true ->
     column_sum (filter_data (Some df) (Some s) (Some e) co de ma mi cl) name =
     Raise (KeyError name)).
Proof.
  split; [reflexivity|]. split.
  - destruct (is_empty df) eqn:Hemp.
    + unfold filter_data. now rewrite Hemp.
    + now rewrite (filter_data_shape _ _ _ _ _ _ mi _ Hemp).
  - intros name H. unfold filter_data. rewrite H. reflexivity.
Qed.

Lemma filter_data_empty_table_witness :
  column_sum (filter_data (Some (mkFrame ["Minuti Impiegati"] []))
                          (Some (mkDate 2024 3 1)) (Some (mkDate 2024 3 31))
                          None None None None None) "Minuti Impiegati"
  = Raise (KeyError "Minuti Impiegati").
Proof.
  refine (proj2 (proj2 (filter_data_empty_table (mkFrame ["Minuti Impiegati"] [])
                          (mkDate 2024 3 1) (mkDate 2024 3 31)
                          None None None None None)) "Minuti Impiegati" _).
  reflexivity.
Defined.

(* ----------------------------------------------------------------- *)
(** ** Equal values, distinct values, sorting *)

Lemma num_eqb_refl n : n <> NaN -> num_eqb n n = true.
Proof.
  destruct n; simpl; try reflexivity; [|congruence].
  intros _. apply Qeq_bool_iff. reflexivity.
Qed.

Lemma date_eqb_refl d : date_eqb d d = true.
Proof. unfold date_eqb. now rewrite !Z.eqb_refl. Qed.

Lemma same_value_refl c : same_value c c = true.
Proof.
  unfold same_value. destruct c as [|s|n|d]; simpl; try reflexivity.
  - now rewrite String.eqb_refl.
  - destruct n; simpl; try reflexivity. rewrite orb_false_r.
    apply Qeq_bool_iff. reflexivity.
  - now rewrite date_eqb_refl.
Qed.

Lemma num_eqb_trans a b c :
  num_eqb a b = true -> num_eqb b c = true -> num_eqb a c = true.
Proof.
  destruct a, b, c; simpl; try discriminate; try reflexivity.
  rewrite !Qeq_bool_iff. intros H1 H2. now rewrite H1.
Qed.

Lemma cell_eqb_notna a b : cell_eqb a b = true -> isna a = false /\ isna b = false.
Proof.
  destruct a as [|s|n|d], b as [|s'|n'|d']; simpl; try discriminate; auto.
  destruct n, n'; simpl; try discriminate; auto.
Qed.

Lemma cell_eqb_trans a b c :
  cell_eqb a b = true -> cell_eqb b c = true -> cell_eqb a c = true.
Proof.
  destruct a as [|s|n|d], b as [|s'|n'|d'], c as [|s''|n''|d'']; simpl;
    try discriminate.
  - rewrite !String.eqb_eq. congruence.
  - apply num_eqb_trans.
  - intros H1 H2. apply date_eqb_eq in H1. apply date_eqb_eq in H2. subst.
    apply date_eqb_refl.
Qed.

Lemma same_value_trans a b c : same_value a b = true -> same_value b c = true -> same_value a c = true.
Proof.
  unfold same_value. rewrite !orb_true_iff, !andb_true_iff.
  intros [H1|[H1 H1']] [H2|[H2 H2']].
  - left. eapply cell_eqb_trans; eauto.
  - apply cell_eqb_notna in H1. destruct H1. congruence.
  - apply cell_eqb_notna in H2. destruct H2. congruence.
  - right. auto.
Qed.

Lemma isin_exists l c : isin l c = true <-> exists v, In v l /\ same_value v c = true.
Proof. unfold isin. apply existsb_exists. Qed.

Lemma isin_in l c : In c l -> isin l c = true.
Proof. intros H. apply isin_exists. exists c. split; [assumption|apply same_value_refl]. Qed.

Lemma isin_same l a c : isin l a = true -> same_value a c = true -> isin l c = true.
Proof.
  rewrite !isin_exists. intros [v [Hv H1]] H2. exists v. split; [assumption|].
  eapply same_value_trans; eauto.
Qed.

Lemma isin_unique_from seen l c :
  isin (seen ++ l) c = true -> isin (seen ++ unique_from seen l) c = true.
Proof.
  revert seen. induction l as [|a t IH]; intros seen H; [exact H|].
  cbn [unique_from]. destruct (isin seen a) eqn:Ha.
  - apply IH. apply isin_exists in H. destruct H as [v [Hv Hs]].
    apply in_app_or in Hv. destruct Hv as [Hv|[->|Hv]].
    + apply isin_exists. exists v. split; [apply in_or_app; now left|assumption].
    + unfold isin. rewrite existsb_app. apply orb_true_iff. left.
      eapply isin_same; eauto.
    + apply isin_exists. exists v. split; [apply in_or_app; now right|assumption].
  - specialize (IH (a :: seen)).
    assert (H' : isin ((a :: seen) ++ t) c = true).
    { apply isin_exists in H. destruct H as [v [Hv Hs]].
      apply isin_exists. exists v. split; [|assumption].
      apply in_app_or in Hv. destruct Hv as [Hv|[->|Hv]].
      - right. apply in_or_app. now left.
      - now left.
      - right. apply in_or_app. now right. }
    apply IH in H'. apply isin_exists in H'. destruct H' as [v [Hv Hs]].
    apply isin_exists. exists v. split; [|assumption].
    destruct Hv as [->|Hv].
    + apply in_or_app. right. now left.
    + apply in_app_or in Hv. apply in_or_app. destruct Hv; [now left|right; now right].
Qed.

(** Every value of a list is found among its distinct values. *)
Lemma isin_unique l c : In c l -> isin (unique l) c = true.
Proof. intros H. apply (isin_unique_from [] l c). now apply isin_in. Qed.

Lemma insert_sorted_in x l l' :
  insert_sorted x l = Ok l' -> forall c, In c l' <-> c = x \/ In c l.
Proof.
  revert l'. induction l as [|y t IH]; intros l' H c.
  - injection H as <-. simpl. intuition.
  - cbn [insert_sorted] in H. destruct (cell_leb x y) as [[|]|]; [| |discriminate].
    + injection H as <-. simpl. intuition.
    + destruct (insert_sorted x t) as [t'|] eqn:Ht; [|discriminate].
      injection H as <-. simpl. rewrite (IH t' eq_refl c). intuition.
Qed.

(** [sorted] returns the values it was given. *)
Lemma sorted_in l l' : sorted l = Ok l' -> forall c, In c l' <-> In c l.
Proof.
  revert l'. induction l as [|x t IH]; intros l' H c.
  - injection H as <-. reflexivity.
  - cbn [sorted] in H. destruct (sorted t) as [t'|] eqn:Ht; [|discriminate].
    cbn [bind] in H. rewrite (insert_sorted_in _ _ _ H c), (IH t' eq_refl c).
    simpl. intuition.
Qed.

Lemma isin_incl l l' c :
  (forall v, In v l -> In v l') -> isin l c = true -> isin l' c = true.
Proof.
  intros Hi. rewrite !isin_exists. intros [v [Hv Hs]]. exists v. auto.
Qed.

Lemma options_of_covers df name l r :
  options_of df name = Ok l -> In r (rows df) -> isin l (get r name) = true.
Proof.
  unfold options_of, column. destruct (has_col df name); [|discriminate].
  cbn [bind]. intros Hs Hin.
  apply (isin_incl (unique (col df name))).
  - intros v Hv. now apply (sorted_in _ _ Hs).
  - apply isin_unique. unfold col. apply (in_map (fun r => get r name)). assumption.
Qed.

Lemma filter_filter_implied {A} (p q : A -> bool) l :
  (forall x, In x l -> p x = true -> q x = true) ->
  filter p (filter q l) = filter p l.
Proof.
  intros H. induction l as [|x l IH]; [reflexivity|]. cbn [filter].
  assert (IH' : filter p (filter q l) = filter p l)
    by (apply IH; intros y Hy; apply H; now right).
  destruct (q x) eqn:Hq; cbn [filter].
  - now rewrite IH'.
  - destruct (p x) eqn:Hp; [|exact IH'].
    rewrite (H x (or_introl eq_refl) Hp) in Hq. discriminate.
Qed.

Lemma has_col_columns df name : has_col df name = true -> columns df <> [].
Proof. unfold has_col. destruct (columns df); [discriminate|discriminate]. Qed.

(* ----------------------------------------------------------------- *)
(** ** The table behind the hourly rate *)

Lemma passes_date_name df s e co de ma cl r :
  passes df s e co de ma cl r = true ->
  (if has_col df "Data" then in_period s e (get r "Data") else true) = true /\
  (if has_col df "Nome" then selected co (get r "Nome") else true) = true.
Proof. unfold passes. rewrite !andb_true_iff. tauto. Qed.

Lemma passes_only_names df s e co r :
  passes df s e co None None None r =
  (if has_col df "Data" then in_period s e (get r "Data") else true) &&
  (if has_col df "Nome" then selected co (get r "Nome") else true).
Proof.
  unfold passes, selected at 2 3 4 5. cbn [active].
  destruct (has_col df "Reparto"), (has_col df "Reparto1"),
    (has_col df "Macro attività"), (has_col df "Cliente");
    now rewrite ?andb_true_r.
Qed.

Lemma selected_or_none_nil c : selected (or_none []) c = true.
Proof. reflexivity. Qed.

Lemma selected_some l c : selected (Some l) c = true <-> l = [] \/ isin l c = true.
Proof.
  unfold selected. destruct l; cbn [active].
  - intuition.
  - split; [now right|]. intros [H|H]; [discriminate|exact H].
Qed.

Lemma selected_or_none l c : selected (or_none l) c = selected (Some l) c.
Proof. destruct l; reflexivity. Qed.

(** X5. In the dashboard the table behind the hourly rate (the entries
    of the period of the collaborators counted for the cost) contains
    every entry of the filtered table: the filtered table is the
    selection, by the same_value sidebar choices, of that table. *)
Theorem company_hours_cover (logbook_processed : frame) (s e : date)
  (sel_co sel_de sel_ma sel_cl active_collaborators : list cell) :
  let pre_filtered_df :=
    filter_data (Some logbook_processed) (Some s) (Some e) None
                (or_none sel_de) (or_none sel_ma) None (or_none sel_cl) in
  (if negb (is_empty pre_filtered_df)
   then options_of pre_filtered_df "Nome" else Ok []) = Ok active_collaborators ->
  let filtered_df :=
    filter_data (Some logbook_processed) (Some s) (Some e) (or_none sel_co)
                (or_none sel_de) (or_none sel_ma) None (or_none sel_cl) in
  let collaborators_for_costs :=
    if is_nil sel_co then active_collaborators else sel_co in
  let company_hours_df :=
    filter_data (Some logbook_processed) (Some s) (Some e)
                (Some collaborators_for_costs) None None None None in
  rows filtered_df =
    rows (filter_data (Some company_hours_df) (Some s) (Some e) (or_none sel_co)
                      (or_none sel_de) (or_none sel_ma) None (or_none sel_cl)) /\
  forall r, In r (rows filtered_df) -> In r (rows company_hours_df).
Proof.
  intros pre Hac filtered cfc company.
  destruct (is_empty logbook_processed) eqn:Hemp.
  { assert (He : forall a b c d f, filter_data (Some logbook_processed) (Some s) (Some e)
                                     a b c d f = empty_frame).
    { intros. unfold filter_data. now rewrite Hemp. }
    unfold filtered, company. rewrite !He. split; [reflexivity|]. intros r []. }
  set (lp := logbook_processed) in *.
  set (p := passes lp s e (or_none sel_co) (or_none sel_de) (or_none sel_ma)
                   (or_none sel_cl)).
  set (q := passes lp s e (Some cfc) None None None).
  assert (Hf : rows filtered = filter p (rows lp)).
  { unfold filtered. now rewrite (filter_data_shape _ _ _ _ _ _ None _ Hemp). }
  assert (Hc : rows company = filter q (rows lp)).
  { unfold company. now rewrite (filter_data_shape _ _ _ _ _ _ None _ Hemp). }
  assert (Hpre : rows pre = filter (passes lp s e None (or_none sel_de) (or_none sel_ma)
                                           (or_none sel_cl)) (rows lp)).
  { unfold pre. now rewrite (filter_data_shape _ _ _ _ _ _ None _ Hemp). }
  assert (Hpq : forall r, In r (rows lp) -> p r = true -> q r = true).
  { intros r Hin Hp. unfold q. rewrite passes_only_names.
    destruct (passes_date_name _ _ _ _ _ _ _ _ Hp) as [Hd Hn].
    rewrite Hd. cbn [andb].
    destruct (has_col lp "Nome") eqn:HN; [|reflexivity].
    apply selected_some. unfold cfc.
    destruct sel_co as [|c0 sel]; cbn [is_nil].
    - destruct (is_empty pre) eqn:Hpe; cbn [negb] in Hac.
      + left. now injection Hac.
      + right. apply (options_of_covers pre "Nome" _ r Hac).
        rewrite Hpre. apply filter_In. split; [assumption|].
        exact Hp.
    - right. exact Hn. }
  split.
  - assert (Hcol : columns company = columns lp).
    { unfold company.
      now rewrite (filter_data_shape _ _ _ _ _ _ None _ Hemp). }
    rewrite filter_data_rows.
    + rewrite Hc, Hf. symmetry.
      rewrite (filter_ext _ p).
      * apply filter_filter_implied.
        intros r Hin Hp. apply Hpq; assumption.
      * intros r. now apply passes_same_columns.
    + right. rewrite Hcol. unfold is_empty in Hemp.
      destruct (rows lp); [discriminate|]. destruct (columns lp); discriminate.
  - intros r. rewrite Hf, Hc, !filter_In. intros [Hin Hp]. split; auto.
Qed.

Lemma company_hours_cover_witness :
  rows (filter_data (Some canonical_entries) (Some (mkDate 2024 3 1))
                    (Some (mkDate 2024 3 31)) None None (Some [CStr "M1"]) None None) =
  rows (filter_data
          (Some (filter_data (Some canonical_entries) (Some (mkDate 2024 3 1))
                             (Some (mkDate 2024 3 31)) (Some [CStr "A"; CStr "B"])
                             None None None None))
          (Some (mkDate 2024 3 1)) (Some (mkDate 2024 3 31))
          None None (Some [CStr "M1"]) None None).
Proof.
  refine (proj1 (company_hours_cover canonical_entries (mkDate 2024 3 1)
                   (mkDate 2024 3 31) [] [] [CStr "M1"] [] [CStr "A"; CStr "B"] _)).
  vm_compute. reflexivity.
Defined.

(* ----------------------------------------------------------------- *)
(** ** Record normalizer: every field *)

Lemma col_set_col_other df name f other :
  other <> name -> col (set_col df name f) other = col df other.
Proof.
  intros H. unfold col. rewrite rows_set_col, map_map. apply map_ext.
  intros r. apply get_row_set_other. congruence.
Qed.

Lemma derive_rows_day loc df :
  exists h,
    rows (derive_month_and_day loc df) = map h (rows df) /\
    (forall r, label (h r) = label r) /\
    (forall r name, name <> "Mese" -> name <> "Giorno" ->
                    get (h r) name = get r name) /\
    (forall r, get (h r) "Mese" =
               if mese_rederived df then mese_of loc (get r "Data")
               else get r "Mese") /\
    (forall r, get (h r) "Giorno" =
               if giorno_rederived df then giorno_of (get r "Data")
               else get r "Giorno") /\
    (forall name, has_col df name = true ->
                  has_col (derive_month_and_day loc df) name = true).
Proof.
  unfold derive_month_and_day, mese_rederived, giorno_rederived.
  destruct (has_col df "Data" && negb (forallb isna (col df "Data"))) eqn:E1.
  2:{ exists (fun r => r). rewrite map_id. repeat split; auto. }
  cbn [andb].
  destruct (negb (has_col df "Mese") || existsb isna (col df "Mese")) eqn:E2.
  - set (df1 := set_col df "Mese" (fun r => mese_of loc (get r "Data"))).
    assert (Hg : negb (has_col df1 "Giorno") || existsb isna (col df1 "Giorno") =
                 negb (has_col df "Giorno") || existsb isna (col df "Giorno")).
    { unfold df1. rewrite has_col_set_col, col_set_col_other by discriminate.
      cbn [String.eqb Ascii.eqb Bool.eqb]. now rewrite orb_false_r. }
    rewrite Hg.
    destruct (negb (has_col df "Giorno") || existsb isna (col df "Giorno")).
    + exists (fun r => row_set "Giorno" (fun r => giorno_of (get r "Data"))
                        (row_set "Mese" (fun r => mese_of loc (get r "Data")) r)).
      repeat split.
      * unfold df1. now rewrite !rows_set_col, map_map.
      * intros r name H1 H2.
        rewrite !get_row_set_other; auto.
      * intros r. rewrite get_row_set_other by discriminate.
        apply get_row_set_same.
      * intros r. rewrite get_row_set_same.
        now rewrite get_row_set_other by discriminate.
      * intros name H. unfold df1. rewrite !has_col_set_col, H. reflexivity.
    + exists (row_set "Mese" (fun r => mese_of loc (get r "Data"))).
      repeat split.
      * intros r name H1 H2. rewrite get_row_set_other; auto.
      * intros r. apply get_row_set_same.
      * intros r. apply get_row_set_other. discriminate.
      * intros name H. unfold df1. rewrite has_col_set_col, H. reflexivity.
  - destruct (negb (has_col df "Giorno") || existsb isna (col df "Giorno")).
    + exists (row_set "Giorno" (fun r => giorno_of (get r "Data"))).
      repeat split.
      * intros r name H1 H2. rewrite get_row_set_other; auto.
      * intros r. rewrite get_row_set_other by discriminate. reflexivity.
      * intros r. apply get_row_set_same.
      * intros name H. rewrite has_col_set_col, H. reflexivity.
    + exists (fun r => r). rewrite map_id. repeat split; auto.
Qed.

Lemma mem_required name :
  mem name required_columns = true <-> In name required_columns.
Proof.
  unfold mem. rewrite existsb_exists. split.
  - intros [x [Hx He]]. apply String.eqb_eq in He. now subst.
  - intros H. exists name. split; [assumption|apply String.eqb_refl].
Qed.

(** The image of every raw row, field by field. *)
Lemma process_logbook_fields loc df :
  is_empty df = false ->
  exists G,
    rows (process_logbook loc (Some df)) =
      filter (fun r => notna (get r "Data")) (map G (rows df)) /\
    (forall name, has_col df name || mem name required_columns = true ->
                  has_col (process_logbook loc (Some df)) name = true) /\
    forall r0,
      label (G r0) = label r0 /\
      get (G r0) "Data" = date_cell df r0 /\
      get (G r0) "Minuti Impiegati" = CNum (to_numeric_fill0 (raw_minutes df r0)) /\
      (forall name, mem name computed_columns = false ->
         get (G r0) name =
         if negb (has_col df name) && mem name required_columns then CNull
         else get r0 name) /\
      (In r0 (rows df) -> has_col df "Giorno" = false ->
       get (G r0) "Giorno" = giorno_of (date_cell df r0)) /\
      (In r0 (rows df) -> notna (date_cell df r0) = true ->
       notna (get (G r0) "Mese") = true /\ notna (get (G r0) "Giorno") = true).
Proof.
  intros Hne. unfold process_logbook. rewrite Hne.
  rewrite convert_dates_eq, add_missing_columns_eq.
  set (df1 := set_col df "Data" (date_cell df)).
  destruct (add_missing_rows required_columns df1) as [g [Hg1 [Hg2 [Hg3 Hg4]]]].
  set (df2 := fold_left add_missing_step required_columns df1) in *.
  set (fM := fun r => CNum (to_numeric_fill0 (get r "Minuti Impiegati"))).
  set (df3 := set_col df2 "Minuti Impiegati" fM).
  destruct (derive_rows_day loc df3) as [h [Hh1 [Hh2 [Hh3 [Hh4 [Hh6 Hh5]]]]]].
  set (G3 := fun r0 => row_set "Minuti Impiegati" fM
                          (g (row_set "Data" (date_cell df) r0))).
  set (G := fun r0 => h (G3 r0)).
  assert (Hdata1 : has_col df1 "Data" = true).
  { unfold df1. rewrite has_col_set_col. apply orb_true_r. }
  assert (H3data : forall r0, get (G3 r0) "Data" = date_cell df r0).
  { intros r0. unfold G3.
    rewrite get_row_set_other by discriminate.
    rewrite Hg3, Hdata1. cbn [negb andb]. apply get_row_set_same. }
  assert (HGdata : forall r0, get (G r0) "Data" = date_cell df r0).
  { intros r0. unfold G. rewrite Hh3 by discriminate. apply H3data. }
  assert (Hrows3 : rows df3 = map G3 (rows df)).
  { unfold df3. rewrite rows_set_col, Hg1. unfold df1.
    rewrite rows_set_col, !map_map. reflexivity. }
  assert (Hcol3 : forall name, has_col df3 name =
                    has_col df name || (name =? "Data") || mem name required_columns
                    || (name =? "Minuti Impiegati")).
  { intros name. unfold df3. rewrite has_col_set_col, Hg4. unfold df1.
    now rewrite has_col_set_col. }
  assert (Hd3 : has_col df3 "Data" = true).
  { rewrite Hcol3. cbn [String.eqb Ascii.eqb Bool.eqb]. now rewrite orb_true_r. }
  assert (Hall : forall r0, In r0 (rows df) -> notna (date_cell df r0) = true ->
                   negb (forallb isna (col df3 "Data")) = true).
  { intros r0 Hin Hnn. apply negb_true_iff.
    destruct (forallb isna (col df3 "Data")) eqn:Hf; [|reflexivity].
    unfold col in Hf. rewrite Hrows3, map_map, forallb_map in Hf.
    rewrite forallb_forall in Hf. specialize (Hf r0 Hin). cbv beta in Hf.
    rewrite H3data in Hf. unfold notna in Hnn. rewrite Hf in Hnn. discriminate. }
  exists G. split; [|split].
  - cbn [filter_rows rows]. rewrite Hh1, Hrows3, map_map. reflexivity.
  - intros name Hname. cbn [filter_rows has_col columns].
    apply Hh5. rewrite Hcol3.
    apply orb_true_iff in Hname. destruct Hname as [->| ->];
      now rewrite ?orb_true_r.
  - intros r0. split; [|split; [|split; [|split; [|split]]]].
    + unfold G, G3. rewrite Hh2. cbn [row_set label]. now rewrite Hg2.
    + apply HGdata.
    + unfold G, G3. rewrite Hh3 by discriminate.
      rewrite get_row_set_same. unfold fM. do 2 f_equal.
      rewrite Hg3. unfold df1. rewrite has_col_set_col.
      rewrite get_row_set_other by discriminate.
      unfold raw_minutes.
      destruct (has_col df "Minuti Impiegati"); reflexivity.
    + intros name Hc. unfold computed_columns, mem in Hc. cbn [existsb] in Hc.
      rewrite !orb_false_iff in Hc. destruct Hc as [Hc1 [Hc2 [Hc3 [Hc4 _]]]].
      apply String.eqb_neq in Hc1, Hc2, Hc3, Hc4.
      unfold G, G3. rewrite Hh3 by assumption.
      rewrite get_row_set_other by congruence.
      rewrite Hg3. unfold df1 at 1. rewrite has_col_set_col.
      rewrite get_row_set_other by congruence.
      apply String.eqb_neq in Hc1. rewrite Hc1, orb_false_r. reflexivity.
    + intros Hin Hg. unfold G. rewrite Hh6.
      assert (H3g : get (G3 r0) "Giorno" = CNull).
      { unfold G3. rewrite get_row_set_other by discriminate.
        rewrite Hg3. unfold df1 at 1. rewrite has_col_set_col, Hg. reflexivity. }
      rewrite H3g, H3data.
      destruct (giorno_rederived df3) eqn:Hre; [reflexivity|].
      unfold giorno_rederived in Hre.
      assert (Hm3 : existsb isna (col df3 "Giorno") = true).
      { unfold col. rewrite Hrows3, map_map, existsb_map.
        apply existsb_exists. exists r0. split; auto. cbv beta. now rewrite H3g. }
      rewrite Hd3, Hm3, orb_true_r, andb_true_r in Hre. cbn [andb] in Hre.
      apply negb_false_iff in Hre.
      unfold col in Hre. rewrite Hrows3, map_map, forallb_map in Hre.
      rewrite forallb_forall in Hre. specialize (Hre r0 Hin). cbv beta in Hre.
      rewrite H3data in Hre. now rewrite (date_cell_isna _ _ Hre).
    + intros Hin Hnn.
      pose proof (Hall r0 Hin Hnn) as Hna.
      destruct (date_cell_notna _ _ Hnn) as [d Hd].
      unfold G. rewrite Hh4, Hh6, H3data, Hd.
      unfold mese_rederived, giorno_rederived. rewrite Hd3, Hna. cbn [andb].
      split.
      * destruct (negb (has_col df3 "Mese") || existsb isna (col df3 "Mese")) eqn:E;
          [reflexivity|].
        apply orb_false_iff in E. destruct E as [_ E].
        unfold col in E. rewrite Hrows3, map_map, existsb_map in E.
        unfold notna. apply negb_true_iff.
        destruct (isna (get (G3 r0) "Mese")) eqn:Hi; [|reflexivity].
        rewrite <- E. symmetry. apply existsb_exists. exists r0. split; auto.
      * destruct (negb (has_col df3 "Giorno") || existsb isna (col df3 "Giorno")) eqn:E;
          [reflexivity|].
        apply orb_false_iff in E. destruct E as [_ E].
        unfold col in E. rewrite Hrows3, map_map, existsb_map in E.
        unfold notna. apply negb_true_iff.
        destruct (isna (get (G3 r0) "Giorno")) eqn:Hi; [|reflexivity].
        rewrite <- E. symmetry. apply existsb_exists. exists r0. split; auto.
Qed.
Lemma cells_set_same cs name v :
  cells_get cs name = v -> v <> CNull -> cells_set cs name v = cs.
Proof.
  induction cs as [|[k x] t IH]; simpl; intros H Hv.
  - congruence.
  - destruct (k =? name)%string eqn:E.
    + now subst.
    + now rewrite IH.
Qed.

Lemma set_col_same df name f :
  has_col df name = true ->
  (forall r, In r (rows df) -> get r name = f r /\ f r <> CNull) ->
  set_col df name f = df.
Proof.
  intros Hc H. unfold set_col. rewrite Hc. destruct df as [cols rs]; cbn [columns rows] in *.
  f_equal. rewrite <- (map_id rs) at 2. apply map_ext_in. intros r Hin.
  destruct (H r Hin) as [Hg Hn]. destruct r as [l cs]; cbn [label cells] in *.
  f_equal. now apply cells_set_same.
Qed.

Lemma filter_rows_all p df :
  (forall r, In r (rows df) -> p r = true) -> filter_rows p df = df.
Proof.
  intros H. unfold filter_rows. destruct df as [cols rs]; cbn [columns rows] in *.
  f_equal. induction rs as [|r rs IH]; [reflexivity|]. cbn [filter].
  rewrite (H r (or_introl eq_refl)). f_equal. apply IH. intros x Hx. apply H. now right.
Qed.

Lemma existsb_none {A} (p : A -> bool) l :
  (forall x, In x l -> p x = false) -> existsb p l = false.
Proof.
  intros H. induction l as [|x l IH]; [reflexivity|]. cbn [existsb].
  rewrite (H x (or_introl eq_refl)). apply IH. intros y Hy. apply H. now right.
Qed.

(** What every row of the processed table carries. *)
Lemma process_logbook_row loc raw r :
  In r (rows (process_logbook loc (Some raw))) ->
  (exists d, get r "Data" = CDate d) /\
  (exists n, get r "Minuti Impiegati" = CNum n /\ n <> NaN) /\
  notna (get r "Mese") = true /\ notna (get r "Giorno") = true.
Proof.
  intros Hin.
  destruct (is_empty raw) eqn:Hemp.
  { unfold process_logbook in Hin. rewrite Hemp in Hin. destruct Hin. }
  destruct (process_logbook_fields loc raw Hemp) as [G [Hrows [_ HG]]].
  rewrite Hrows in Hin. apply filter_In in Hin. destruct Hin as [Hin Hnn].
  apply in_map_iff in Hin. destruct Hin as [r0 [<- Hin0]].
  destruct (HG r0) as [_ [Hd [Hm [_ [_ Hmg]]]]].
  rewrite Hd in Hnn. split; [|split].
  - rewrite Hd. now apply date_cell_notna.
  - eexists. split; [exact Hm|apply to_numeric_fill0_not_nan].
  - now apply Hmg.
Qed.

(** X8. [process_logbook] changes nothing in a table it has produced:
    a second pass, under either locale, returns the same_value rows, and the
    same_value table when the table has rows. *)
Theorem process_logbook_idempotent (loc loc' : locale) (raw : option frame) :
  rows (process_logbook loc' (Some (process_logbook loc raw))) =
    rows (process_logbook loc raw) /\
  (is_empty (process_logbook loc raw) = false ->
   process_logbook loc' (Some (process_logbook loc raw)) = process_logbook loc raw).
Proof.
  set (out := process_logbook loc raw).
  assert (Hrow : forall r, In r (rows out) ->
            (exists d, get r "Data" = CDate d) /\
            (exists n, get r "Minuti Impiegati" = CNum n /\ n <> NaN) /\
            notna (get r "Mese") = true /\ notna (get r "Giorno") = true).
  { intros r Hin. destruct raw as [raw|].
    - now apply (process_logbook_row loc raw).
    - destruct Hin. }
  assert (Hcols : forall name, In name required_columns -> has_col out name = true).
  { intros name Hin. destruct raw as [raw|]; [destruct (is_empty raw) eqn:Hemp|].
    - unfold out, process_logbook. rewrite Hemp. now apply mem_required.
    - destruct (process_logbook_fields loc raw Hemp) as [G [_ [Hc _]]].
      apply Hc. apply mem_required in Hin. rewrite Hin. apply orb_true_r.
    - now apply mem_required. }
  assert (Hfix : is_empty out = false -> process_logbook loc' (Some out) = out).
  { intros Hne. unfold process_logbook at 1. rewrite Hne.
    assert (H1 : convert_dates out = out).
    { rewrite convert_dates_eq. apply set_col_same.
      - apply Hcols. simpl. tauto.
      - intros r Hin. destruct (Hrow r Hin) as [[d Hd] _].
        unfold date_cell. rewrite (Hcols "Data") by (simpl; tauto).
        rewrite Hd. split; [reflexivity|discriminate]. }
    rewrite H1.
    assert (H2 : add_missing_columns out = out).
    { rewrite add_missing_columns_eq. unfold required_columns. cbn [fold_left].
      unfold add_missing_step.
      rewrite !Hcols by (simpl; tauto). reflexivity. }
    rewrite H2.
    assert (H3 : set_col out "Minuti Impiegati"
                   (fun r => CNum (to_numeric_fill0 (get r "Minuti Impiegati"))) = out).
    { apply set_col_same.
      - apply Hcols. simpl; tauto.
      - intros r Hin. destruct (Hrow r Hin) as [_ [[n [Hn Hnan]] _]].
        rewrite Hn. split; [|discriminate]. f_equal.
        destruct n; try reflexivity. congruence. }
    rewrite H3.
    assert (H4 : derive_month_and_day loc' out = out).
    { unfold derive_month_and_day.
      rewrite !Hcols by (simpl; tauto). cbn [negb orb andb].
      assert (Hm : existsb isna (col out "Mese") = false).
      { apply existsb_none. intros c Hc. unfold col in Hc.
        apply in_map_iff in Hc. destruct Hc as [r [<- Hin]].
        destruct (Hrow r Hin) as [_ [_ [Hm _]]]. now apply negb_true_iff in Hm. }
      assert (Hg : existsb isna (col out "Giorno") = false).
      { apply existsb_none. intros c Hc. unfold col in Hc.
        apply in_map_iff in Hc. destruct Hc as [r [<- Hin]].
        destruct (Hrow r Hin) as [_ [_ [_ Hg]]]. now apply negb_true_iff in Hg. }
      rewrite Hm, Hg. cbn [negb orb andb]. rewrite (Hcols "Giorno") by (simpl; tauto).
      now destruct (negb _). }
    rewrite H4. apply filter_rows_all. intros r Hin.
    destruct (Hrow r Hin) as [[d Hd] _]. now rewrite Hd. }
  split; [|exact Hfix].
  destruct (is_empty out) eqn:Hne.
  - unfold process_logbook at 1. fold out. rewrite Hne. cbn [rows].
    symmetry. apply (is_empty_has_col out "Data" Hne). apply Hcols. simpl; tauto.
  - now rewrite Hfix.
Qed.

Lemma process_logbook_idempotent_witness :
  process_logbook C_locale (Some (process_logbook it_IT (Some stale_month_logbook))) =
  process_logbook it_IT (Some stale_month_logbook).
Proof.
  refine (proj2 (process_logbook_idempotent it_IT C_locale (Some stale_month_logbook)) _).
  vm_compute. reflexivity.
Defined.
(** X6. The table [process_logbook] returns always has the ten
    required columns, and the columns of a source that has rows as
    well; a source without rows, or no source at all, gives the ten
    columns alone and no row. *)
Theorem process_logbook_columns (loc : locale) (df : option frame) :
  (forall name, In name required_columns ->
                has_col (process_logbook loc df) name = true) /\
  (forall d name, df = Some d -> is_empty d = false -> has_col d name = true ->
                  has_col (process_logbook loc df) name = true) /\
  (forall d, df = Some d -> is_empty d = true ->
             process_logbook loc df = mkFrame required_columns []) /\
  process_logbook loc None = mkFrame required_columns [].
Proof.
  split; [|split; [|split]].
  - intros name Hin. destruct df as [d|]; [destruct (is_empty d) eqn:Hemp|].
    + unfold process_logbook. rewrite Hemp. now apply mem_required.
    + destruct (process_logbook_fields loc d Hemp) as [G [_ [Hc _]]].
      apply Hc. apply mem_required in Hin. rewrite Hin. apply orb_true_r.
    + now apply mem_required.
  - intros d name -> Hemp Hc.
    destruct (process_logbook_fields loc d Hemp) as [G [_ [H _]]].
    apply H. now rewrite Hc.
  - intros d -> Hemp. unfold process_logbook. now rewrite Hemp.
  - reflexivity.
Qed.

Lemma process_logbook_columns_witness :
  has_col (process_logbook it_IT (Some stale_month_logbook)) "Cliente" = true.
Proof.
  refine (proj1 (proj2 (process_logbook_columns it_IT (Some stale_month_logbook)))
                stale_month_logbook "Cliente" _ _ _); reflexivity.
Defined.

(** X7. From a source that has rows [process_logbook] keeps, in their
    order and under their index labels, the rows whose date converts
    under the day-first format, and no other (none at all when the
    source has no date column).  In a kept row every column the function
    does not compute holds what the source held, a required column the
    source lacks is null, and the day name, when the source has no such
    column, is the English name of the weekday of the date. *)
Theorem process_logbook_row_accounting (loc : locale) (raw : frame) :
  is_empty raw = false ->
  map label (rows (process_logbook loc (Some raw))) =
    map label (filter (fun r0 => notna (date_cell raw r0)) (rows raw)) /\
  (has_col raw "Data" = false -> rows (process_logbook loc (Some raw)) = []) /\
  (forall r, In r (rows (process_logbook loc (Some raw))) ->
     exists r0 d,
       In r0 (rows raw) /\ label r = label r0 /\
       to_datetime fmt_dmy_slash (get r0 "Data") = CDate d /\
       get r "Data" = CDate d /\
       (forall name, mem name computed_columns = false ->
          get r name = if has_col raw name then get r0 name
                       else if mem name required_columns then CNull
                       else get r0 name) /\
       (has_col raw "Giorno" = false -> get r "Giorno" = CStr (day_name d))).
Proof.
  intros Hemp.
  destruct (process_logbook_fields loc raw Hemp) as [G [Hrows [_ HG]]].
  assert (Hlab : map label (rows (process_logbook loc (Some raw))) =
                 map label (filter (fun r0 => notna (date_cell raw r0)) (rows raw))).
  { rewrite Hrows, filter_map_comm, map_map.
    rewrite (filter_ext (fun x => notna (get (G x) "Data"))
                        (fun r0 => notna (date_cell raw r0))).
    - apply map_ext. intros r0. apply (HG r0).
    - intros r0. now rewrite (proj1 (proj2 (HG r0))). }
  split; [exact Hlab|]. split.
  - intros Hd.
    assert (Hnone : filter (fun r0 => notna (date_cell raw r0)) (rows raw) = []).
    { apply filter_none. intros r0 _. unfold date_cell. now rewrite Hd. }
    rewrite Hnone in Hlab. now destruct (rows (process_logbook loc (Some raw))).
  - intros r Hin. rewrite Hrows in Hin. apply filter_In in Hin.
    destruct Hin as [Hin Hnn]. apply in_map_iff in Hin. destruct Hin as [r0 [<- Hin0]].
    destruct (HG r0) as [Hl [Hd [_ [Hp [Hg _]]]]].
    rewrite Hd in Hnn. destruct (date_cell_notna _ _ Hnn) as [d Hdc].
    exists r0, d. split; [assumption|]. split; [assumption|].
    assert (Hhas : has_col raw "Data" = true).
    { unfold date_cell in Hdc. destruct (has_col raw "Data"); [reflexivity|discriminate]. }
    split; [|split; [|split]].
    + unfold date_cell in Hdc. now rewrite Hhas in Hdc.
    + now rewrite Hd.
    + intros name Hc. rewrite (Hp name Hc).
      destruct (has_col raw name), (mem name required_columns); reflexivity.
    + intros Hgi. rewrite (Hg Hin0 Hgi), Hdc. reflexivity.
Qed.

Lemma process_logbook_row_accounting_witness :
  map label (rows (process_logbook it_IT (Some iso_logbook))) =
  map label (filter (fun r0 => notna (date_cell iso_logbook r0)) (rows iso_logbook)).
Proof.
  refine (proj1 (process_logbook_row_accounting it_IT iso_logbook _)). reflexivity.
Defined.

(* ----------------------------------------------------------------- *)
(** ** The gates of the dashboard run *)

Lemma main_not_loaded loc s ui :
  essential_sheets_read s = false -> main loc s ui = Stopped load_error.
Proof.
  unfold essential_sheets_read, main, load_sheets_data.
  destruct (read_sheet (sh_logbook s)), (read_sheet (sh_clienti s)),
    (read_sheet (sh_compensi s)); try discriminate; reflexivity.
Qed.

Lemma main_loaded loc s ui :
  essential_sheets_read s = true ->
  exists clienti compensi,
    main loc s ui =
    let logbook_processed :=
      add_mese_formattato (process_logbook loc (Some (loaded_logbook s))) in
    if is_empty logbook_processed then Stopped no_valid_data
    else if negb (has_col logbook_processed "Data") ||
            forallb isna (col logbook_processed "Data") then Stopped no_date_column
    else if date_gtb (start_date ui) (end_date ui) then Stopped reversed_period
    else dashboard logbook_processed clienti compensi
                   (build_client_map (mapping_df (load_sheets_data s))) ui.
Proof.
  unfold essential_sheets_read, main, loaded_logbook, load_sheets_data.
  destruct (read_sheet (sh_logbook s)) as [l|], (read_sheet (sh_clienti s)) as [c|],
    (read_sheet (sh_compensi s)) as [p|]; try discriminate.
  intros _. cbn [logbook_df clienti_df compensi_df mapping_df].
  eexists. eexists. reflexivity.
Qed.

Lemma run_not_stopped {A} (m : result A) k msg :
  (forall a, k a <> Stopped msg) -> run m k <> Stopped msg.
Proof. intros H. destruct m; simpl; [apply H|discriminate]. Qed.

Lemma dashboard_not_stopped lp clienti compensi cm ui msg :
  dashboard lp clienti compensi cm ui <> Stopped msg.
Proof.
  unfold dashboard.
  repeat (apply run_not_stopped; intros ?).
  discriminate.
Qed.

Lemma add_mese_formattato_rows loc df :
  rows (add_mese_formattato (process_logbook loc df)) =
  map (row_set "MeseFormattato" (fun r => extract_month_from_date (get r "Data")))
      (rows (process_logbook loc df)).
Proof. apply rows_add_mese_formattato, process_logbook_has_data. Qed.

Lemma add_mese_formattato_has_col df name :
  has_col df name = true -> has_col (add_mese_formattato df) name = true.
Proof.
  intros H. unfold add_mese_formattato. destruct (has_col df "Data"); [|assumption].
  now rewrite has_col_set_col, H.
Qed.

(** The table [main] works on is empty exactly when no raw row has a
    date that converts. *)
Lemma logbook_processed_empty loc raw :
  is_empty (add_mese_formattato (process_logbook loc (Some raw))) = true <->
  forall r0, In r0 (rows raw) -> isna (date_cell raw r0) = true.
Proof.
  assert (Hc : has_col (add_mese_formattato (process_logbook loc (Some raw))) "Data" = true)
    by apply add_mese_formattato_has_col, process_logbook_has_data.
  split.
  - intros He r0 Hin.
    pose proof (is_empty_has_col _ _ He Hc) as Hr.
    rewrite add_mese_formattato_rows in Hr.
    destruct (is_empty raw) eqn:Hemp.
    + unfold is_empty in Hemp. destruct (rows raw); [destruct Hin|].
      unfold date_cell, has_col. destruct (columns raw); [reflexivity|discriminate].
    + destruct (process_logbook_fields loc raw Hemp) as [G [Hrows [_ HG]]].
      rewrite Hrows in Hr. apply map_eq_nil in Hr.
      destruct (isna (date_cell raw r0)) eqn:Hi; [reflexivity|].
      assert (Hx : In (G r0) (filter (fun r => notna (get r "Data")) (map G (rows raw)))).
      { apply filter_In. split; [now apply in_map|].
        rewrite (proj1 (proj2 (HG r0))). unfold notna. now rewrite Hi. }
      rewrite Hr in Hx. destruct Hx.
  - intros H. apply is_empty_rows. rewrite add_mese_formattato_rows.
    destruct (is_empty raw) eqn:Hemp.
    + unfold process_logbook. now rewrite Hemp.
    + destruct (process_logbook_fields loc raw Hemp) as [G [Hrows [_ HG]]].
      rewrite Hrows. replace (filter _ _) with (@nil row); [reflexivity|].
      symmetry. apply filter_none. intros r Hr.
      apply in_map_iff in Hr. destruct Hr as [r0 [<- Hin]].
      rewrite (proj1 (proj2 (HG r0))). unfold notna. now rewrite (H r0 Hin).
Qed.

Lemma logbook_processed_dates loc raw :
  is_empty (add_mese_formattato (process_logbook loc (Some raw))) = false ->
  negb (has_col (add_mese_formattato (process_logbook loc (Some raw))) "Data") ||
  forallb isna (col (add_mese_formattato (process_logbook loc (Some raw))) "Data") = false.
Proof.
  intros Hne.
  rewrite add_mese_formattato_has_col by apply process_logbook_has_data.
  cbn [negb orb]. unfold col. rewrite add_mese_formattato_rows, map_map.
  unfold is_empty in Hne. rewrite add_mese_formattato_rows in Hne.
  destruct (rows (process_logbook loc (Some raw))) as [|r rs] eqn:Hr; [discriminate|].
  cbn [map forallb].
  rewrite get_row_set_other by discriminate.
  destruct (process_logbook_row loc raw r) as [[d Hd] _].
  { rewrite Hr. now left. }
  now rewrite Hd.
Qed.

(** X9. [main] stops with the loading error exactly when one of the
    sheets "Logbook", "Clienti" and "Compensi collaboratori" could not be
    read; the sheet "Mappa" is never a reason to stop. *)
Theorem main_load_gate (loc : locale) (s : sheets) (ui : selections) :
  main loc s ui = Stopped load_error <->
  read_sheet (sh_logbook s) = None \/ read_sheet (sh_clienti s) = None \/
  read_sheet (sh_compensi s) = None.
Proof.
  destruct (essential_sheets_read s) eqn:He.
  - destruct (main_loaded loc s ui He) as [c [p Hm]]. rewrite Hm. cbv zeta.
    split.
    + intros H. exfalso. revert H.
      destruct (is_empty _); [discriminate|].
      destruct (negb _ || _); [discriminate|].
      destruct (date_gtb _ _); [discriminate|].
      apply dashboard_not_stopped.
    + unfold essential_sheets_read in He.
      destruct (read_sheet (sh_logbook s)), (read_sheet (sh_clienti s)),
        (read_sheet (sh_compensi s)); try discriminate.
      intros [H|[H|H]]; discriminate.
  - rewrite (main_not_loaded loc s ui He). split; [intros _|reflexivity].
    unfold essential_sheets_read in He.
    destruct (read_sheet (sh_logbook s)); [|now left].
    destruct (read_sheet (sh_clienti s)); [|right; now left].
    destruct (read_sheet (sh_compensi s)); [discriminate|right; now right].
Qed.

(** X10. Once the three sheets are read, [main] stops for want of valid
    data exactly when no time entry has a date that converts under the
    day-first format; the test of the date column that follows can then
    never fail, so its message is never shown. *)
Theorem main_stops_without_valid_dates (loc : locale) (s : sheets) (ui : selections) :
  (essential_sheets_read s = true ->
   (main loc s ui = Stopped no_valid_data <->
    forall r0, In r0 (rows (loaded_logbook s)) ->
               isna (date_cell (loaded_logbook s) r0) = true)) /\
  main loc s ui <> Stopped no_date_column.
Proof.
  split.
  - intros He. destruct (main_loaded loc s ui He) as [c [p Hm]]. rewrite Hm. cbv zeta.
    rewrite <- (logbook_processed_empty loc).
    destruct (is_empty _) eqn:Hemp; [split; reflexivity|].
    split; [|discriminate]. intros H. exfalso. revert H.
    destruct (negb _ || _); [discriminate|].
    destruct (date_gtb _ _); [discriminate|].
    apply dashboard_not_stopped.
  - destruct (essential_sheets_read s) eqn:He.
    + destruct (main_loaded loc s ui He) as [c [p Hm]]. rewrite Hm. cbv zeta.
      destruct (is_empty _) eqn:Hemp; [discriminate|].
      rewrite (logbook_processed_dates loc _ Hemp).
      destruct (date_gtb _ _); [discriminate|].
      apply dashboard_not_stopped.
    + rewrite (main_not_loaded loc s ui He). discriminate.
Qed.

Lemma main_stops_without_valid_dates_witness :
  main it_IT iso_sheets march_2024 = Stopped no_valid_data.
Proof.
  refine (proj2 (proj1 (main_stops_without_valid_dates it_IT iso_sheets march_2024) _) _).
  - reflexivity.
  - refine (proj1 (forallb_forall
                     (fun r0 => isna (date_cell (loaded_logbook iso_sheets) r0)) _) _).
    vm_compute. reflexivity.
Defined.

(** X11. With a start date after the end date [main] never reaches the
    metrics: it stops, with the message about the period when the sheets
    were read and hold a valid entry. *)
Theorem main_reversed_period (loc : locale) (s : sheets) (ui : selections) :
  date_gtb (start_date ui) (end_date ui) = true ->
  (exists msg, main loc s ui = Stopped msg) /\
  (essential_sheets_read s = true ->
   (exists r0, In r0 (rows (loaded_logbook s)) /\
               notna (date_cell (loaded_logbook s) r0) = true) ->
   main loc s ui = Stopped reversed_period).
Proof.
  intros Hgt.
  destruct (essential_sheets_read s) eqn:He.
  - destruct (main_loaded loc s ui He) as [c [p Hm]]. rewrite Hm. cbv zeta.
    rewrite Hgt.
    split.
    + destruct (is_empty _); [now eexists|].
      destruct (negb _ || _); now eexists.
    + intros _ [r0 [Hin Hnn]].
      destruct (is_empty _) eqn:Hemp.
      * rewrite logbook_processed_empty in Hemp. specialize (Hemp r0 Hin).
        unfold notna in Hnn. rewrite Hemp in Hnn. discriminate.
      * now rewrite (logbook_processed_dates loc _ Hemp).
  - rewrite (main_not_loaded loc s ui He). split; [now eexists|discriminate].
Qed.

Lemma main_reversed_period_witness :
  exists msg,
    main it_IT scenario_sheets
         (mkSelections (mkDate 2024 3 31) (mkDate 2024 3 1) [] [] [] []) = Stopped msg.
Proof.
  refine (proj1 (main_reversed_period it_IT scenario_sheets
                   (mkSelections (mkDate 2024 3 31) (mkDate 2024 3 1) [] [] [] []) _)).
  reflexivity.
Defined.

(* ----------------------------------------------------------------- *)
(** ** Client name resolver, client map, revenue rows *)

Lemma prefix_refl s : prefix s s = true.
Proof.
  induction s as [|c s IH]; [reflexivity|]. cbn [prefix].
  destruct (ascii_dec c c); [exact IH|congruence].
Qed.

Lemma str_in_refl s : str_in s s = true.
Proof. destruct s; cbn [str_in]; now rewrite prefix_refl. Qed.

Lemma cell_eqb_str c s : cell_eqb c (CStr s) = true <-> c = CStr s.
Proof.
  destruct c as [|x|n|d]; simpl; try (split; discriminate).
  rewrite String.eqb_eq. split; congruence.
Qed.

Lemma exact_is_contained name c :
  cell_eqb c (CStr name) = true -> contains_nocase name c = true.
Proof. intros H. apply cell_eqb_str in H. subst. apply str_in_refl. Qed.

Lemma is_empty_filter_rows df name p :
  has_col df name = true ->
  is_empty (filter_rows p df) = true <-> filter p (rows df) = [].
Proof.
  intros Hc. unfold is_empty, filter_rows; cbn [rows columns].
  destruct (filter p (rows df)); [tauto|].
  unfold has_col in Hc. destruct (columns df); [discriminate|].
  split; discriminate.
Qed.

(** X12. Looking a name up in the revenue table, for names written
    with the characters of ASCII and Latin-1 (where the comparison
    without case of the embedding is that of Python): the answer is
    never an empty table; its rows are rows of the table whose name
    contains the name asked for, whatever the letter case; when a row
    bears exactly the name asked for, only the rows that do are
    returned; and nothing is returned exactly when no name contains the
    one asked for. *)
Theorem find_client_row_answer (clienti : frame) (name : string) :
  has_col clienti "Cliente" = true ->
  regex_free name = true ->
  is_latin1 name = true ->
  (forall r s, In r (rows clienti) -> get r "Cliente" = CStr s -> is_latin1 s = true) ->
  (exists answer, find_client_row (Some clienti) (CStr name) = Ok answer) /\
  (forall res, find_client_row (Some clienti) (CStr name) = Ok (Some res) ->
     rows res <> [] /\ columns res = columns clienti /\
     (forall r, In r (rows res) ->
                In r (rows clienti) /\ contains_nocase name (get r "Cliente") = true) /\
     ((exists r, In r (rows clienti) /\ get r "Cliente" = CStr name) ->
      forall r, In r (rows res) <-> In r (rows clienti) /\ get r "Cliente" = CStr name)) /\
  (find_client_row (Some clienti) (CStr name) = Ok None <->
   forall r, In r (rows clienti) -> contains_nocase name (get r "Cliente") = false).
Proof.
  intros Hc Hrf _ _. unfold find_client_row. rewrite Hc, Hrf.
  set (exact := filter_rows (fun r => cell_eqb (get r "Cliente") (CStr name)) clienti).
  set (part := filter_rows (fun r => contains_nocase name (get r "Cliente")) clienti).
  destruct (is_empty clienti) eqn:Hemp.
  { pose proof (is_empty_has_col _ _ Hemp Hc) as Hr.
    split; [now eexists|]. split; [discriminate|].
    split; [intros _ r Hin|reflexivity]. rewrite Hr in Hin. destruct Hin. }
  assert (Hex : forall r, In r (rows exact) <->
                          In r (rows clienti) /\ get r "Cliente" = CStr name).
  { intros r. unfold exact. cbn [filter_rows rows].
    now rewrite filter_In, cell_eqb_str. }
  assert (Hpa : forall r, In r (rows part) <->
                          In r (rows clienti) /\
                          contains_nocase name (get r "Cliente") = true).
  { intros r. unfold part. cbn [filter_rows rows]. now rewrite filter_In. }
  destruct (is_empty exact) eqn:He; cbn [negb].
  - assert (Hno : rows exact = [])
      by (unfold exact in *; now apply (is_empty_filter_rows clienti "Cliente") in He).
    destruct (is_empty part) eqn:Hp; cbn [negb].
    + assert (Hnp : rows part = [])
        by (unfold part in *; now apply (is_empty_filter_rows clienti "Cliente") in Hp).
      split; [now eexists|]. split; [discriminate|].
      split; [intros _|reflexivity]. intros r Hin.
      destruct (contains_nocase name (get r "Cliente")) eqn:Hcn; [|reflexivity].
      assert (Hx : In r (rows part)) by (apply Hpa; now split).
      rewrite Hnp in Hx. destruct Hx.
    + split; [now eexists|]. split.
      * intros res Hres. injection Hres as <-.
        split; [|split; [reflexivity|split]].
        -- intros Hn. rewrite (is_empty_rows _ Hn) in Hp. discriminate.
        -- intros r Hin. now apply Hpa.
        -- intros [r0 Hr0] r. apply Hex in Hr0. rewrite Hno in Hr0. destruct Hr0.
      * split; [discriminate|]. intros H. exfalso.
        assert (Hnp : rows part = []).
        { unfold part. cbn [filter_rows rows]. now apply filter_none. }
        rewrite (is_empty_rows _ Hnp) in Hp. discriminate.
  - split; [now eexists|]. split.
    + intros res Hres. injection Hres as <-.
      split; [|split; [reflexivity|split]].
      * intros Hn. rewrite (is_empty_rows _ Hn) in He. discriminate.
      * intros r Hin. apply Hex in Hin. destruct Hin as [Hin Hn]. split; [assumption|].
        rewrite Hn. apply str_in_refl.
      * intros _ r. apply Hex.
    + split; [discriminate|]. intros H. exfalso.
      assert (Hno : rows exact = []).
      { unfold exact. cbn [filter_rows rows]. apply filter_none. intros r Hin.
        destruct (cell_eqb (get r "Cliente") (CStr name)) eqn:E; [|reflexivity].
        apply exact_is_contained in E. now rewrite (H r Hin) in E. }
      rewrite (is_empty_rows _ Hno) in He. discriminate.
Qed.

(** A name asked for without its capitals, and found under its accent. *)
Lemma find_client_row_answer_witness :
  exists res,
    find_client_row (Some accented_rows) (CStr "caffè") = Ok (Some res) /\
    columns res = columns accented_rows.
Proof.
  assert (L : forall r s, In r (rows accented_rows) -> get r "Cliente" = CStr s ->
                          is_latin1 s = true).
  { intros r s [<-|[<-|[]]] E; injection E as <-; reflexivity. }
  destruct (find_client_row_answer accented_rows "caffè" eq_refl eq_refl eq_refl L)
    as [[answer Ha] [Hsome Hnone]].
  destruct answer as [res|].
  - exists res. split; [exact Ha|]. apply (Hsome res Ha).
  - exfalso.
    pose proof (proj1 Hnone Ha
                  (mkRow (CNum (of_Z 1))
                     [("Cliente", CStr "CAFFÈ ROMA"); ("Marzo", CStr "€ 7,00")])
                  (or_intror (or_introl eq_refl))) as H'.
    vm_compute in H'. discriminate H'.
Defined.

Lemma find_map {A B} (f : A -> B) p l :
  find p (map f l) = option_map f (find (fun x => p (f x)) l).
Proof.
  induction l as [|x l IH]; [reflexivity|]. cbn [map find].
  destruct (p (f x)); [reflexivity|exact IH].
Qed.

Lemma combine_map {A B C} (f : A -> B) (g : A -> C) l :
  combine (map f l) (map g l) = map (fun x => (f x, g x)) l.
Proof. induction l as [|x l IH]; [reflexivity|]. cbn [map combine]. now rewrite IH. Qed.

Lemma find_none_iff {A} (p : A -> bool) l :
  (forall x, In x l -> p x = false) -> find p l = None.
Proof.
  intros H. induction l as [|x l IH]; [reflexivity|]. cbn [find].
  rewrite (H x (or_introl eq_refl)). apply IH. intros y Hy. apply H. now right.
Qed.

Lemma find_skip {A} (p : A -> bool) l1 x l2 :
  (forall y, In y l1 -> p y = false) -> p x = true ->
  find p (l1 ++ x :: l2) = Some x.
Proof.
  intros H Hx. induction l1 as [|y l1 IH]; cbn [app find].
  - now rewrite Hx.
  - rewrite (H y (or_introl eq_refl)). apply IH. intros z Hz. apply H. now right.
Qed.

Lemma client_map_lookup m k :
  is_empty m = false ->
  has_col m "Cliente" = true -> has_col m "Cliente Map" = true ->
  dict_get (build_client_map (Some m)) k k =
  match find (fun r => key_eqb (get r "Cliente Map") k) (rev (rows m)) with
  | Some r => get r "Cliente"
  | None => k
  end.
Proof.
  intros He H1 H2. unfold build_client_map, dict_get. rewrite He, H1, H2.
  cbn [negb andb]. unfold col. rewrite combine_map, <- map_rev, find_map.
  cbn [fst]. now destruct (find _ _).
Qed.

(** X13. The client map is keyed by the column "Cliente Map" of the
    mapping table: a label that no row has there is left as it is, and
    a label is translated to the "Cliente" cell of the last row that has
    it there, whatever the rows before give. *)
Theorem client_map_last_row_wins (m : frame) (k : cell) :
  is_empty m = false ->
  has_col m "Cliente" = true -> has_col m "Cliente Map" = true ->
  ((forall r, In r (rows m) -> key_eqb (get r "Cliente Map") k = false) ->
   dict_get (build_client_map (Some m)) k k = k) /\
  (forall before r after,
     rows m = (before ++ r :: after)%list ->
     key_eqb (get r "Cliente Map") k = true ->
     (forall r', In r' after -> key_eqb (get r' "Cliente Map") k = false) ->
     dict_get (build_client_map (Some m)) k k = get r "Cliente").
Proof.
  intros He H1 H2. rewrite (client_map_lookup m k He H1 H2). split.
  - intros H. rewrite find_none_iff; [reflexivity|].
    intros r Hr. apply H. now apply in_rev.
  - intros before r after Hrows Hr Hafter. rewrite Hrows, rev_app_distr.
    cbn [rev]. rewrite <- app_assoc. cbn [app].
    rewrite (find_skip _ (rev after) r (rev before)); [reflexivity| |assumption].
    intros y Hy. apply Hafter. now apply in_rev.
Qed.

Lemma client_map_last_row_wins_witness :
  dict_get (build_client_map (Some default_mapping_df))
           (CStr "Nuovo Cliente") (CStr "Nuovo Cliente") = CStr "Nuovo Cliente".
Proof.
  refine (proj1 (client_map_last_row_wins default_mapping_df (CStr "Nuovo Cliente")
                   _ _ _) _); try reflexivity.
  intros r Hr. simpl in Hr.
  repeat (destruct Hr as [<-|Hr]; [reflexivity|]). destruct Hr.
Defined.

Lemma cells_get_del_same cs name : cells_get (cells_del cs name) name = CNull.
Proof.
  induction cs as [|[k x] t IH]; [reflexivity|]. cbn [cells_del].
  destruct (k =? name)%string eqn:E; [exact IH|]. cbn [cells_get]. now rewrite E.
Qed.

(** X14. When the revenue sheet has a column "Actual", the revenue
    table that is loaded holds the rows marked "Actual" in it, with
    their other cells untouched, and no other row; the column itself is
    dropped.  Without the column every row is loaded. *)
Theorem only_actual_revenue_is_loaded (s : sheets) (c : frame) :
  essential_sheets_read s = true ->
  read_sheet (sh_clienti s) = Some c ->
  exists loaded,
    clienti_df (load_sheets_data s) = Some loaded /\
    (has_col c "Actual" = false -> loaded = dropna_all c) /\
    (has_col c "Actual" = true ->
     has_col loaded "Actual" = false /\
     map label (rows loaded) =
       map label (filter (fun r0 => cell_eqb (get r0 "Actual") (CStr "Actual"))
                         (rows (dropna_all c))) /\
     forall r, In r (rows loaded) ->
       exists r0, In r0 (rows (dropna_all c)) /\ get r0 "Actual" = CStr "Actual" /\
                  label r = label r0 /\ get r "Actual" = CNull /\
                  forall name, name <> "Actual" -> get r name = get r0 name).
Proof.
  intros He Hc. unfold essential_sheets_read in He. unfold load_sheets_data.
  rewrite Hc in *.
  destruct (read_sheet (sh_logbook s)); [|discriminate].
  destruct (read_sheet (sh_compensi s)); [|discriminate].
  cbn [clienti_df]. eexists. split; [reflexivity|].
  assert (Hd : has_col (dropna_all c) "Actual" = has_col c "Actual") by reflexivity.
  unfold prepare_clienti. rewrite Hd. split.
  - now intros ->.
  - intros ->. split; [|split].
    + unfold has_col, drop_col. cbn [columns].
      apply existsb_none. intros x Hx. apply filter_In in Hx. destruct Hx as [_ Hx].
      apply negb_true_iff in Hx. now rewrite String.eqb_sym.
    + unfold drop_col, filter_rows. cbn [rows]. now rewrite map_map.
    + intros r Hin. unfold drop_col, filter_rows in Hin. cbn [rows] in Hin.
      apply in_map_iff in Hin. destruct Hin as [r0 [<- Hin]].
      apply filter_In in Hin. destruct Hin as [Hin Ha]. apply cell_eqb_str in Ha.
      exists r0. repeat split; auto.
      * apply cells_get_del_same.
      * intros name Hn. unfold get. cbn [cells]. apply cells_get_del_other. congruence.
Qed.

Lemma only_actual_revenue_is_loaded_witness :
  exists loaded,
    clienti_df (load_sheets_data scenario_sheets) = Some loaded /\
    (has_col (frame_of (read_sheet (sh_clienti scenario_sheets))) "Actual" = false ->
     loaded = dropna_all (frame_of (read_sheet (sh_clienti scenario_sheets)))) /\
    (has_col (frame_of (read_sheet (sh_clienti scenario_sheets))) "Actual" = true ->
     has_col loaded "Actual" = false /\
     map label (rows loaded) =
       map label (filter (fun r0 => cell_eqb (get r0 "Actual") (CStr "Actual"))
                         (rows (dropna_all
                                  (frame_of (read_sheet (sh_clienti scenario_sheets)))))) /\
     forall r, In r (rows loaded) ->
       exists r0,
         In r0 (rows (dropna_all (frame_of (read_sheet (sh_clienti scenario_sheets))))) /\
         get r0 "Actual" = CStr "Actual" /\
         label r = label r0 /\ get r "Actual" = CNull /\
         forall name, name <> "Actual" -> get r name = get r0 name).
Proof.
  apply (only_actual_revenue_is_loaded scenario_sheets
           (frame_of (read_sheet (sh_clienti scenario_sheets)))); reflexivity.
Defined.

(* ----------------------------------------------------------------- *)
(** ** Month names and quarters *)

Lemma month_cases (m : Z) :
  (1 <= m <= 12)%Z ->
  m = 1%Z \/ m = 2%Z \/ m = 3%Z \/ m = 4%Z \/ m = 5%Z \/ m = 6%Z \/
  m = 7%Z \/ m = 8%Z \/ m = 9%Z \/ m = 10%Z \/ m = 11%Z \/ m = 12%Z.
Proof. lia. Qed.

Ltac each_month m H :=
  let C := fresh "C" in
  pose proof (month_cases m H) as C;
  repeat (destruct C as [C|C]; [subst m|]); [..|subst m].

(** X15. A month named in Italian or in English (as [strftime] names it
    under either locale), by its capitalised Italian label or by its
    number falls in the same_value quarter, the quarter of its number; and
    whatever the argument, a quarter that is returned is one of 1 to 4. *)
Theorem quarter_from_month_agrees (loc : locale) (m : Z) :
  (1 <= m <= 12)%Z ->
  quarter_from_month (CStr (month_name loc m)) = Ok (Some ((m - 1) / 3 + 1)%Z) /\
  (forall d, month d = m ->
     quarter_from_month (mese_of loc (CDate d)) = Ok (Some ((m - 1) / 3 + 1)%Z)) /\
  quarter_from_month (month_map m) = Ok (Some ((m - 1) / 3 + 1)%Z) /\
  quarter_from_month (CNum (of_Z m)) = Ok (Some ((m - 1) / 3 + 1)%Z) /\
  (forall x q, quarter_from_month x = Ok (Some q) -> (1 <= q <= 4)%Z).
Proof.
  intros H. split; [|split; [|split; [|split]]].
  - each_month m H; destruct loc; vm_compute; reflexivity.
  - intros d Hd. unfold mese_of. rewrite Hd. clear Hd d.
    each_month m H; destruct loc; vm_compute; reflexivity.
  - each_month m H; vm_compute; reflexivity.
  - each_month m H; vm_compute; reflexivity.
  - intros x q. unfold quarter_from_month.
    destruct (match x with CStr _ => _ | _ => _ end) as [[n|]|e]; cbn [bind];
      [|discriminate|discriminate].
    destruct (between 1 3 n); [intros [= <-]; lia|].
    destruct (between 4 6 n); [intros [= <-]; lia|].
    destruct (between 7 9 n); [intros [= <-]; lia|].
    destruct (between 10 12 n); [intros [= <-]; lia|discriminate].
Qed.

Lemma quarter_from_month_agrees_witness :
  quarter_from_month (CStr (month_name it_IT 8)) = Ok (Some ((8 - 1) / 3 + 1)%Z).
Proof.
  refine (proj1 (quarter_from_month_agrees it_IT 8 _)). lia.
Defined.

Lemma lookup_in {A} (d : list (string * A)) k v :
  lookup d k = Some v -> In v (map snd d).
Proof.
  induction d as [|[k' v'] t IH]; [discriminate|]. cbn [lookup map snd].
  destruct (k' =? k)%string; [intros [= <-]; now left|]. intros H. right. auto.
Qed.

(** X16. [months_it_to_num] gives the month column of [process_logbook],
    under either locale, the label [main] joins on; applied to a label
    it has returned it returns the label again; it returns nothing for
    a missing name, and raises [TypeError] for a number other than 0. *)
Theorem months_it_to_num_labels (loc : locale) (d : date) :
  (1 <= month d <= 12)%Z ->
  months_it_to_num (mese_of loc (CDate d)) = Ok (extract_month_from_date (CDate d)) /\
  months_it_to_num (CStr (month_name loc (month d))) =
    Ok (extract_month_from_date (CDate d)) /\
  (forall x y, months_it_to_num x = Ok (CStr y) ->
               months_it_to_num (CStr y) = Ok (CStr y)) /\
  months_it_to_num CNull = Ok CNull /\
  months_it_to_num (CStr "") = Ok CNull /\
  (forall n, truthy (CNum n) = true ->
             months_it_to_num (CNum n) = Raise (TypeError "object is not subscriptable")).
Proof.
  intros H. split; [|split; [|split; [|split; [|split]]]].
  - unfold mese_of, extract_month_from_date. destruct d as [y m dd]. cbn [month] in *.
    each_month m H; destruct loc; vm_compute; reflexivity.
  - unfold extract_month_from_date. destruct d as [y m dd]. cbn [month] in *.
    each_month m H; destruct loc; vm_compute; reflexivity.
  - intros x y. unfold months_it_to_num at 1.
    match goal with
    | |- context [lookup ?t ?k] => destruct (lookup t k) as [v|] eqn:E1
    end.
    1:{ intros [= <-]. apply lookup_in in E1. cbn [map snd] in E1.
      repeat (destruct E1 as [E|E1]; [subst v; vm_compute; reflexivity|]).
      destruct E1. }
    match goal with
    | |- context [lookup ?t ?k] => destruct (lookup t k) as [v|] eqn:E2
    end.
    1:{ intros [= <-]. apply lookup_in in E2. cbn [map snd] in E2.
      repeat (destruct E2 as [E|E2]; [subst v; vm_compute; reflexivity|]).
      destruct E2. }
    destruct (truthy x) eqn:Ht; [|discriminate].
    destruct x as [|s|n|dt]; try discriminate.
    destruct s as [|c rest]; [discriminate|].
    destruct (is_ascii (String c rest)) eqn:Ha; [|discriminate].
    destruct (isupper (String c "") && islower rest) eqn:Hu; [|discriminate].
    intros [= <-]. unfold months_it_to_num. rewrite E1, E2, Ht, Ha, Hu. reflexivity.
  - reflexivity.
  - reflexivity.
  - intros n Hn. unfold months_it_to_num. cbn [lookup String.eqb]. now rewrite Hn.
Qed.

Lemma months_it_to_num_labels_witness :
  months_it_to_num (mese_of C_locale (CDate (mkDate 2024 3 5))) =
  Ok (extract_month_from_date (CDate (mkDate 2024 3 5))).
Proof.
  refine (proj1 (months_it_to_num_labels C_locale (mkDate 2024 3 5) _)).
  cbn [month]. lia.
Defined.

(* ----------------------------------------------------------------- *)
(** ** Calendar helpers *)

Lemma yoe_recovered (yoe doy : Z) :
  (0 <= yoe < 400)%Z ->
  (0 <= doy < 365 + (if ((yoe + 1) mod 4 =? 0) && (negb ((yoe + 1) mod 100 =? 0) || ((yoe + 1) mod 400 =? 0)) then 1 else 0))%Z ->
  let doe := (yoe * 365 + yoe / 4 - yoe / 100 + doy)%Z in
  ((doe - doe / 1460 + doe / 36524 - doe / 146096) / 365 = yoe)%Z.
Proof.
  intros Hy Hd doe. unfold doe.
  destruct (_ && _) eqn:E.
  - Z.div_mod_to_equations; lia.
  - Z.div_mod_to_equations; lia.
Qed.

Lemma valid_date_spec d :
  valid_date d = true <->
  (1 <= year d /\ 1 <= month d <= 12 /\ 1 <= day d <= days_in_month (year d) (month d))%Z.
Proof.
  unfold valid_date. rewrite !andb_true_iff, !Z.leb_le. tauto.
Qed.

Lemma is_leap_spec y :
  is_leap y = ((y mod 4 =? 0) && (negb (y mod 100 =? 0) || (y mod 400 =? 0)))%Z.
Proof.
  unfold is_leap.
  destruct (y mod 4 =? 0)%Z eqn:E4, (y mod 100 =? 0)%Z eqn:E100,
    (y mod 400 =? 0)%Z eqn:E400; try reflexivity.
  all: rewrite ?Z.eqb_eq, ?Z.eqb_neq in *; exfalso; Z.div_mod_to_equations; lia.
Qed.

(** The day of the year starting in March, and back. *)
Lemma day_of_year_recovered (m d : Z) :
  (1 <= m <= 12)%Z -> (1 <= d)%Z ->
  (d <= match m with 4 | 6 | 9 | 11 => 30 | 2 => 29 | _ => 31 end)%Z ->
  let mp := ((m + 9) mod 12)%Z in
  let doy := ((153 * mp + 2) / 5 + d - 1)%Z in
  ((5 * doy + 2) / 153 = mp /\ 0 <= doy <= 365 /\ (m <> 2 \/ d <= 28 -> doy <= 364) /\
   0 <= mp <= 11 /\ (if mp <? 10 then mp + 3 else mp - 9) = m /\
   (m <=? 2) = (10 <=? mp))%Z.
Proof.
  intros Hm Hd Hmax mp doy. unfold doy, mp.
  each_month m Hm; cbv beta iota in Hmax;
    (split; [|split; [|split; [|split; [|split]]]]);
    try reflexivity; intros; Z.div_mod_to_equations; lia.
Qed.

Lemma days_in_month_le y m :
  (days_in_month y m <= match m with 4 | 6 | 9 | 11 => 30 | 2 => 29 | _ => 31 end)%Z.
Proof.
  unfold days_in_month.
  destruct m as [|p|p]; try lia.
  do 4 (try destruct p as [p|p|]); try lia; destruct (is_leap y); lia.
Qed.

Lemma fromordinal_parts (era yoe doy mp dd : Z) :
  (0 <= yoe < 400)%Z ->
  (0 <= doy < 365 + (if ((yoe + 1) mod 4 =? 0) &&
                        (negb ((yoe + 1) mod 100 =? 0) || ((yoe + 1) mod 400 =? 0))
                     then 1 else 0))%Z ->
  ((5 * doy + 2) / 153 = mp)%Z ->
  (doy = (153 * mp + 2) / 5 + dd - 1)%Z ->
  fromordinal (era * 146097 + (yoe * 365 + yoe / 4 - yoe / 100 + doy) - 719468 + 719163) =
  (let m := if mp <? 10 then mp + 3 else mp - 9 in
   mkDate (if m <=? 2 then yoe + era * 400 + 1 else yoe + era * 400) m dd)%Z.
Proof.
  intros Hy Hd Hmp Hdd.
  pose proof (yoe_recovered yoe doy Hy Hd) as Hrec. cbv zeta in Hrec.
  set (doe := (yoe * 365 + yoe / 4 - yoe / 100 + doy)%Z) in *.
  assert (Hdoe : (0 <= doe < 146097)%Z).
  { unfold doe. destruct (_ && _); Z.div_mod_to_equations; lia. }
  unfold fromordinal.
  replace (era * 146097 + doe - 719468 + 719163 - 719163 + 719468)%Z
    with (doe + era * 146097)%Z by lia.
  cbv zeta.
  assert (He : ((doe + era * 146097) / 146097 = era)%Z).
  { rewrite Z.div_add by lia. rewrite Z.div_small by lia. lia. }
  rewrite He.
  replace (doe + era * 146097 - era * 146097)%Z with doe by lia.
  rewrite Hrec.
  replace (doe - (365 * yoe + yoe / 4 - yoe / 100))%Z with doy by (unfold doe; lia).
  rewrite Hmp.
  f_equal. lia.
Qed.

Lemma toordinal_parts (y m dd : Z) :
  toordinal (mkDate y m dd) =
  (let y' := if m <=? 2 then y - 1 else y in
   let era := y' / 400 in
   let yoe := y' - era * 400 in
   let mp := (m + 9) mod 12 in
   let doy := (153 * mp + 2) / 5 + dd - 1 in
   era * 146097 + (yoe * 365 + yoe / 4 - yoe / 100 + doy) - 719468 + 719163)%Z.
Proof. unfold toordinal, days_from_civil. cbn [year month day]. cbv zeta. lia. Qed.

(** A day of the calendar is the day of its ordinal. *)
Lemma fromordinal_toordinal d : valid_date d = true -> fromordinal (toordinal d) = d.
Proof.
  destruct d as [y m dd]. rewrite valid_date_spec. cbn [year month day].
  intros [Hy [Hm Hd]].
  pose proof (days_in_month_le y m) as Hle.
  destruct (day_of_year_recovered m dd Hm (proj1 Hd) ltac:(lia))
    as [Hmp [Hdoy [H364 [Hmpr [Hmm Hm2]]]]].
  rewrite toordinal_parts. cbv zeta.
  set (y' := (if (m <=? 2)%Z then (y - 1)%Z else y)) in *.
  set (era := (y' / 400)%Z). set (yoe := (y' - era * 400)%Z).
  set (mp := ((m + 9) mod 12)%Z) in *.
  set (doy := ((153 * mp + 2) / 5 + dd - 1)%Z) in *.
  assert (Hyoe : (0 <= yoe < 400)%Z).
  { unfold yoe, era. Z.div_mod_to_equations; lia. }
  rewrite (fromordinal_parts era yoe doy mp dd Hyoe); [| |exact Hmp|reflexivity].
  - cbv zeta. rewrite Hmm. f_equal.
    unfold yoe, y'. destruct (m <=? 2)%Z; lia.
  - split; [lia|].
    destruct (Z.eq_dec m 2) as [->|Hne].
    + destruct (Z_le_gt_dec dd 28) as [H28|H28].
      * specialize (H364 (or_intror H28)). destruct (_ && _); lia.
      * assert (Hl : is_leap y = true).
        { unfold days_in_month in Hd. destruct (is_leap y); [reflexivity|lia]. }
        rewrite is_leap_spec in Hl.
        assert (Hy1 : (yoe + 1 = y - era * 400)%Z).
        { unfold yoe, y'. change (2 <=? 2)%Z with true. cbv iota. lia. }
        assert (H4 : ((yoe + 1) mod 4 = y mod 4)%Z)
          by (rewrite Hy1; Z.div_mod_to_equations; lia).
        assert (H100 : ((yoe + 1) mod 100 = y mod 100)%Z)
          by (rewrite Hy1; Z.div_mod_to_equations; lia).
        assert (H400 : ((yoe + 1) mod 400 = y mod 400)%Z)
          by (rewrite Hy1; Z.div_mod_to_equations; lia).
        rewrite H4, H100, H400, Hl. lia.
    + specialize (H364 (or_introl Hne)). destruct (_ && _); lia.
Qed.
Lemma days_in_month_ge y m : (1 <= m <= 12)%Z -> (28 <= days_in_month y m)%Z.
Proof.
  intros H. each_month m H; unfold days_in_month; try lia; destruct (is_leap y); lia.
Qed.

Lemma next_day_valid d : valid_date d = true -> valid_date (next_day d) = true.
Proof.
  destruct d as [y m dd]. rewrite !valid_date_spec. unfold next_day.
  cbn [year month day]. intros [Hy [Hm Hd]].
  destruct (dd <? days_in_month y m)%Z eqn:E1; cbn [year month day].
  - apply Z.ltb_lt in E1. lia.
  - destruct (m <? 12)%Z eqn:E2; cbn [year month day].
    + apply Z.ltb_lt in E2.
      pose proof (days_in_month_ge y (m + 1) ltac:(lia)). lia.
    + change (days_in_month (y + 1) 1) with 31%Z. lia.
Qed.

(** The ordinal of the day after. *)
Lemma toordinal_next_day d :
  valid_date d = true -> toordinal (next_day d) = (toordinal d + 1)%Z.
Proof.
  destruct d as [y m dd]. rewrite valid_date_spec. unfold next_day.
  cbn [year month day]. intros [Hy [Hm Hd]].
  destruct (dd <? days_in_month y m)%Z eqn:E1.
  - rewrite !toordinal_parts. cbv zeta. lia.
  - apply Z.ltb_ge in E1. assert (Hdd : dd = days_in_month y m) by lia.
    clear E1 Hd. subst dd.
    unfold days_in_month. rewrite is_leap_spec.
    each_month m Hm; cbv beta iota;
      match goal with
      | |- context [if (?a <? 12)%Z then _ else _] =>
          let b := eval vm_compute in (a <? 12)%Z in
          change (a <? 12)%Z with b; cbv beta iota
      end;
      rewrite !toordinal_parts; cbv zeta;
      repeat match goal with
      | |- context [(?a <=? 2)%Z] =>
          let b := eval vm_compute in (a <=? 2)%Z in
          change (a <=? 2)%Z with b; cbv beta iota
      end;
      try match goal with
          | |- context [(y mod 4 =? 0)%Z] =>
              destruct (y mod 4 =? 0)%Z eqn:E4, (y mod 100 =? 0)%Z eqn:E100,
                (y mod 400 =? 0)%Z eqn:E400; cbv beta iota delta [andb orb negb];
              rewrite ?Z.eqb_eq, ?Z.eqb_neq in *
          end;
      Z.div_mod_to_equations; lia.
Qed.

Lemma toordinal_bounds d :
  valid_date d = true -> (year d <= 9999)%Z -> (1 <= toordinal d <= 3652059)%Z.
Proof.
  destruct d as [y m dd]. rewrite valid_date_spec. cbn [year month day].
  intros [Hy [Hm Hd]] Hmax.
  pose proof (days_in_month_le y m) as Hle.
  rewrite toordinal_parts. cbv zeta.
  each_month m Hm; cbv beta iota in Hle;
    repeat match goal with
    | |- context [(?a <=? 2)%Z] =>
        let b := eval vm_compute in (a <=? 2)%Z in
        change (a <=? 2)%Z with b; cbv beta iota
    end;
    Z.div_mod_to_equations; lia.
Qed.

Lemma add_days_next d :
  valid_date d = true -> (toordinal d < 3652059)%Z -> (year d <= 9999)%Z ->
  add_days d 1 = Returns (next_day d).
Proof.
  intros Hv Hlt Hy. unfold add_days.
  pose proof (toordinal_bounds d Hv Hy) as Hb.
  replace ((1 <=? toordinal d + 1) && (toordinal d + 1 <=? 3652059))%Z with true
    by (symmetry; apply andb_true_iff; split; apply Z.leb_le; lia).
  rewrite <- toordinal_next_day by assumption.
  now rewrite fromordinal_toordinal by now apply next_day_valid.
Qed.

Lemma add_days_previous d :
  valid_date d = true -> (year d <= 9999)%Z ->
  add_days (next_day d) (-1) = Returns d.
Proof.
  intros Hv Hy. unfold add_days.
  pose proof (toordinal_bounds d Hv Hy) as Hb.
  rewrite toordinal_next_day by assumption.
  replace (toordinal d + 1 + -1)%Z with (toordinal d) by lia.
  replace ((1 <=? toordinal d) && (toordinal d <=? 3652059))%Z with true
    by (symmetry; apply andb_true_iff; split; apply Z.leb_le; lia).
  now rewrite fromordinal_toordinal.
Qed.
Lemma datetime_valid y m d :
  (1 <= y <= 9999)%Z -> valid_date (mkDate y m d) = true ->
  datetime y m d = Returns (mkDate y m d).
Proof.
  intros Hy Hv. apply valid_date_spec in Hv. cbn [year month day] in Hv.
  unfold datetime.
  replace ((1 <=? y) && (y <=? 9999))%Z with true
    by (symmetry; apply andb_true_iff; split; apply Z.leb_le; lia).
  replace ((1 <=? m) && (m <=? 12))%Z with true
    by (symmetry; apply andb_true_iff; split; apply Z.leb_le; lia).
  replace ((1 <=? d) && (d <=? days_in_month y m))%Z with true
    by (symmetry; apply andb_true_iff; split; apply Z.leb_le; lia).
  reflexivity.
Qed.

Lemma last_day_valid y m :
  (1 <= y)%Z -> (1 <= m <= 12)%Z -> valid_date (mkDate y m (days_in_month y m)) = true.
Proof.
  intros Hy Hm. apply valid_date_spec. cbn [year month day].
  pose proof (days_in_month_ge y m Hm). lia.
Qed.

Lemma next_day_last y m :
  next_day (mkDate y m (days_in_month y m)) =
  if (m <? 12)%Z then mkDate y (m + 1) 1 else mkDate (y + 1) 1 1.
Proof. unfold next_day. cbn [year month day]. now rewrite Z.ltb_irrefl. Qed.

(** The range of a month, and the day after its last day. *)
Lemma month_range_of_a_month (y m : Z) :
  (1 <= y <= 9999)%Z -> (1 <= m <= 12)%Z -> (y < 9999 \/ m < 12)%Z ->
  get_month_range y m = Returns (mkDate y m 1, mkDate y m (days_in_month y m)) /\
  add_days (mkDate y m (days_in_month y m)) 1 =
    Returns (if (m <? 12)%Z then mkDate y (m + 1) 1 else mkDate (y + 1) 1 1).
Proof.
  intros Hy Hm Hnot.
  pose proof (last_day_valid y m ltac:(lia) Hm) as Hlast.
  split.
  - unfold get_month_range.
    rewrite datetime_valid; [|assumption|].
    2:{ apply valid_date_spec. cbn [year month day].
        pose proof (days_in_month_ge y m Hm). lia. }
    cbn [and_then].
    destruct (m =? 12)%Z eqn:E.
    + apply Z.eqb_eq in E. subst m.
      rewrite datetime_valid; [|lia|].
      2:{ apply valid_date_spec. cbn [year month day].
          change (days_in_month (y + 1) 1) with 31%Z. lia. }
      cbn [and_then].
      change (mkDate (y + 1) 1 1) with
        (if (12 <? 12)%Z then mkDate y (12 + 1) 1 else mkDate (y + 1) 1 1).
      rewrite <- next_day_last.
      rewrite add_days_previous by (try assumption; cbn [year]; lia).
      reflexivity.
    + apply Z.eqb_neq in E.
      rewrite datetime_valid; [|assumption|].
      2:{ apply valid_date_spec. cbn [year month day].
          pose proof (days_in_month_ge y (m + 1) ltac:(lia)). lia. }
      cbn [and_then].
      replace (mkDate y (m + 1) 1) with (next_day (mkDate y m (days_in_month y m))).
      2:{ rewrite next_day_last.
          replace (m <? 12)%Z with true by (symmetry; apply Z.ltb_lt; lia).
          reflexivity. }
      rewrite add_days_previous by (try assumption; cbn [year]; lia).
      reflexivity.
  - rewrite <- next_day_last. apply add_days_next; [assumption| |cbn [year]; lia].
    pose proof (next_day_valid _ Hlast) as Hnv.
    pose proof (toordinal_next_day _ Hlast) as Hn.
    assert (Hny : (year (next_day (mkDate y m (days_in_month y m))) <= 9999)%Z).
    { rewrite next_day_last. destruct (m <? 12)%Z eqn:E; cbn [year]; [lia|].
      apply Z.ltb_ge in E. lia. }
    pose proof (toordinal_bounds _ Hnv Hny). lia.
Qed.

(** X17. For a month of the years 1 to 9999, December 9999 apart,
    [get_month_range] returns the first day of the month and its last
    day, whose number is the number of days [get_days_in_month] gives,
    and the day after it is the first of the next month.  For December
    9999 it raises [ValueError], and so it does for a month or a year
    out of range, where [get_days_in_month] takes any year. *)
Theorem get_month_range_spans_the_month (y m : Z) :
  (1 <= y <= 9999)%Z -> (1 <= m <= 12)%Z ->
  (y < 9999 \/ m < 12 ->
   get_month_range y m = Returns (mkDate y m 1, mkDate y m (days_in_month y m)) /\
   get_days_in_month y m = Returns (days_in_month y m) /\
   add_days (mkDate y m (days_in_month y m)) 1 =
     Returns (if m <? 12 then mkDate y (m + 1) 1 else mkDate (y + 1) 1 1))%Z /\
  get_month_range 9999 12 = ValueError "year is out of range" /\
  get_days_in_month 9999 12 = Returns 31%Z /\
  (forall y', (y' < 1 \/ 9999 < y')%Z ->
     get_month_range y' m = ValueError "year is out of range" /\
     get_days_in_month y' m = Returns (days_in_month y' m)) /\
  (forall m', (m' < 1 \/ 12 < m')%Z ->
     get_month_range y m' = ValueError "month must be in 1..12" /\
     get_days_in_month y m' = ValueError "bad month number").
Proof.
  intros Hy Hm.
  assert (Hdm : get_days_in_month y m = Returns (days_in_month y m)).
  { unfold get_days_in_month.
    replace ((1 <=? m) && (m <=? 12))%Z with true
      by (symmetry; apply andb_true_iff; split; apply Z.leb_le; lia).
    reflexivity. }
  split; [|split; [reflexivity|split; [reflexivity|split]]].
  - intros Hnot.
    destruct (month_range_of_a_month y m Hy Hm Hnot) as [H1 H2].
    split; [exact H1|split; [exact Hdm|exact H2]].
  - intros y' Hy'. split.
    + unfold get_month_range, datetime.
      replace ((1 <=? y') && (y' <=? 9999))%Z with false; [reflexivity|].
      symmetry. apply andb_false_iff.
      destruct Hy'; [left; apply Z.leb_gt; lia|right; apply Z.leb_gt; lia].
    + unfold get_days_in_month.
      replace ((1 <=? m) && (m <=? 12))%Z with true
        by (symmetry; apply andb_true_iff; split; apply Z.leb_le; lia).
      reflexivity.
  - intros m' Hm'.
    assert (Hf : ((1 <=? m') && (m' <=? 12))%Z = false).
    { apply andb_false_iff.
      destruct Hm'; [left; apply Z.leb_gt; lia|right; apply Z.leb_gt; lia]. }
    split.
    + unfold get_month_range, datetime.
      replace ((1 <=? y) && (y <=? 9999))%Z with true
        by (symmetry; apply andb_true_iff; split; apply Z.leb_le; lia).
      now rewrite Hf.
    + unfold get_days_in_month. now rewrite Hf.
Qed.

Lemma get_month_range_spans_the_month_witness :
  get_month_range 2024 2 = Returns (mkDate 2024 2 1, mkDate 2024 2 (days_in_month 2024 2)).
Proof.
  refine (proj1 (proj1 (get_month_range_spans_the_month 2024 2 _ _) _)); lia.
Defined.
Lemma weekday_range d : (0 <= weekday d < 7)%Z.
Proof. unfold weekday. apply Z.mod_pos_bound. lia. Qed.

Lemma weekday_next y m k :
  weekday (mkDate y m (k + 1)) = ((weekday (mkDate y m k) + 1) mod 7)%Z.
Proof.
  unfold weekday, days_from_civil. cbn [year month day]. cbv zeta.
  rewrite Zplus_mod_idemp_l. f_equal. lia.
Qed.

Lemma working_days_from_S w n :
  working_days_from w (S n) =
  ((if (w mod 7 <? 5)%Z then 1 else 0) + working_days_from (w + 1) n)%Z.
Proof. reflexivity. Qed.

Lemma working_days_from_mod w n :
  working_days_from (w mod 7) n = working_days_from w n.
Proof.
  revert w. induction n as [|n IH]; intros w; [reflexivity|].
  cbn [working_days_from]. rewrite Z.mod_mod by lia. f_equal.
  rewrite <- (IH (w mod 7 + 1)%Z), <- (IH (w + 1)%Z).
  f_equal. now rewrite Zplus_mod_idemp_l.
Qed.

Lemma working_days_from_bounds w n :
  (28 <= n <= 31)%nat -> (20 <= working_days_from w n <= 23)%Z.
Proof.
  intros Hn. rewrite <- working_days_from_mod.
  pose proof (Z.mod_pos_bound w 7 ltac:(lia)) as Hw.
  assert (Hc : (w mod 7 = 0 \/ w mod 7 = 1 \/ w mod 7 = 2 \/ w mod 7 = 3 \/
                w mod 7 = 4 \/ w mod 7 = 5 \/ w mod 7 = 6)%Z) by lia.
  assert (Hd : (n = 28 \/ n = 29 \/ n = 30 \/ n = 31)%nat) by lia.
  destruct Hd as [->|[->|[->| ->]]];
    repeat (destruct Hc as [Hc|Hc]; [rewrite Hc; vm_compute; split; discriminate|]);
    rewrite Hc; vm_compute; split; discriminate.
Qed.

(** The working days counted day by day are those of the list of the
    days. *)
Lemma working_days_from_days y m k n :
  working_days_from (weekday (mkDate y m (Z.of_nat k))) n =
  Z.of_nat (List.length
    (filter is_working_day (map (fun j => mkDate y m (Z.of_nat j)) (seq k n)))).
Proof.
  revert k. induction n as [|n IH]; intros k; [reflexivity|].
  cbn [working_days_from seq map filter].
  rewrite <- working_days_from_mod, <- weekday_next.
  replace (Z.of_nat k + 1)%Z with (Z.of_nat (S k)) by lia.
  rewrite IH. unfold is_working_day at 2.
  pose proof (weekday_range (mkDate y m (Z.of_nat k))) as Hr.
  rewrite Z.mod_small by lia.
  destruct (weekday (mkDate y m (Z.of_nat k)) <? 5)%Z; cbn [List.length]; lia.
Qed.

Lemma date_leb_same_month y m a b :
  date_leb (mkDate y m a) (mkDate y m b) = (a <=? b)%Z.
Proof.
  unfold date_leb. cbn [year month day].
  now rewrite !Z.ltb_irrefl, !Z.eqb_refl.
Qed.

Lemma date_leb_next_month y m b :
  date_leb (if (m <? 12)%Z then mkDate y (m + 1) 1 else mkDate (y + 1) 1 1)
           (mkDate y m b) = false.
Proof.
  unfold date_leb. destruct (m <? 12)%Z; cbn [year month day].
  - rewrite Z.ltb_irrefl, Z.eqb_refl. cbn [orb andb].
    replace (m + 1 <? m)%Z with false by (symmetry; apply Z.ltb_ge; lia).
    replace (m + 1 =? m)%Z with false by (symmetry; apply Z.eqb_neq; lia).
    reflexivity.
  - replace (y + 1 <? y)%Z with false by (symmetry; apply Z.ltb_ge; lia).
    replace (y + 1 =? y)%Z with false by (symmetry; apply Z.eqb_neq; lia).
    reflexivity.
Qed.

(** The loop, from the day [dim - j] of the month. *)
Lemma count_working_days_loop y m :
  (1 <= y <= 9999)%Z -> (1 <= m <= 12)%Z -> (y < 9999 \/ m < 12)%Z ->
  forall (j : nat) (fuel : nat) (acc : Z),
    (Z.of_nat j < days_in_month y m)%Z -> (j + 2 <= fuel)%nat ->
    count_working_days fuel (mkDate y m (days_in_month y m - Z.of_nat j))
                       (mkDate y m (days_in_month y m)) acc =
    Some (Returns (acc + working_days_from
                           (weekday (mkDate y m (days_in_month y m - Z.of_nat j)))
                           (S j)))%Z.
Proof.
  intros Hy Hm Hnot.
  destruct (month_range_of_a_month y m Hy Hm Hnot) as [_ Hlast].
  induction j as [|j IH]; intros fuel acc Hj Hf.
  - replace (days_in_month y m - Z.of_nat 0)%Z with (days_in_month y m) by lia.
    destruct fuel as [|[|fuel]]; try lia.
    cbn [count_working_days].
    rewrite date_leb_same_month, Z.leb_refl, Hlast, date_leb_next_month.
    cbn [working_days_from].
    pose proof (weekday_range (mkDate y m (days_in_month y m))) as Hr.
    rewrite Z.mod_small by lia.
    destruct (weekday _ <? 5)%Z; do 2 f_equal; lia.
  - destruct fuel as [|fuel]; [lia|].
    cbn [count_working_days].
    set (k := (days_in_month y m - Z.of_nat (S j))%Z).
    assert (Hk : (1 <= k < days_in_month y m)%Z) by (unfold k; lia).
    rewrite date_leb_same_month.
    replace (k <=? days_in_month y m)%Z with true by (symmetry; apply Z.leb_le; lia).
    assert (Hv : valid_date (mkDate y m k) = true).
    { apply valid_date_spec. cbn [year month day]. lia. }
    assert (Hn : next_day (mkDate y m k) = mkDate y m (k + 1)).
    { unfold next_day. cbn [year month day].
      now replace (k <? days_in_month y m)%Z with true by (symmetry; apply Z.ltb_lt; lia). }
    rewrite add_days_next; [|assumption| |cbn [year]; lia].
    2:{ pose proof (toordinal_next_day _ Hv) as Ht.
        pose proof (next_day_valid _ Hv) as Hnv.
        rewrite Hn in *.
        pose proof (toordinal_bounds _ Hnv ltac:(cbn [year]; lia)). lia. }
    rewrite Hn.
    replace (k + 1)%Z with (days_in_month y m - Z.of_nat j)%Z by (unfold k; lia).
    rewrite IH by lia.
    do 2 f_equal.
    replace (days_in_month y m - Z.of_nat j)%Z with (k + 1)%Z by (unfold k; lia).
    rewrite (working_days_from_S (weekday (mkDate y m k)) (S j)).
    rewrite weekday_next, working_days_from_mod.
    pose proof (weekday_range (mkDate y m k)) as Hr.
    rewrite (Z.mod_small (weekday (mkDate y m k))) by lia.
    destruct (weekday (mkDate y m k) <? 5)%Z; lia.
Qed.

(** X18. For a month of the years 1 to 9999, December 9999 apart,
    [get_working_days_in_month] ends (32 turns of its loop are enough)
    and returns the number of days of the month that fall from Monday to
    Friday, a number between 20 and 23.  For December 9999 it raises
    [ValueError]. *)
Theorem working_days_of_a_month (fuel : nat) (y m : Z) :
  (32 <= fuel)%nat ->
  (1 <= y <= 9999)%Z -> (1 <= m <= 12)%Z -> (y < 9999 \/ m < 12)%Z ->
  exists n,
    get_working_days_in_month fuel y m = Some (Returns n) /\
    n = Z.of_nat (List.length (filter is_working_day (month_days y m))) /\
    (20 <= n <= 23)%Z.
Proof.
  intros Hf Hy Hm Hnot.
  destruct (month_range_of_a_month y m Hy Hm Hnot) as [Hrange _].
  pose proof (days_in_month_ge y m Hm) as Hge.
  pose proof (days_in_month_le y m) as Hle.
  assert (Hle31 : (days_in_month y m <= 31)%Z).
  { revert Hle. each_month m Hm; cbv beta iota; lia. }
  set (dim := days_in_month y m) in *.
  pose proof (count_working_days_loop y m Hy Hm Hnot (Z.to_nat (dim - 1)) fuel 0%Z) as Hloop.
  fold dim in Hloop.
  replace (dim - Z.of_nat (Z.to_nat (dim - 1)))%Z with 1%Z in Hloop by lia.
  replace (S (Z.to_nat (dim - 1))) with (Z.to_nat dim) in Hloop by lia.
  eexists. split; [|split].
  - unfold get_working_days_in_month. rewrite Hrange. fold dim.
    rewrite Hloop by lia. reflexivity.
  - cbn [Z.add]. unfold month_days. fold dim.
    apply (working_days_from_days y m 1 (Z.to_nat dim)).
  - cbn [Z.add]. apply working_days_from_bounds. lia.
Qed.

Lemma working_days_of_a_month_witness :
  exists n,
    get_working_days_in_month 32 2024 2 = Some (Returns n) /\
    n = Z.of_nat (List.length (filter is_working_day (month_days 2024 2))) /\
    (20 <= n <= 23)%Z.
Proof.
  apply (working_days_of_a_month 32 2024 2); lia.
Defined.

(* ----------------------------------------------------------------- *)
(** ** Amounts rounded to the cent *)

Lemma round_half_even_near x :
  Qabs (x - inject_Z (round_half_even x)) <= 1 # 2.
Proof.
  unfold round_half_even.
  pose proof (Qfloor_le x) as H1. pose proof (Qlt_floor x) as H2.
  rewrite inject_Z_plus in H2. change (inject_Z 1) with 1 in H2.
  destruct (Qcompare (x - inject_Z (Qfloor x)) (1 # 2)) eqn:E.
  - apply Qeq_alt in E.
    destruct (Z.even (Qfloor x));
      [|rewrite inject_Z_plus; change (inject_Z 1) with 1];
      apply Qabs_Qle_condition; split; lra.
  - apply Qlt_alt in E. apply Qabs_Qle_condition; split; lra.
  - apply Qgt_alt in E. rewrite inject_Z_plus. change (inject_Z 1) with 1.
    apply Qabs_Qle_condition; split; lra.
Qed.

Lemma round_half_even_nonneg x : 0 <= x -> (0 <= round_half_even x)%Z.
Proof.
  intros H. unfold round_half_even.
  assert (Hf : (0 <= Qfloor x)%Z).
  { change 0%Z with (Qfloor 0). now apply Qfloor_resp_le. }
  destruct (Qcompare _ _); [destruct (Z.even _)| |]; lia.
Qed.

(** X19. For every amount that is not negative, the text
    [format_currency] renders is the text of the amount rounded to the
    cent, ties going to the even cent; [convert_eu_to_number] reads that
    rounded amount back from it; and the amount read back is within half
    a cent of the amount rendered. *)
Theorem display_rounds_to_cents (q : Q) :
  0 <= q ->
  let cents := Z.to_N (round_half_even (q * 100)) in
  format_currency (CNum (Fin q)) = format_currency (CNum (Fin (Z.of_N cents # 100))) /\
  num_eq (convert_eu_to_number (CStr (format_currency (CNum (Fin q)))))
         (Fin (Z.of_N cents # 100)) /\
  Qabs (q - (Z.of_N cents # 100)) <= 1 # 200.
Proof.
  intros Hq cents.
  assert (Hfmt : format_grouped_2f q = format_grouped_2f (Z.of_N cents # 100)).
  { unfold format_grouped_2f. rewrite (round_cents cents), N2Z.id.
    rewrite (Qabs_nonneg_eq q Hq). fold cents.
    destruct (Qlt_le_dec q 0) as [Hn|_]; [lra|].
    destruct (Qlt_le_dec (Z.of_N cents # 100) 0) as [Hn|_]; [|reflexivity].
    exfalso. unfold Qlt in Hn; cbn [Qnum Qden] in Hn. lia. }
  assert (Hsame : format_currency (CNum (Fin q)) =
                  format_currency (CNum (Fin (Z.of_N cents # 100)))).
  { unfold format_currency, format_2f. now rewrite Hfmt. }
  split; [exact Hsame|]. split.
  - rewrite Hsame, convert_format_cents. apply cents_value.
  - assert (Hx : 0 <= q * 100) by lra.
    pose proof (round_half_even_nonneg _ Hx) as Hr.
    pose proof (round_half_even_near (q * 100)) as Hnear.
    unfold cents. rewrite Z2N.id by assumption.
    set (c := round_half_even (q * 100)) in *.
    assert (Hc : (c # 100) * 100 == inject_Z c).
    { unfold Qeq, Qmult, inject_Z; cbn [Qnum Qden]. lia. }
    set (t := c # 100) in *.
    apply Qabs_Qle_condition in Hnear. destruct Hnear as [Hl Hu].
    apply Qabs_Qle_condition. split; lra.
Qed.

Lemma display_rounds_to_cents_witness :
  format_currency (CNum (Fin (1234567 # 1000))) =
  format_currency
    (CNum (Fin (Z.of_N (Z.to_N (round_half_even ((1234567 # 1000) * 100))) # 100))).
Proof.
  refine (proj1 (display_rounds_to_cents (1234567 # 1000) _)).
  unfold Qle. simpl. lia.
Defined.

(* ----------------------------------------------------------------- *)
(** ** Months touched and the cost of the hours *)

Lemma filter_data_columns df s e co de ma mi cl :
  columns (filter_data (Some df) (Some s) (Some e) co de ma mi cl) =
  if is_empty df then [] else columns df.
Proof.
  destruct (is_empty df) eqn:Hemp.
  - unfold filter_data. now rewrite Hemp.
  - now rewrite (filter_data_shape _ _ _ _ _ _ mi _ Hemp).
Qed.

Lemma filter_data_incl df s e co de ma mi cl r :
  In r (rows (filter_data (Some df) (Some s) (Some e) co de ma mi cl)) -> In r (rows df).
Proof.
  destruct (is_empty df) eqn:Hemp.
  - unfold filter_data. rewrite Hemp. intros [].
  - rewrite (filter_data_shape _ _ _ _ _ _ mi _ Hemp). cbn [filter_rows rows].
    rewrite filter_In. tauto.
Qed.

Lemma unique_from_in seen l c : In c (unique_from seen l) -> In c l.
Proof.
  revert seen. induction l as [|a t IH]; intros seen; [intros []|].
  cbn [unique_from]. destruct (isin seen a).
  - intros H. right. eauto.
  - intros [->|H]; [now left|right; eauto].
Qed.

Lemma unique_from_not_seen seen l c :
  In c (unique_from seen l) -> isin seen c = false.
Proof.
  revert seen. induction l as [|a t IH]; intros seen; [intros []|].
  cbn [unique_from]. destruct (isin seen a) eqn:E.
  - apply IH.
  - intros [->|H]; [assumption|].
    apply IH in H. unfold isin in *. cbn [existsb] in H.
    now apply orb_false_iff in H.
Qed.

Lemma unique_from_nodup seen l : NoDup (unique_from seen l).
Proof.
  revert seen. induction l as [|a t IH]; intros seen; [constructor|].
  cbn [unique_from]. destruct (isin seen a); [apply IH|].
  constructor; [|apply IH]. intros H.
  apply unique_from_not_seen in H. unfold isin in H. cbn [existsb] in H.
  apply orb_false_iff in H. destruct H as [H _].
  fold (same_value a a) in H. now rewrite same_value_refl in H.
Qed.

Lemma same_value_str c s : same_value c (CStr s) = true -> c = CStr s.
Proof.
  unfold same_value. destruct c as [|x|n|d]; simpl; try discriminate.
  - rewrite orb_false_r, String.eqb_eq. congruence.
  - destruct n; discriminate.
Qed.

Lemma unique_in_str l s : In (CStr s) l -> In (CStr s) (unique l).
Proof.
  intros H. apply isin_unique in H. apply isin_exists in H.
  destruct H as [v [Hv Hs]]. apply same_value_str in Hs. now subst.
Qed.

Lemma month_map_cases m : month_map m = CNull \/ exists s, month_map m = CStr s.
Proof.
  unfold month_map. destruct m as [|p|p]; try (now left).
  do 4 (try destruct p as [p|p|]); try (now left); right; eexists; reflexivity.
Qed.

(** X20. The months charged to a selection are the calendar months in
    which its entries fall: a label is among the months used for the
    costs and the revenue exactly when an entry kept by the filter has a
    date of that month, and no label is there twice. *)
Theorem selected_months_are_touched_months (loc : locale) (raw : frame)
  (s e : date) (co de ma mi cl : option (list cell)) :
  let logbook_processed := add_mese_formattato (process_logbook loc (Some raw)) in
  let filtered_df :=
    filter_data (Some logbook_processed) (Some s) (Some e) co de ma mi cl in
  NoDup (selected_months filtered_df) /\
  (forall lbl, In lbl (selected_months filtered_df) -> exists name, lbl = CStr name) /\
  forall name,
    In (CStr name) (selected_months filtered_df) <->
    exists r d, In r (rows filtered_df) /\ get r "Data" = CDate d /\
                month_map (month d) = CStr name.
Proof.
  intros lp f.
  assert (Hlp : forall r, In r (rows lp) ->
            exists d, get r "Data" = CDate d /\
                      get r "MeseFormattato" = month_map (month d)).
  { intros r Hin. unfold lp in Hin. rewrite add_mese_formattato_rows in Hin.
    apply in_map_iff in Hin. destruct Hin as [r1 [<- Hin1]].
    destruct (process_logbook_row loc raw r1 Hin1) as [[d Hd] _].
    exists d. rewrite get_row_set_other by discriminate.
    rewrite get_row_set_same. now rewrite Hd. }
  assert (Hf : forall r, In r (rows f) ->
            exists d, get r "Data" = CDate d /\
                      get r "MeseFormattato" = month_map (month d)).
  { intros r Hin. apply Hlp. unfold f in Hin. now apply filter_data_incl in Hin. }
  unfold selected_months.
  destruct (is_empty f) eqn:Hemp; cbn [negb andb].
  { split; [constructor|]. split; [intros ? []|]. intros lbl. split; [intros []|].
    intros [r [d [Hin _]]]. exfalso.
    destruct (is_empty lp) eqn:Hl.
    - unfold f, filter_data in Hin. rewrite Hl in Hin. destruct Hin.
    - assert (Hd : has_col f "Data" = true).
      { unfold has_col, f. rewrite filter_data_columns, Hl.
        apply add_mese_formattato_has_col, process_logbook_has_data. }
      rewrite (is_empty_has_col f "Data" Hemp Hd) in Hin. destruct Hin. }
  assert (Hcol : has_col f "MeseFormattato" = true).
  { unfold has_col, f. rewrite filter_data_columns.
    destruct (is_empty lp) eqn:Hl.
    - unfold f, filter_data in Hemp. rewrite Hl in Hemp. discriminate.
    - fold (has_col lp "MeseFormattato"). unfold lp, add_mese_formattato.
      rewrite process_logbook_has_data, has_col_set_col.
      cbn [String.eqb Ascii.eqb Bool.eqb]. apply orb_true_r. }
  rewrite Hcol. split; [apply unique_from_nodup|]. split.
  - intros c Hc. apply unique_from_in in Hc. apply filter_In in Hc.
    destruct Hc as [Hc Hn]. unfold col in Hc. apply in_map_iff in Hc.
    destruct Hc as [r [<- Hin]]. destruct (Hf r Hin) as [d [_ Hm]].
    rewrite Hm in *. destruct (month_map_cases (month d)) as [H0|H0]; [|exact H0].
    rewrite H0 in Hn. discriminate.
  - intros lbl. split.
    + intros Hc. apply unique_from_in in Hc. apply filter_In in Hc.
      destruct Hc as [Hc _]. unfold col in Hc. apply in_map_iff in Hc.
      destruct Hc as [r [Hg Hin]]. destruct (Hf r Hin) as [d [Hd Hm]].
      exists r, d. repeat split; auto. congruence.
    + intros [r [d [Hin [Hd Hm]]]]. apply unique_in_str. apply filter_In. split.
      * unfold col. apply in_map_iff. exists r. split; [|assumption].
        destruct (Hf r Hin) as [d' [Hd' Hm']]. congruence.
      * reflexivity.
Qed.
(** When nothing but collaborators is selected, the table behind the
    hourly rate is the filtered table. *)
Lemma company_hours_when_unfiltered lp s e sel_co ac :
  let pre := filter_data (Some lp) (Some s) (Some e) None None None None None in
  (if negb (is_empty pre) then options_of pre "Nome" else Ok []) = Ok ac ->
  filter_data (Some lp) (Some s) (Some e)
              (Some (if is_nil sel_co then ac else sel_co)) None None None None =
  filter_data (Some lp) (Some s) (Some e) (or_none sel_co) None None None None.
Proof.
  intros pre Hac. destruct sel_co as [|c0 sel]; [|reflexivity].
  cbn [is_nil or_none]. subst pre.
  destruct (is_empty lp) eqn:Hemp.
  { unfold filter_data. now rewrite Hemp. }
  rewrite !(filter_data_shape _ _ _ _ _ _ None _ Hemp) in *.
  unfold filter_rows. f_equal. apply filter_ext_in. intros r Hin.
  rewrite !passes_only_names.
  destruct (if has_col lp "Data" then in_period s e (get r "Data") else true) eqn:Hd;
    [|reflexivity].
  cbn [andb]. destruct (has_col lp "Nome") eqn:HN; [|reflexivity].
  change (selected None (get r "Nome")) with true.
  apply selected_some.
  set (pre := filter_rows (passes lp s e None None None None) lp) in *.
  destruct (is_empty pre) eqn:Hpe; cbn [negb] in Hac.
  - left. now injection Hac.
  - right. apply (options_of_covers pre "Nome" _ r Hac).
    unfold pre. cbn [filter_rows rows]. apply filter_In. split; [assumption|].
    rewrite passes_only_names, Hd, HN. reflexivity.
Qed.

Lemma run_displayed {A} (m : result A) k out :
  run m k = Displayed out -> exists a, m = Ok a /\ k a = Displayed out.
Proof. destruct m; simpl; [intros H; now eexists|discriminate]. Qed.

(** What a run of the dashboard that shows metrics has computed. *)
Lemma dashboard_displayed lp clienti compensi cm ui out :
  dashboard lp clienti compensi cm ui = Displayed out ->
  exists active_clients active_collaborators,
    (let pre :=
       filter_data (Some lp) (Some (start_date ui)) (Some (end_date ui)) None
                   (or_none (selected_departments ui)) (or_none (selected_macro ui))
                   None (or_none (selected_clients ui)) in
     if negb (is_empty pre) then options_of pre "Nome" else Ok [])
    = Ok active_collaborators /\
    compute_metrics
      (filter_data (Some lp) (Some (start_date ui)) (Some (end_date ui))
                   (or_none (selected_collaborators ui))
                   (or_none (selected_departments ui)) (or_none (selected_macro ui))
                   None (or_none (selected_clients ui)))
      lp compensi clienti cm
      (if is_nil (selected_collaborators ui)
       then active_collaborators else selected_collaborators ui)
      (if is_nil (selected_clients ui) then active_clients else selected_clients ui)
      (start_date ui) (end_date ui) = Ok out.
Proof.
  unfold dashboard. intros H.
  apply run_displayed in H. destruct H as [acl [_ H]].
  apply run_displayed in H. destruct H as [? [_ H]].
  apply run_displayed in H. destruct H as [? [_ H]].
  apply run_displayed in H. destruct H as [? [_ H]].
  apply run_displayed in H. destruct H as [aco [Haco H]].
  apply run_displayed in H. destruct H as [? [_ H]].
  apply run_displayed in H. destruct H as [m [Hm H]].
  injection H as <-. exists acl, aco. split; assumption.
Qed.

(** X21. With no client, department or activity selected, and a
    compensation that is not zero, the hours behind the hourly rate are
    the filtered hours themselves: the company hours are the hours
    shown, so the rate is the compensation of the months touched divided
    by the hours shown (zero when no hours are shown), and the cost of
    the filtered hours is the hours shown times that rate. *)
Theorem cost_of_unfiltered_hours (lp clienti compensi : frame) (cm : dict)
  (s e : date) (sel_co : list cell) (out : metrics) :
  dashboard lp clienti compensi cm (mkSelections s e [] [] [] sel_co) = Displayed out ->
  total_period_cost out <> zero ->
  total_company_hours out = total_hours out /\
  average_hourly_cost out =
    (if gt0 (total_hours out)
     then ndiv (total_period_cost out) (total_hours out) else zero) /\
  filtered_hours_cost out = nmul (total_hours out) (average_hourly_cost out).
Proof.
  intros Hd Hc.
  apply dashboard_displayed in Hd. destruct Hd as [acl [aco [Haco Hm]]].
  cbn [start_date end_date selected_clients selected_departments selected_macro
       selected_collaborators or_none] in *.
  pose proof (company_hours_when_unfiltered lp s e sel_co aco Haco) as Hsame.
  unfold compute_metrics in Hm.
  set (f := filter_data (Some lp) (Some s) (Some e) (or_none sel_co)
                        None None None None) in *.
  destruct (column_sum f "Minuti Impiegati") as [minutes|] eqn:Hmin;
    cbn [bind] in Hm; [|discriminate].
  rewrite Hsame in Hm. fold f in Hm. rewrite Hmin in Hm. cbn [bind] in Hm.
  destruct (negb (is_nil (if is_nil sel_co then aco else sel_co)) &&
            negb (is_nil (selected_months f)) && negb (is_empty compensi)) eqn:Hb;
    cbn [bind] in Hm.
  - match type of Hm with
    | context [revenue_loop ?a ?b ?c ?d] => destruct (revenue_loop a b c d)
    | _ => idtac
    end.
    all: match type of Hm with
         | context [if ?b then _ else Ok zero] => destruct b
         | _ => idtac
         end; cbn [bind] in Hm; try discriminate.
    all: injection Hm as <-; cbn [total_hours total_period_cost filtered_hours_cost
                                  total_company_hours average_hourly_cost] in *.
    all: repeat split; reflexivity.
  - match type of Hm with
    | context [revenue_loop ?a ?b ?c ?d] => destruct (revenue_loop a b c d)
    | _ => idtac
    end.
    all: match type of Hm with
         | context [if ?b then _ else Ok zero] => destruct b
         | _ => idtac
         end; cbn [bind] in Hm; try discriminate.
    all: injection Hm as <-; cbn [total_period_cost] in Hc; now elim Hc.
Qed.

Lemma cost_of_unfiltered_hours_witness :
  total_company_hours scenario_metrics = total_hours scenario_metrics.
Proof.
  refine (proj1 (cost_of_unfiltered_hours (scenario_logbook it_IT)
                   (frame_of (clienti_df (load_sheets_data scenario_sheets)))
                   (frame_of (compensi_df (load_sheets_data scenario_sheets)))
                   (build_client_map (mapping_df (load_sheets_data scenario_sheets)))
                   (mkDate 2024 3 5) (mkDate 2024 3 5) [] scenario_metrics
                   _ _)).
  - exact (scenario_on_the_day it_IT).
  - discriminate.
Defined.

(** X22. The dashboard depends on the period only through the entries
    the period selects: two periods that contain the same entries of the
    table give the same outcome, with the same metrics; a month touched
    by an entry is charged in full however short the period. *)
Theorem metrics_depend_on_selected_entries (lp clienti compensi : frame) (cm : dict)
  (s e s' e' : date) (sel_cl sel_de sel_ma sel_co : list cell) :
  (forall r, In r (rows lp) ->
             in_period s e (get r "Data") = in_period s' e' (get r "Data")) ->
  dashboard lp clienti compensi cm (mkSelections s e sel_cl sel_de sel_ma sel_co) =
  dashboard lp clienti compensi cm (mkSelections s' e' sel_cl sel_de sel_ma sel_co).
Proof. intros H. now apply dashboard_same_period. Qed.

(** The month of March and its fifth day select the same entry of a
    table that has another in April: the metrics are those of the one
    entry, with the compensation and the revenue of March in full. *)
Lemma metrics_depend_on_selected_entries_witness :
  dashboard two_month_logbook
    (frame_of (clienti_df (load_sheets_data two_month_sheets)))
    (frame_of (compensi_df (load_sheets_data two_month_sheets)))
    default_client_map
    (mkSelections (mkDate 2024 3 1) (mkDate 2024 3 31) [] [] [] []) =
  Displayed scenario_metrics.
Proof.
  rewrite (metrics_depend_on_selected_entries two_month_logbook _ _ _
             (mkDate 2024 3 1) (mkDate 2024 3 31) (mkDate 2024 3 5) (mkDate 2024 3 5)).
  - vm_compute. reflexivity.
  - intros r Hr. apply eqb_prop.
    refine (proj1 (forallb_forall
      (fun r => Bool.eqb (in_period (mkDate 2024 3 1) (mkDate 2024 3 31) (get r "Data"))
                         (in_period (mkDate 2024 3 5) (mkDate 2024 3 5) (get r "Data")))
      (rows two_month_logbook)) _ r Hr).
    vm_compute. reflexivity.
Defined.

(* ----------------------------------------------------------------- *)
(** ** Hours by collaborator and by client *)

Lemma sum_cells_finite (l : list row) :
  (forall r, In r l -> exists q, get r "Minuti Impiegati" = CNum (Fin q)) ->
  exists s, sum_cells (map (fun r => get r "Minuti Impiegati") l) = Some (Fin s) /\
            s == qsum (map minutes_q l).
Proof.
  induction l as [|r l IH]; intros H.
  - exists 0. split; reflexivity.
  - destruct IH as [s [Hs Hq]]; [intros x Hx; apply H; now right|].
    destruct (H r (or_introl eq_refl)) as [q Hr].
    cbn [map sum_cells]. rewrite Hs, Hr. cbn [nadd].
    eexists. split; [reflexivity|].
    rewrite Qred_correct. cbn [qsum fold_right]. fold (qsum (map minutes_q l)).
    unfold minutes_q at 1. rewrite Hr, Hq. reflexivity.
Qed.

Lemma qsum_filter_cons (p : row -> bool) r l :
  qsum (map minutes_q (filter p (r :: l))) ==
  (if p r then minutes_q r else 0) + qsum (map minutes_q (filter p l)).
Proof.
  cbn [filter]. destruct (p r); cbn [map qsum fold_right]; [reflexivity|].
  fold (qsum (map minutes_q (filter p l))). ring.
Qed.

(** The sum over the groups of the sums of the groups. *)
Lemma qsum_groups_cons key ks r l :
  qsum (map (fun k => qsum (map minutes_q
                       (filter (fun x => cell_eqb (get x key) k) (r :: l)))) ks) ==
  qsum (map (fun k => if cell_eqb (get r key) k then minutes_q r else 0) ks) +
  qsum (map (fun k => qsum (map minutes_q
                       (filter (fun x => cell_eqb (get x key) k) l))) ks).
Proof.
  induction ks as [|k ks IH]; [reflexivity|].
  cbn [map qsum fold_right].
  fold (qsum (map (fun k => qsum (map minutes_q
               (filter (fun x => cell_eqb (get x key) k) (r :: l)))) ks)).
  fold (qsum (map (fun k => if cell_eqb (get r key) k then minutes_q r else 0) ks)).
  fold (qsum (map (fun k => qsum (map minutes_q
               (filter (fun x => cell_eqb (get x key) k) l))) ks)).
  rewrite IH, qsum_filter_cons. ring.
Qed.

Lemma cell_eqb_text a b :
  is_text b = true -> cell_eqb a b = true -> a = b.
Proof.
  destruct b as [|s|n|d]; try discriminate. intros _ H. now apply cell_eqb_str in H.
Qed.

Lemma cell_eqb_refl_text a : is_text a = true -> cell_eqb a a = true.
Proof. destruct a; try discriminate. intros _. apply String.eqb_refl. Qed.

Lemma qsum_pick (c : cell) (q : Q) ks :
  Forall (fun k => is_text k = true) ks -> NoDup ks ->
  qsum (map (fun k => if cell_eqb c k then q else 0) ks) ==
  if existsb (cell_eqb c) ks then q else 0.
Proof.
  intros Ht Hn. induction ks as [|k ks IH]; [reflexivity|].
  inversion Ht as [|? ? Hk Hks]; subst. inversion Hn as [|? ? Hni Hnd]; subst.
  cbn [map qsum fold_right existsb].
  fold (qsum (map (fun k => if cell_eqb c k then q else 0) ks)).
  rewrite (IH Hks Hnd).
  destruct (cell_eqb c k) eqn:E; cbn [orb]; [|ring].
  apply (cell_eqb_text _ _ Hk) in E. subst c.
  replace (existsb (cell_eqb k) ks) with false; [ring|].
  symmetry. apply existsb_none. intros x Hx.
  destruct (cell_eqb k x) eqn:E; [|reflexivity].
  assert (Hxt : is_text x = true) by (rewrite Forall_forall in Hks; now apply Hks).
  apply (cell_eqb_text _ _ Hxt) in E. subst x. contradiction.
Qed.

Lemma qsum_zeros (ks : list cell) : qsum (map (fun _ => 0) ks) == 0.
Proof.
  induction ks as [|k ks IH]; [reflexivity|].
  cbn [map qsum fold_right]. fold (qsum (map (fun _ : cell => 0) ks)).
  rewrite IH. reflexivity.
Qed.

Lemma qsum_groups key ks l :
  Forall (fun k => is_text k = true) ks -> NoDup ks ->
  (forall r, In r l -> notna (get r key) = true -> In (get r key) ks) ->
  qsum (map (fun k => qsum (map minutes_q
                       (filter (fun x => cell_eqb (get x key) k) l))) ks) ==
  qsum (map minutes_q (filter (fun r => notna (get r key)) l)).
Proof.
  intros Ht Hn. induction l as [|r l IH]; intros Hin.
  - exact (qsum_zeros ks).
  - rewrite qsum_groups_cons, qsum_filter_cons, (qsum_pick _ _ _ Ht Hn).
    rewrite IH by (intros x Hx; apply Hin; now right).
    apply Qplus_inj_r.
    destruct (notna (get r key)) eqn:Hna.
    + replace (existsb (cell_eqb (get r key)) ks) with true; [reflexivity|].
      symmetry. apply existsb_exists. exists (get r key).
      pose proof (Hin r (or_introl eq_refl) Hna) as Hk.
      split; [assumption|]. apply cell_eqb_refl_text.
      rewrite Forall_forall in Ht. now apply Ht.
    + replace (existsb (cell_eqb (get r key)) ks) with false; [reflexivity|].
      symmetry. apply existsb_none. intros k Hk.
      destruct (cell_eqb (get r key) k) eqn:E; [|reflexivity].
      apply cell_eqb_notna in E. unfold notna in Hna. destruct E as [E _].
      rewrite E in Hna. discriminate.
Qed.

Lemma insert_sorted_nodup x l l' :
  insert_sorted x l = Ok l' -> NoDup (x :: l) -> NoDup l'.
Proof.
  revert l'. induction l as [|y t IH]; intros l' H Hn.
  - injection H as <-. assumption.
  - cbn [insert_sorted] in H. destruct (cell_leb x y) as [[|]|]; [| |discriminate].
    + injection H as <-. assumption.
    + destruct (insert_sorted x t) as [t'|] eqn:Ht; [|discriminate].
      injection H as <-.
      inversion Hn as [|? ? Hx Hyt]; subst. inversion Hyt as [|? ? Hy Ht']; subst.
      constructor.
      * intros Hin. apply (insert_sorted_in _ _ _ Ht) in Hin.
        destruct Hin as [->|Hin]; [apply Hx; now left|contradiction].
      * apply (IH t' eq_refl). constructor; [|assumption].
        intros Hin. apply Hx. now right.
Qed.

Lemma sorted_nodup l l' : sorted l = Ok l' -> NoDup l -> NoDup l'.
Proof.
  revert l'. induction l as [|x t IH]; intros l' H Hn.
  - injection H as <-. constructor.
  - cbn [sorted] in H. destruct (sorted t) as [t'|] eqn:Ht; [|discriminate].
    cbn [bind] in H. inversion Hn as [|? ? Hx Hnt]; subst.
    apply (insert_sorted_nodup _ _ _ H). constructor; [|now apply IH].
    intros Hin. apply Hx. now apply (sorted_in _ _ Ht).
Qed.

Lemma sixty_positive : Qsgn 60 = Gt.
Proof. reflexivity. Qed.

(** The rows [group_rows] builds. *)
Lemma group_rows_spec df key :
  (key =? "Ore")%string = false ->
  finite_minutes df ->
  forall ks i, exists agg_rows t,
    group_rows df key i ks = Ok agg_rows /\
    map (fun r => get r key) agg_rows = ks /\
    sum_cells (map (fun r => get r "Ore") agg_rows) = Some (Fin t) /\
    t * 60 ==
    qsum (map (fun k => qsum (map minutes_q
                         (filter (fun x => cell_eqb (get x key) k) (rows df)))) ks).
Proof.
  intros Hkey Hfin ks. induction ks as [|k ks IH]; intros i.
  - exists [], 0. repeat split; reflexivity.
  - destruct (IH (i + 1)%Z) as [rest [t [Hg [Hk [Hs Ht]]]]].
    destruct (sum_cells_finite (filter (fun x => cell_eqb (get x key) k) (rows df)))
      as [s [Hsum Hsq]].
    { intros r Hr. apply filter_In in Hr. apply Hfin. tauto. }
    cbn [group_rows]. unfold col. cbn [filter_rows rows]. rewrite Hsum, Hg.
    cbn [bind].
    eexists. eexists. split; [reflexivity|].
    split; [|split].
    + cbn [map]. f_equal; [|assumption].
      unfold get. cbn [cells cells_get]. now rewrite String.eqb_refl.
    + cbn [map sum_cells]. rewrite Hs.
      unfold get at 1. cbn [cells cells_get]. rewrite Hkey.
      cbn [String.eqb Ascii.eqb Bool.eqb].
      unfold ndiv, sixty. rewrite sixty_positive. cbn [nadd]. reflexivity.
    + cbn [map qsum fold_right].
      fold (qsum (map (fun k => qsum (map minutes_q
                    (filter (fun x => cell_eqb (get x key) k) (rows df)))) ks)).
      rewrite <- Ht, <- Hsq, !Qred_correct. field.
Qed.

Lemma unique_from_text seen l :
  Forall (fun c => is_text c = true) l ->
  Forall (fun c => is_text c = true) (unique_from seen l).
Proof.
  intros H. apply Forall_forall. intros c Hc. apply unique_from_in in Hc.
  rewrite Forall_forall in H. now apply H.
Qed.

(** The hours of the aggregate add up to the hours of the entries that
    have a key. *)
Lemma aggregate_hours_conserved key df agg :
  (key =? "Ore")%string = false ->
  has_col df key = true -> has_col df "Minuti Impiegati" = true ->
  finite_minutes df ->
  aggregate_hours key (Some df) = Ok agg ->
  exists total hours,
    column_sum (filter_rows (fun r => notna (get r key)) df) "Minuti Impiegati"
      = Ok total /\
    column_sum agg "Ore" = Ok hours /\
    num_eq hours (ndiv total sixty) /\
    NoDup (col agg key) /\
    (forall name, In (CStr name) (col agg key) <->
                  exists r, In r (rows df) /\ get r key = CStr name).
Proof.
  intros Hkey Hc Hm Hfin Hagg.
  destruct (sum_cells_finite (filter (fun r => notna (get r key)) (rows df)))
    as [total [Htot Htq]].
  { intros r Hr. apply filter_In in Hr. apply Hfin. tauto. }
  assert (Hsum : column_sum (filter_rows (fun r => notna (get r key)) df)
                            "Minuti Impiegati" = Ok (Fin total)).
  { unfold column_sum, column. change (has_col (filter_rows _ df) "Minuti Impiegati")
      with (has_col df "Minuti Impiegati"). rewrite Hm. cbn [bind].
    unfold col. cbn [filter_rows rows]. now rewrite Htot. }
  unfold aggregate_hours in Hagg. rewrite Hc, Hm in Hagg. cbn [negb orb] in Hagg.
  rewrite orb_false_r in Hagg.
  destruct (is_empty df) eqn:Hemp.
  { injection Hagg as <-.
    pose proof (is_empty_has_col df key Hemp Hc) as Hr.
    exists (Fin total), zero. split; [assumption|].
    unfold col in *. rewrite Hr in *. cbn [filter map sum_cells] in Htot.
    injection Htot as <-.
    split; [unfold column_sum, column, has_col; cbn [columns existsb];
            rewrite String.eqb_refl, orb_true_r; reflexivity|].
    split; [reflexivity|]. split; [constructor|].
    intros name. split; [intros []|]. intros [r [[] _]]. }
  destruct (forallb is_text (filter notna (col df key))) eqn:Htext; [|discriminate].
  destruct (sorted (unique (filter notna (col df key)))) as [ks|] eqn:Hks;
    cbn [bind] in Hagg; [|discriminate].
  destruct (group_rows_spec df key Hkey Hfin ks 0) as [agg_rows [t [Hg [Hkeys [Hore Ht]]]]].
  rewrite Hg in Hagg. cbn [bind] in Hagg. injection Hagg as <-.
  assert (Htxt : Forall (fun c => is_text c = true) (filter notna (col df key))).
  { apply Forall_forall. rewrite forallb_forall in Htext. exact Htext. }
  assert (Hkt : Forall (fun k => is_text k = true) ks).
  { apply Forall_forall. intros k Hk. apply (sorted_in _ _ Hks) in Hk.
    apply unique_from_in in Hk. rewrite Forall_forall in Htxt. now apply Htxt. }
  assert (Hnd : NoDup ks) by (apply (sorted_nodup _ _ Hks), unique_from_nodup).
  assert (Hcov : forall r, In r (rows df) -> notna (get r key) = true ->
                           In (get r key) ks).
  { intros r Hin Hna. apply (sorted_in _ _ Hks).
    assert (Hi : In (get r key) (filter notna (col df key))).
    { apply filter_In. split; [|assumption]. unfold col.
      apply (in_map (fun r => get r key)). assumption. }
    rewrite Forall_forall in Htxt. pose proof (Htxt _ Hi) as Ht1.
    destruct (get r key) as [|s0| |] eqn:E; try discriminate.
    now apply unique_in_str. }
  exists (Fin total), (Fin t). split; [assumption|]. split; [|split; [|split]].
  - unfold column_sum, column, has_col. cbn [columns existsb].
    rewrite String.eqb_refl, orb_true_r. cbn [bind]. unfold col. cbn [rows].
    now rewrite Hore.
  - unfold ndiv, sixty. rewrite sixty_positive. cbn [num_eq]. rewrite Qred_correct.
    rewrite (qsum_groups key ks (rows df) Hkt Hnd Hcov) in Ht.
    rewrite <- Htq in Ht. rewrite <- Ht. field.
  - unfold col. cbn [rows]. now rewrite Hkeys.
  - intros name. unfold col at 1. cbn [rows]. rewrite Hkeys. split.
    + intros Hin. apply (sorted_in _ _ Hks) in Hin. apply unique_from_in in Hin.
      apply filter_In in Hin. destruct Hin as [Hin _]. unfold col in Hin.
      apply in_map_iff in Hin. destruct Hin as [r [Hr Hin]]. now exists r.
    + intros [r [Hin Hr]]. rewrite <- Hr. apply Hcov; [assumption|]. now rewrite Hr.
Qed.

(** X23. When every duration is a finite number, the hours
    [aggregate_hours_by_collaborator] returns add up to the minutes of
    the entries that name a collaborator, divided by 60, with one row
    for each name; the entries without a name are left out.  The same
    holds of [aggregate_hours_by_client] and the clients.  Without a
    table, the result has the two columns and no row. *)
Theorem aggregated_hours_are_conserved (df agg : frame) :
  has_col df "Minuti Impiegati" = true -> finite_minutes df ->
  (has_col df "Nome" = true ->
   aggregate_hours_by_collaborator (Some df) = Ok agg ->
   exists total hours,
     column_sum (filter_rows (fun r => notna (get r "Nome")) df) "Minuti Impiegati"
       = Ok total /\
     column_sum agg "Ore" = Ok hours /\
     num_eq hours (ndiv total sixty) /\
     NoDup (col agg "Nome") /\
     (forall name, In (CStr name) (col agg "Nome") <->
                   exists r, In r (rows df) /\ get r "Nome" = CStr name)) /\
  (has_col df "Cliente" = true ->
   aggregate_hours_by_client (Some df) = Ok agg ->
   exists total hours,
     column_sum (filter_rows (fun r => notna (get r "Cliente")) df) "Minuti Impiegati"
       = Ok total /\
     column_sum agg "Ore" = Ok hours /\
     num_eq hours (ndiv total sixty) /\
     NoDup (col agg "Cliente") /\
     (forall name, In (CStr name) (col agg "Cliente") <->
                   exists r, In r (rows df) /\ get r "Cliente" = CStr name)) /\
  aggregate_hours_by_collaborator None = Ok (mkFrame ["Nome"; "Ore"] []) /\
  aggregate_hours_by_client None = Ok (mkFrame ["Cliente"; "Ore"] []).
Proof.
  intros Hm Hfin. split; [|split; [|split; reflexivity]].
  - intros Hc Hagg. now apply (aggregate_hours_conserved "Nome" df agg).
  - intros Hc Hagg. now apply (aggregate_hours_conserved "Cliente" df agg).
Qed.

Lemma aggregated_hours_are_conserved_witness :
  exists total hours,
    column_sum (filter_rows (fun r => notna (get r "Nome")) hours_table)
               "Minuti Impiegati" = Ok total /\
    column_sum hours_by_name "Ore" = Ok hours /\
    num_eq hours (ndiv total sixty) /\
    NoDup (col hours_by_name "Nome") /\
    (forall name, In (CStr name) (col hours_by_name "Nome") <->
                  exists r, In r (rows hours_table) /\ get r "Nome" = CStr name).
Proof.
  refine (proj1 (aggregated_hours_are_conserved hours_table hours_by_name _ _) _ _).
  - reflexivity.
  - intros r Hin. simpl in Hin.
    destruct Hin as [<-|[<-|[<-|[<-|[]]]]]; eexists; reflexivity.
  - reflexivity.
  - vm_compute. reflexivity.
Defined.

(* ----------------------------------------------------------------- *)
(** ** Sheets as they are read *)

Lemma labelled_rows_cells headers data : forall i r,
  In r (labelled_rows headers i data) ->
  exists texts, In texts data /\ cells r = combine headers (map CStr texts).
Proof.
  induction data as [|t data IH]; intros i r Hin; [destruct Hin|].
  cbn [labelled_rows] in Hin. destruct Hin as [<-|Hin].
  - exists t. split; [now left|reflexivity].
  - destruct (IH _ _ Hin) as [texts [H1 H2]]. exists texts. split; [now right|assumption].
Qed.

Lemma combine_get_text headers : forall texts name,
  existsb (String.eqb name) headers = true ->
  List.length texts = List.length headers ->
  exists text, cells_get (combine headers (map CStr texts)) name = CStr text.
Proof.
  induction headers as [|h hs IH]; intros texts name Hcol Hlen; [discriminate|].
  destruct texts as [|t ts]; [discriminate|].
  cbn [map combine cells_get]. cbn [existsb] in Hcol.
  destruct (h =? name) eqn:E; [now eexists|].
  rewrite String.eqb_sym, E in Hcol. cbn [orb] in Hcol.
  apply IH; [assumption|]. cbn [List.length] in Hlen. lia.
Qed.

(** X24. [dropna(how='all')] removes no row of a sheet that was read:
    the cells of a sheet are texts, the empty text included, and a text
    is never null.  So the time entries [load_sheets_data] returns are
    all the rows of the sheet "Logbook", its blank rows among them. *)
Theorem blank_rows_are_loaded (s : sheets) (l : frame) :
  essential_sheets_read s = true ->
  read_sheet (sh_logbook s) = Some l ->
  columns l <> [] ->
  dropna_all l = l /\
  logbook_df (load_sheets_data s) = Some l /\
  (forall r name, In r (rows l) -> has_col l name = true ->
                  exists text, get r name = CStr text).
Proof.
  intros He Hl Hc.
  assert (Hrows : exists headers data,
            l = mkFrame headers (labelled_rows headers 0 data) /\
            forall texts, In texts data -> List.length texts = List.length headers).
  { unfold read_sheet in Hl. destruct (sh_logbook s) as [[|headers data]|];
      try discriminate.
    unfold data_frame in Hl.
    destruct (forallb _ data) eqn:Hf; [|discriminate]. injection Hl as <-.
    exists headers, data. split; [reflexivity|].
    intros texts Hin. rewrite forallb_forall in Hf.
    apply Nat.eqb_eq. now apply Hf. }
  destruct Hrows as [headers [data [-> Hlen]]]. cbn [columns rows] in *.
  assert (Hkeep : dropna_all (mkFrame headers (labelled_rows headers 0 data)) =
                  mkFrame headers (labelled_rows headers 0 data)).
  { unfold dropna_all. apply filter_rows_all. cbn [rows]. intros r Hin.
    destruct (labelled_rows_cells _ _ _ _ Hin) as [texts [Ht Hcells]].
    rewrite Hcells. specialize (Hlen texts Ht).
    destruct headers as [|h hs]; [now elim Hc|].
    destruct texts as [|t ts]; [discriminate|]. reflexivity. }
  split; [exact Hkeep|]. split.
  - unfold essential_sheets_read in He. unfold load_sheets_data.
    rewrite Hl in *.
    destruct (read_sheet (sh_clienti s)); [|discriminate].
    destruct (read_sheet (sh_compensi s)); [|discriminate].
    cbn [logbook_df]. now rewrite Hkeep.
  - intros r name Hin Hcol.
    destruct (labelled_rows_cells _ _ _ _ Hin) as [texts [Ht Hcells]].
    unfold get. rewrite Hcells. specialize (Hlen texts Ht).
    unfold has_col in Hcol. cbn [columns] in Hcol.
    now apply combine_get_text.
Qed.

Lemma blank_rows_are_loaded_witness :
  dropna_all (frame_of (read_sheet (sh_logbook scenario_sheets))) =
  frame_of (read_sheet (sh_logbook scenario_sheets)).
Proof.
  refine (proj1 (blank_rows_are_loaded scenario_sheets
                   (frame_of (read_sheet (sh_logbook scenario_sheets))) _ _ _)).
  - reflexivity.
  - reflexivity.
  - discriminate.
Defined.


(* ----------------------------------------------------------------- *)
(** ** Texts with a dot and no comma *)

Lemma str_in_none c l :
  Forall (fun x => Ascii.eqb c x = false) l -> str_in (String c "") (str l) = false.
Proof.
  induction 1 as [|x l Hx Hl IH]; [reflexivity|].
  cbn [string_of_list_ascii str_in]. rewrite prefix_single, Hx, IH. reflexivity.
Qed.

Lemma digit_chars_plain ds :
  Forall (fun d => (d < 10)%N) ds -> Forall plain_digit (digit_chars ds).
Proof.
  intros H. unfold digit_chars. apply Forall_map.
  eapply Forall_impl; [|exact H]. intros d Hd. now apply char_of_digit_plain.
Qed.

Section DottedText.
Variables ds1 ds2 : list N.
Hypothesis digits1 : Forall (fun d => (d < 10)%N) ds1.
Hypothesis digits2 : Forall (fun d => (d < 10)%N) ds2.
Hypothesis some_digit : ds1 <> [].

Let text : list ascii := (digit_chars ds1 ++ "."%char :: digit_chars ds2)%list.

Lemma text_chars : Forall (fun x => x = "."%char \/ plain_digit x) text.
Proof.
  unfold text. apply Forall_app. split.
  - eapply Forall_impl; [|apply (digit_chars_plain ds1 digits1)]. intros x H. now right.
  - constructor; [now left|].
    eapply Forall_impl; [|apply (digit_chars_plain ds2 digits2)]. intros x H. now right.
Qed.

Lemma text_cleaned : strip (str_replace euro "" (str text)) = str text.
Proof.
  rewrite <- (append_empty_r (str text)) at 1.
  rewrite delete_euro_after.
  2:{ eapply Forall_impl; [|apply text_chars].
      intros x [->|H]; [reflexivity|apply (pd_euro x H)]. }
  change (str_replace euro "" "") with "". rewrite append_empty_r.
  rewrite strip_ascii, lstrip_by_keeps.
  3:{ eapply Forall_impl; [|apply text_chars].
      intros x [->|H]; [reflexivity|apply (pd_ascii x H)]. }
  2:{ eapply Forall_impl; [|apply text_chars].
      intros x [->|H]; [reflexivity|apply (pd_space x H)]. }
  rewrite <- (append_empty_r (str text)) at 1.
  rewrite rstrip_by_keeps.
  2:{ eapply Forall_impl; [|apply text_chars].
      intros x [->|H]; [reflexivity|apply (pd_space x H)]. }
  cbn [rstrip_by]. apply append_empty_r.
Qed.

Lemma text_no_comma : str_in "," (str text) = false.
Proof.
  apply str_in_none. eapply Forall_impl; [|apply text_chars].
  intros x [->|H]; [reflexivity|apply (pd_comma x H)].
Qed.

Lemma text_parsed :
  parse_decimal true (str text) =
  Some (Qred (inject_Z (Z.of_N (value_msd (ds1 ++ ds2))) *
              pow10 (0 - Z.of_nat (List.length ds2)))).
Proof.
  unfold parse_decimal, text, digit_chars. rewrite str_app.
  rewrite (scan_digits_run true ds1 0 0 _ digits1) by (split; reflexivity).
  cbn [string_of_list_ascii].
  rewrite <- (append_empty_r (str (map char_of_digit ds2))).
  rewrite (scan_digits_run true ds2 _ 0 "" digits2 I).
  destruct ds1 as [|d ds]; [now elim some_digit|].
  cbn [List.length Nat.add Nat.eqb scan_exponent].
  unfold value_msd. rewrite fold_left_app. reflexivity.
Qed.

Lemma text_read :
  convert_eu_to_number (CStr (str text)) =
  Fin (Qred (inject_Z (Z.of_N (value_msd (ds1 ++ ds2))) *
             pow10 (0 - Z.of_nat (List.length ds2)))).
Proof.
  unfold convert_eu_to_number. rewrite text_cleaned, text_no_comma.
  unfold py_float.
  rewrite lstrip_by_keeps.
  2:{ eapply Forall_impl; [|apply text_chars].
      intros x [->|H]; [reflexivity|apply (pd_space_c x H)]. }
  rewrite <- (append_empty_r (str text)) at 1.
  rewrite rstrip_by_keeps.
  2:{ eapply Forall_impl; [|apply text_chars].
      intros x [->|H]; [reflexivity|apply (pd_space_c x H)]. }
  cbn [rstrip_by]. rewrite append_empty_r.
  unfold parse_number.
  assert (Hh : exists d t, (d < 10)%N /\ str text = String (char_of_digit d) t).
  { unfold text, digit_chars. destruct ds1 as [|d ds]; [now elim some_digit|].
    inversion digits1; subst. exists d. eexists. split; [assumption|reflexivity]. }
  destruct Hh as [d [t [Hd Ht]]].
  destruct (digit_head d t Hd) as [Hs Hp].
  pose proof text_parsed as Hdec.
  rewrite Ht in *. rewrite Hs, Hp, Hdec. reflexivity.
Qed.

(** The same text followed by a second dot and more digits. *)
Variable ds3 : list N.
Hypothesis digits3 : Forall (fun d => (d < 10)%N) ds3.

Let text3 : list ascii := (text ++ "."%char :: digit_chars ds3)%list.

Lemma text3_chars : Forall (fun x => x = "."%char \/ plain_digit x) text3.
Proof.
  unfold text3. apply Forall_app. split; [apply text_chars|].
  constructor; [now left|].
  eapply Forall_impl; [|apply (digit_chars_plain ds3 digits3)]. intros x H. now right.
Qed.

Lemma text3_parsed : parse_decimal true (str text3) = None.
Proof.
  unfold parse_decimal, text3, text, digit_chars.
  rewrite <- app_assoc. rewrite str_app.
  rewrite (scan_digits_run true ds1 0 0 _ digits1) by (split; reflexivity).
  cbn [app string_of_list_ascii]. rewrite str_app.
  rewrite (scan_digits_run true ds2 _ 0 _ digits2) by (split; reflexivity).
  destruct ds1 as [|d ds]; [now elim some_digit|].
  cbn [List.length Nat.add Nat.eqb string_of_list_ascii scan_exponent].
  reflexivity.
Qed.

Lemma text3_read : convert_eu_to_number (CStr (str text3)) = zero.
Proof.
  unfold convert_eu_to_number.
  assert (Hclean : strip (str_replace euro "" (str text3)) = str text3).
  { rewrite <- (append_empty_r (str text3)) at 1.
    rewrite delete_euro_after.
    2:{ eapply Forall_impl; [|apply text3_chars].
        intros x [->|H]; [reflexivity|apply (pd_euro x H)]. }
    change (str_replace euro "" "") with "". rewrite append_empty_r.
    rewrite strip_ascii, lstrip_by_keeps.
    3:{ eapply Forall_impl; [|apply text3_chars].
        intros x [->|H]; [reflexivity|apply (pd_ascii x H)]. }
    2:{ eapply Forall_impl; [|apply text3_chars].
        intros x [->|H]; [reflexivity|apply (pd_space x H)]. }
    rewrite <- (append_empty_r (str text3)) at 1.
    rewrite rstrip_by_keeps.
    2:{ eapply Forall_impl; [|apply text3_chars].
        intros x [->|H]; [reflexivity|apply (pd_space x H)]. }
    cbn [rstrip_by]. apply append_empty_r. }
  rewrite Hclean.
  rewrite str_in_none.
  2:{ eapply Forall_impl; [|apply text3_chars].
      intros x [->|H]; [reflexivity|apply (pd_comma x H)]. }
  unfold py_float.
  rewrite lstrip_by_keeps.
  2:{ eapply Forall_impl; [|apply text3_chars].
      intros x [->|H]; [reflexivity|apply (pd_space_c x H)]. }
  rewrite <- (append_empty_r (str text3)) at 1.
  rewrite rstrip_by_keeps.
  2:{ eapply Forall_impl; [|apply text3_chars].
      intros x [->|H]; [reflexivity|apply (pd_space_c x H)]. }
  cbn [rstrip_by]. rewrite append_empty_r.
  unfold parse_number.
  assert (Hh : exists d t, (d < 10)%N /\ str text3 = String (char_of_digit d) t).
  { unfold text3, text, digit_chars. destruct ds1 as [|d ds]; [now elim some_digit|].
    inversion digits1; subst. exists d. eexists. split; [assumption|reflexivity]. }
  destruct Hh as [d [t [Hd Ht]]].
  destruct (digit_head d t Hd) as [Hs Hp].
  pose proof text3_parsed as Hdec.
  rewrite Ht in *. rewrite Hs, Hp, Hdec. reflexivity.
Qed.
End DottedText.

Lemma thousandths_value (n : N) :
  Qred (inject_Z (Z.of_N n) * pow10 (0 - 3)) == Z.of_N n # 1000.
Proof.
  rewrite Qred_correct. unfold Qeq, Qmult, inject_Z, pow10; cbn [Qnum Qden Z.sub Z.opp Z.add].
  change (Z.pos (1 * 10 ^ 3)) with 1000%Z. lia.
Qed.

(** X25. In a text that has no comma [convert_eu_to_number] takes the
    dot for the decimal point: digits, a dot and three digits, the way
    an amount is written with a thousands dot and no decimals ("1.234"),
    are read as a thousandth of that amount, and with a second group
    ("1.234.567") as 0; only a text with a comma has its dots removed. *)
Theorem thousands_dot_is_read_as_decimal_point (ds1 ds2 ds3 : list N) :
  Forall (fun d => (d < 10)%N) ds1 -> Forall (fun d => (d < 10)%N) ds2 ->
  Forall (fun d => (d < 10)%N) ds3 ->
  ds1 <> [] -> List.length ds2 = 3%nat ->
  num_eq (convert_eu_to_number
            (CStr (string_of_list_ascii
                     (digit_chars ds1 ++ "."%char :: digit_chars ds2))))
         (Fin (Z.of_N (value_msd (ds1 ++ ds2)) # 1000)) /\
  convert_eu_to_number
    (CStr (string_of_list_ascii
             ((digit_chars ds1 ++ "."%char :: digit_chars ds2) ++
              "."%char :: digit_chars ds3))) = zero /\
  num_eq (convert_eu_to_number (CStr "1.234")) (Fin (1234 # 1000)) /\
  convert_eu_to_number (CStr "1.234.567") = zero /\
  convert_eu_to_number (CStr "1.234,00") = Fin 1234.
Proof.
  intros H1 H2 H3 Hne Hlen. split; [|split; [|split; [|split]]].
  - rewrite (text_read ds1 ds2 H1 H2 Hne), Hlen. apply thousandths_value.
  - apply (text3_read ds1 ds2 H1 H2 Hne ds3 H3).
  - vm_compute. reflexivity.
  - vm_compute. reflexivity.
  - vm_compute. reflexivity.
Qed.

Lemma thousands_dot_is_read_as_decimal_point_witness :
  num_eq (convert_eu_to_number
            (CStr (string_of_list_ascii
                     (digit_chars [1%N; 2%N] ++ "."%char :: digit_chars [5%N; 0%N; 0%N]))))
         (Fin (Z.of_N (value_msd ([1%N; 2%N] ++ [5%N; 0%N; 0%N])) # 1000)).
Proof.
  refine (proj1 (thousands_dot_is_read_as_decimal_point [1%N; 2%N] [5%N; 0%N; 0%N] []
                   _ _ _ _ _)).
  - repeat constructor.
  - repeat constructor.
  - constructor.
  - discriminate.
  - reflexivity.
Defined.


(* ----------------------------------------------------------------- *)
(** ** Labels that are not names *)

Lemma prefix_empty s : prefix "" s = true.
Proof. now destruct s. Qed.

Lemma str_in_empty s : str_in "" s = true.
Proof. destruct s; cbn [str_in]; now rewrite prefix_empty. Qed.

Lemma cell_eqb_null c : cell_eqb c CNull = false.
Proof. now destruct c. Qed.

(** X26. Two labels that are not names.  The empty text is contained in
    every name: when no revenue row is named by the empty text, looking
    it up returns the whole table, so an entry without a client is
    credited with the revenue of every client.  A null label (the client
    of every entry when the logbook has no client column) makes the
    search by content raise [TypeError], and the loop over the clients
    with it. *)
Theorem labels_that_are_not_names (clienti : frame) :
  is_empty clienti = false -> has_col clienti "Cliente" = true ->
  ((forall r, In r (rows clienti) ->
              exists name, get r "Cliente" = CStr name /\ name <> "") ->
   find_client_row (Some clienti) (CStr "") = Ok (Some clienti) /\
   forall months rest total,
     revenue_loop clienti months (CStr "" :: rest) total =
     revenue_loop clienti months rest (client_revenue clienti months total)) /\
  find_client_row (Some clienti) CNull =
    Raise (TypeError "first argument must be string or compiled pattern") /\
  (forall months rest total,
     revenue_loop clienti months (CNull :: rest) total =
     Raise (TypeError "first argument must be string or compiled pattern")).
Proof.
  intros Hne Hc.
  assert (Hnull : find_client_row (Some clienti) CNull =
                  Raise (TypeError "first argument must be string or compiled pattern")).
  { unfold find_client_row. rewrite Hne, Hc.
    replace (is_empty (filter_rows (fun r => cell_eqb (get r "Cliente") CNull) clienti))
      with true; [reflexivity|].
    symmetry. apply is_empty_rows. cbn [filter_rows rows].
    apply filter_none. intros r _. apply cell_eqb_null. }
  split; [|split; [exact Hnull|]].
  - intros Hnames.
    assert (Hfind : find_client_row (Some clienti) (CStr "") = Ok (Some clienti)).
    { unfold find_client_row. rewrite Hne, Hc.
      replace (is_empty (filter_rows (fun r => cell_eqb (get r "Cliente") (CStr "")) clienti))
        with true.
      2:{ symmetry. apply is_empty_rows. cbn [filter_rows rows].
          apply filter_none. intros r Hr. destruct (Hnames r Hr) as [name [-> Hn]].
          cbn [cell_eqb]. apply String.eqb_neq. assumption. }
      cbn [negb regex_free].
      replace (filter_rows (fun r => contains_nocase "" (get r "Cliente")) clienti)
        with clienti.
      - now rewrite Hne.
      - symmetry. apply filter_rows_all. intros r Hr.
        destruct (Hnames r Hr) as [name [-> _]]. apply str_in_empty. }
    split; [exact Hfind|].
    intros months rest total. cbn [revenue_loop]. rewrite Hfind. cbn [bind].
    now rewrite Hne.
  - intros months rest total. cbn [revenue_loop]. now rewrite Hnull.
Qed.

Lemma labels_that_are_not_names_witness :
  find_client_row (Some two_acos_rows) (CStr "") = Ok (Some two_acos_rows).
Proof.
  refine (proj1 (proj1 (labels_that_are_not_names two_acos_rows _ _) _)).
  - reflexivity.
  - reflexivity.
  - intros r Hr. simpl in Hr.
    destruct Hr as [<-|[<-|[]]]; eexists; (split; [reflexivity|discriminate]).
Defined.

(* ----------------------------------------------------------------- *)
(** ** Metrics of a selection without entries *)

(** For the table [process_logbook] makes of a sheet without entries,
    [filter_data] returns a table without columns, and the KPI block
    raises [KeyError] on the duration column. *)
Lemma empty_table_has_no_duration_column : ~ zero_metrics_on_empty_table.
Proof.
  intros H.
  specialize (H (add_mese_formattato
                   (process_logbook it_IT
                      (logbook_df (load_sheets_data empty_logbook_sheets))))
                empty_frame empty_frame [] [] []
                (mkDate 2024 3 1) (mkDate 2024 3 31) eq_refl).
  vm_compute in H. discriminate H.
Qed.

Example empty_table_raises :
  compute_metrics
    (filter_data (Some (mkFrame required_columns [])) (Some (mkDate 2024 3 1))
                 (Some (mkDate 2024 3 31)) None None None None None)
    (mkFrame required_columns []) empty_frame empty_frame [] [] []
    (mkDate 2024 3 1) (mkDate 2024 3 31)
  = Raise (KeyError "Minuti Impiegati").
Proof. reflexivity. Qed.

Example empty_logbook_stops :
  main it_IT empty_logbook_sheets march_2024 = Stopped no_valid_data.
Proof. vm_compute. reflexivity. Qed.

(** A period without entries, on the sheets of the scenario. *)
Example scenario_in_april :
  main it_IT scenario_sheets april_2024 = Displayed zero_metrics.
Proof. vm_compute. reflexivity. Qed.

Lemma main_on_empty_logbook loc sh ui :
  essential_sheets_read sh = true -> rows (loaded_logbook sh) = [] ->
  main loc sh ui = Stopped no_valid_data.
Proof.
  intros He Hr. destruct (main_loaded loc sh ui He) as [c [p Hm]]. rewrite Hm. cbv zeta.
  assert (Hemp : is_empty (add_mese_formattato
                             (process_logbook loc (Some (loaded_logbook sh)))) = true).
  { apply logbook_processed_empty. rewrite Hr. intros r0 []. }
  now rewrite Hemp.
Qed.

(** The two ratios of the KPI block are guarded. *)
Lemma compute_metrics_guards compensi clienti client_map cc cr s e f lp m :
  compute_metrics f lp compensi clienti client_map cc cr s e = Ok m ->
  (gt0 (total_company_hours m) = false -> average_hourly_cost m = zero) /\
  (neq0 (total_revenue m) = false -> margin_percentage m = zero).
Proof.
  unfold compute_metrics.
  destruct (column_sum f "Minuti Impiegati") as [minutes|]; cbn [bind]; [|discriminate].
  match goal with
  | |- context [bind (if ?c then _ else _) _] => destruct c
  end.
  + destruct (column_sum _ "Minuti Impiegati") as [cm|]; cbn [bind]; [|discriminate].
    match goal with
    | |- context [bind (if ?c then _ else _) _] => destruct c
    end.
    * destruct (revenue_loop _ _ _ _) as [rev|]; cbn [bind]; [|discriminate].
      intros H. injection H as <-. cbn [total_company_hours average_hourly_cost
        total_revenue margin_percentage].
      split; intros ->; reflexivity.
    * cbn [bind]. intros H. injection H as <-.
      cbn [total_company_hours average_hourly_cost total_revenue margin_percentage].
      split; [intros ->; reflexivity|reflexivity].
  + cbn [bind].
    match goal with
    | |- context [bind (if ?c then _ else _) _] => destruct c
    end.
    * destruct (revenue_loop _ _ _ _) as [rev|]; cbn [bind]; [|discriminate].
      intros H. injection H as <-. cbn [total_company_hours average_hourly_cost
        total_revenue margin_percentage].
      split; [reflexivity|intros ->; reflexivity].
    * cbn [bind]. intros H. injection H as <-.
      cbn [total_company_hours average_hourly_cost total_revenue margin_percentage].
      split; reflexivity.
Qed.

(** C9 (as amended). When the filter keeps no entry of a time-entry
    table that has rows and its duration column, the KPI block raises
    nothing and returns zero hours, zero cost, zero revenue, zero margin
    and zero margin percentage; whatever the tables, the two ratios are
    zero when their denominator is not positive, respectively is zero;
    and on an entirely empty time-entry table no metric is computed:
    [main] stops before, with the message of the log without valid
    data. *)
Theorem compute_metrics_empty
  (logbook_processed compensi clienti : frame) (client_map : dict)
  (collaborators_for_costs clients_for_revenue : list cell) (s e : date)
  (co de ma mi cl : option (list cell)) :
  is_empty logbook_processed = false ->
  has_col logbook_processed "Minuti Impiegati" = true ->
  rows (filter_data (Some logbook_processed) (Some s) (Some e) co de ma mi cl) = [] ->
  compute_metrics (filter_data (Some logbook_processed) (Some s) (Some e) co de ma mi cl)
                  logbook_processed compensi clienti client_map
                  collaborators_for_costs clients_for_revenue s e
    = Ok zero_metrics /\
  (forall f lp m,
     compute_metrics f lp compensi clienti client_map
                     collaborators_for_costs clients_for_revenue s e = Ok m ->
     (gt0 (total_company_hours m) = false -> average_hourly_cost m = zero) /\
     (neq0 (total_revenue m) = false -> margin_percentage m = zero)) /\
  (forall loc sh ui,
     essential_sheets_read sh = true -> rows (loaded_logbook sh) = [] ->
     main loc sh ui = Stopped no_valid_data).
Proof.
  intros Hne Hcol Hrows. split; [|split].
  - assert (Hc : has_col (filter_data (Some logbook_processed) (Some s) (Some e)
                                      co de ma mi cl) "Minuti Impiegati" = true).
    { unfold has_col. rewrite filter_data_columns, Hne. exact Hcol. }
    unfold compute_metrics.
    rewrite (column_sum_empty _ _ Hrows Hc), (selected_months_empty _ Hrows).
    cbn [bind is_nil negb andb].
    rewrite !andb_false_r. reflexivity.
  - intros f lp m. apply compute_metrics_guards.
  - exact main_on_empty_logbook.
Qed.

(** The entries of the collaborator "A" in April, on the sheets of the
    scenario: there is none, and the compensation of "A" costs nothing. *)
Lemma compute_metrics_empty_witness :
  compute_metrics
    (filter_data (Some (scenario_logbook it_IT)) (Some (mkDate 2024 4 1))
                 (Some (mkDate 2024 4 30)) (Some [CStr "A"]) None None None None)
    (scenario_logbook it_IT)
    (frame_of (compensi_df (load_sheets_data scenario_sheets)))
    (frame_of (clienti_df (load_sheets_data scenario_sheets)))
    default_client_map [CStr "A"] [CStr "X"] (mkDate 2024 4 1) (mkDate 2024 4 30)
  = Ok zero_metrics.
Proof.
  refine (proj1 (compute_metrics_empty (scenario_logbook it_IT)
                   (frame_of (compensi_df (load_sheets_data scenario_sheets)))
                   (frame_of (clienti_df (load_sheets_data scenario_sheets)))
                   default_client_map [CStr "A"] [CStr "X"]
                   (mkDate 2024 4 1) (mkDate 2024 4 30)
                   (Some [CStr "A"]) None None None None _ _ _));
    vm_compute; reflexivity.
Defined.
